(** * Hasal trigger: build-change triggered dispatch engine

    A shallow embedding of [ejenti/pulse_modules/tasksTrigger.py]
    (class [TasksTrigger]) and the properties of its change detection,
    fan-out and scheduling code.

    Conventions of the embedding:
    - Python 2 [str] values are [string]s (sequences of bytes);
    - dictionaries are [gmap]s, Python sets are [gset]s;
    - code that touches the file system, the broker, the status files or
      the log runs in a state-and-exception monad [M] over a [world];
    - everything the code reads from outside (HTTP responses, the history
      table, the clock, ...) is a field of an [environment]. *)

From Stdlib Require Import ZArith NArith String Ascii List Lia.
From stdpp Require Import gmap strings list pretty sorting.

Local Open Scope string_scope.
Local Open Scope Z_scope.

(** ** Python string primitives used by the module *)

Module PyStr.

(** [s.endswith(suffix)] *)
Definition endswith (s suffix : string) : bool :=
  let n := String.length s in
  let m := String.length suffix in
  if (m <=? n)%nat then String.eqb (substring (n - m) m s) suffix else false.

(** [s.split(sep)] for a one-character separator: every occurrence of
    the separator cuts; the result is never empty. *)
Fixpoint split (sep : ascii) (s : string) : list string :=
  match s with
  | EmptyString => [EmptyString]
  | String c rest =>
      if Ascii.eqb c sep then EmptyString :: split sep rest
      else match split sep rest with
           | [] => [String c EmptyString]
           | w :: ws => String c w :: ws
           end
  end.

(** [f.readline()] on a file whose whole content is [s]: the first line,
    its newline included. *)
Fixpoint readline (s : string) : string :=
  match s with
  | EmptyString => EmptyString
  | String c rest =>
      if Ascii.eqb c "010"%char then String c EmptyString
      else String c (readline rest)
  end.

(** [f.readlines()]: the lines of [s], each keeping its newline. *)
Fixpoint readlines_aux (cur : string) (s : string) : list string :=
  match s with
  | EmptyString => if String.eqb cur EmptyString then [] else [cur]
  | String c rest =>
      if Ascii.eqb c "010"%char
      then (cur ++ String c EmptyString) :: readlines_aux EmptyString rest
      else readlines_aux (cur ++ String c EmptyString) rest
  end.

Definition readlines (s : string) : list string := readlines_aux EmptyString s.

Definition quote : ascii := "034"%char.

(** The shortest run of characters other than a newline that ends just
    before a double quote: what the lazy [.*?] followed by the
    lookahead matches at the start of [s]. *)
Fixpoint until_quote (s : string) : option string :=
  match s with
  | EmptyString => None
  | String c rest =>
      if Ascii.eqb c quote then Some EmptyString
      else if Ascii.eqb c "010"%char then None
      else String c <$> until_quote rest
  end.

(** [re.search(pat, s)] for the pattern [(?<=LOOKBEHIND).*?(?=QUOTE)]:
    the leftmost position preceded by [lookbehind] from which the lazy
    match succeeds. The argument [seen] is the text already scanned. *)
Fixpoint search_after (lookbehind : string) (seen s : string) : option string :=
  match (if endswith seen lookbehind then until_quote s else None) with
  | Some m => Some m
  | None =>
      match s with
      | EmptyString => None
      | String c rest => search_after lookbehind (seen ++ String c EmptyString) rest
      end
  end.

(** [s.read(n)] repeated until the end of the stream: the content cut
    in chunks of [n] bytes (the read after the last chunk is empty). *)
Fixpoint chunks_aux (fuel n : nat) (s : string) : list string :=
  match fuel with
  | O => []
  | S fuel' =>
      if String.eqb s EmptyString then []
      else substring 0 n s :: chunks_aux fuel' n (substring n (String.length s - n) s)
  end.

Definition chunks (n : nat) (s : string) : list string :=
  chunks_aux (String.length s) n s.

End PyStr.

(** ** [hashlib.md5] (RFC 1321) on byte strings *)

Module MD5.
Local Open Scope N_scope.

Definition mask32 (x : N) : N := N.land x 0xffffffff.
Definition add32 (x y : N) : N := mask32 (x + y).
Definition not32 (x : N) : N := N.lxor (mask32 x) 0xffffffff.
Definition rotl32 (x c : N) : N :=
  mask32 (N.lor (N.shiftl x c) (N.shiftr x (32 - c))).

Definition K : list N :=
  [ 0xd76aa478; 0xe8c7b756; 0x242070db; 0xc1bdceee;
    0xf57c0faf; 0x4787c62a; 0xa8304613; 0xfd469501;
    0x698098d8; 0x8b44f7af; 0xffff5bb1; 0x895cd7be;
    0x6b901122; 0xfd987193; 0xa679438e; 0x49b40821;
    0xf61e2562; 0xc040b340; 0x265e5a51; 0xe9b6c7aa;
    0xd62f105d; 0x02441453; 0xd8a1e681; 0xe7d3fbc8;
    0x21e1cde6; 0xc33707d6; 0xf4d50d87; 0x455a14ed;
    0xa9e3e905; 0xfcefa3f8; 0x676f02d9; 0x8d2a4c8a;
    0xfffa3942; 0x8771f681; 0x6d9d6122; 0xfde5380c;
    0xa4beea44; 0x4bdecfa9; 0xf6bb4b60; 0xbebfbc70;
    0x289b7ec6; 0xeaa127fa; 0xd4ef3085; 0x04881d05;
    0xd9d4d039; 0xe6db99e5; 0x1fa27cf8; 0xc4ac5665;
    0xf4292244; 0x432aff97; 0xab9423a7; 0xfc93a039;
    0x655b59c3; 0x8f0ccc92; 0xffeff47d; 0x85845dd1;
    0x6fa87e4f; 0xfe2ce6e0; 0xa3014314; 0x4e0811a1;
    0xf7537e82; 0xbd3af235; 0x2ad7d2bb; 0xeb86d391 ].

Definition shifts : list N :=
  [ 7; 12; 17; 22; 7; 12; 17; 22; 7; 12; 17; 22; 7; 12; 17; 22;
    5; 9; 14; 20; 5; 9; 14; 20; 5; 9; 14; 20; 5; 9; 14; 20;
    4; 11; 16; 23; 4; 11; 16; 23; 4; 11; 16; 23; 4; 11; 16; 23;
    6; 10; 15; 21; 6; 10; 15; 21; 6; 10; 15; 21; 6; 10; 15; 21 ].

Definition bytes_of (s : string) : list N :=
  N_of_ascii <$> list_ascii_of_string s.

(** [w] as [n] little-endian bytes *)
Fixpoint le_bytes (n : nat) (w : N) : list N :=
  match n with
  | O => []
  | S n' => N.land w 0xff :: le_bytes n' (N.shiftr w 8)
  end.

Definition pad (msg : list N) : list N :=
  let len := N.of_nat (length msg) in
  let zeros := N.to_nat ((119 - len mod 64) mod 64) in
  msg ++ [0x80] ++ replicate zeros 0 ++ le_bytes 8 (N.land (len * 8) 0xffffffffffffffff).

Fixpoint word_le (bs : list N) : N :=
  match bs with
  | [] => 0
  | b :: bs' => b + N.shiftl (word_le bs') 8
  end.

(** the sixteen 32-bit words of a 64-byte block *)
Fixpoint words (n : nat) (bs : list N) : list N :=
  match n with
  | O => []
  | S n' => word_le (take 4 bs) :: words n' (drop 4 bs)
  end.

Record regs := Regs { rA : N; rB : N; rC : N; rD : N }.

Definition init : regs :=
  Regs 0x67452301 0xefcdab89 0x98badcfe 0x10325476.

Definition step (m : list N) (r : regs) (i : N) : regs :=
  let '(Regs a b c d) := r in
  let '(f, g) :=
    if i <? 16 then (N.lor (N.land b c) (N.land (not32 b) d), i)
    else if i <? 32 then (N.lor (N.land d b) (N.land (not32 d) c), (5 * i + 1) mod 16)
    else if i <? 48 then (N.lxor (N.lxor b c) d, (3 * i + 5) mod 16)
    else (N.lxor c (N.lor b (not32 d)), (7 * i) mod 16) in
  let f' := add32 (add32 (add32 f a) (nth (N.to_nat i) K 0)) (nth (N.to_nat g) m 0) in
  Regs d (add32 b (rotl32 f' (nth (N.to_nat i) shifts 0))) b c.

Definition block (r : regs) (bs : list N) : regs :=
  let m := words 16 bs in
  let r' := foldl (step m) r (N.of_nat <$> seq 0 64) in
  Regs (add32 (rA r) (rA r')) (add32 (rB r) (rB r'))
       (add32 (rC r) (rC r')) (add32 (rD r) (rD r')).

Fixpoint blocks (n : nat) (r : regs) (bs : list N) : regs :=
  match n with
  | O => r
  | S n' => blocks n' (block r (take 64 bs)) (drop 64 bs)
  end.

Definition hex_digit (n : N) : ascii :=
  nth (N.to_nat n) (list_ascii_of_string "0123456789abcdef") "0"%char.

Definition hex_byte (b : N) : string :=
  String (hex_digit (N.shiftr b 4)) (String (hex_digit (N.land b 0xf)) EmptyString).

Definition digest (msg : list N) : list N :=
  let p := pad msg in
  let r := blocks (length p / 64) init p in
  le_bytes 4 (rA r) ++ le_bytes 4 (rB r) ++ le_bytes 4 (rC r) ++ le_bytes 4 (rD r).

(** [hashlib.md5(data).hexdigest()] *)
Definition hexdigest (data : string) : string :=
  foldr (fun b acc => hex_byte b ++ acc)%string EmptyString (digest (bytes_of data)).

End MD5.

(** ** Data model *)

(** JSON-like values held by a command config. *)
#[local] Set Warnings "-register-all".
Inductive value :=
| VNone
| VBool (b : bool)
| VInt (n : Z)
| VStr (s : string)
| VList (l : list value)
| VDict (d : list (string * value)).

(** A command config: a [dict] from option names to values. *)
Abbreviation config := (gmap string value).

(** Modelled from the spec: [lib.modules.build_information.BuildInformation]
    is not among the sources; the spec gives it an archive URL and a
    revision, and the history table maps a timestamp to the data the
    constructor wraps. *)
Record BuildInformation := mkBuildInformation {
  archive_url : string;
  revision : string
}.

(** One entry of the [jobs] mapping of the trigger config. Every key is
    optional in the file; a key that is present holds a value of the type
    documented in [run]. *)
Record job_detail := mkJobDetail {
  jd_enable : option bool;
  jd_topic : option string;
  jd_platform_build : option string;
  jd_interval_minutes : option Z;
  jd_cmd : option string;
  jd_amount : option Z;
  jd_configs : option config
}.

Definition KEY_JOBS_ENABLE := "enable".
Definition KEY_JOBS_AMOUNT := "amount".
Definition KEY_JOBS_TOPIC := "topic".
Definition KEY_JOBS_PLATFORM_BUILD := "platform_build".
Definition KEY_JOBS_INTERVAL_MINUTES := "interval_minutes".
Definition KEY_JOBS_CMD := "cmd".
Definition KEY_JOBS_CONFIGS := "configs".

(** [key in job_config] *)
Definition job_has_key (job_config : job_detail) (key : string) : bool :=
  if String.eqb key KEY_JOBS_ENABLE then bool_decide (is_Some (jd_enable job_config))
  else if String.eqb key KEY_JOBS_AMOUNT then bool_decide (is_Some (jd_amount job_config))
  else if String.eqb key KEY_JOBS_TOPIC then bool_decide (is_Some (jd_topic job_config))
  else if String.eqb key KEY_JOBS_PLATFORM_BUILD then bool_decide (is_Some (jd_platform_build job_config))
  else if String.eqb key KEY_JOBS_INTERVAL_MINUTES then bool_decide (is_Some (jd_interval_minutes job_config))
  else if String.eqb key KEY_JOBS_CMD then bool_decide (is_Some (jd_cmd job_config))
  else if String.eqb key KEY_JOBS_CONFIGS then bool_decide (is_Some (jd_configs job_config))
  else false.

(** The two signature folders, [MD5_HASH_FOLDER] and [TIMESTAMP_FOLDER],
    next to the module file. *)
Inductive sig_folder := MD5_HASH_FOLDER | TIMESTAMP_FOLDER.

(** What is found at the path of a signature folder: nothing, a regular
    file, or a directory holding one record per job name. *)
Inductive folder :=
| FolderAbsent
| FolderIsFile
| FolderDir (records : gmap string string).

(** The content of the COMPLETED status record. *)
Record status_content := mkContent {
  c_job_name : string;
  c_platform : string;
  c_topic : string;
  c_amount : Z;
  c_cmd : string;
  c_cmd_config : config;
  c_task_uid_list : list string
}.

Inductive level := INFO | ERROR.

Inductive log_msg :=
| MsgOSError
| MsgMissingKey (key : string)
| MsgFetchFailed (code : Z) (link : string)
| MsgFetchException
| MsgNoMatch (suffix : string)
| MsgHashChanged (job platform latest origin : string)
| MsgHashFirst (job platform latest : string)
| MsgTimestampChanged (job platform latest origin : string)
| MsgTimestampFirst (job platform latest : string)
| MsgNoTable (platform : string)
| MsgChecking (job platform : string)
| MsgChecked (job platform : string) (changed : bool)
| MsgNoQueue (topic : string)
| MsgPushing (uid_prefix job platform topic : string) (amount : Z)
             (cmd : string) (cmd_config : config)
| MsgEnabledPlatforms (platforms : gset string)
| MsgAddingRotatingLogger
| MsgRotatingLoggerDone (path : string) (* printed as an absolute path *)
| MsgGenerating (platform : string)
| MsgGeneratingDone
| MsgInvalidJob (job : string) (detail : job_detail)
| MsgJobEnabled (job : string)
| MsgJobDisabled (job : string).

(** What the engine does to its collaborators, in the order it does it. *)
Inductive event :=
| EvLog (lvl : level) (msg : log_msg)
| EvJobIdFolder (job_name job_id : string)
| EvStatusFile (job_id_fp tag : string) (percentage : Z)
               (content : option status_content)
| EvPublish (topic command_name : string) (overwrite_cmd_configs : config)
            (uid : string)
| EvGenerateTable (backfill_days : Z) (platform : string)
                  (white_list : list string)
| EvAddListener.

(** The function and keyword arguments a timer of the scheduler runs. *)
Inductive job_func :=
| ListenResponseFromAgent (username password rotating_file_path : string)
| GenerateRelationalTable (backfill_days : Z) (platform : string)
                          (white_list : list string)
| PushingMetaTask (username password : string) (command_config : config)
                  (job_name : string) (topic : option string) (amount : Z)
                  (platform_build : option string) (cmd_name : option string)
                  (overwrite_cmd_config : config).

Inductive interval := Seconds (n : Z) | Minutes (n : Z).

Record timer := mkTimer {
  t_func : job_func;
  t_interval : interval;
  t_max_instances : Z
}.

(** The state the engine works on: the two signature folders, the timers
    of the scheduler by id, and the trace of collaborator calls. *)
Record world := mkWorld {
  md5_folder : folder;
  timestamp_folder : folder;
  scheduler : gmap string timer;
  trace : list event
}.

Inductive http_result :=
| URLError
| Response (code : Z) (body : string).

(** What the engine reads from outside during one call. *)
Record environment := mkEnv {
  (** [urllib2.urlopen(url)] *)
  urlopen : string -> http_result;
  (** [urlparse.urljoin(base, url)] *)
  urljoin : string -> string -> string;
  (** whether [os.remove] and [os.makedirs] succeed *)
  os_remove_ok : bool;
  os_makedirs_ok : bool;
  (** whether a file that is not there yet can be created in a signature
      folder *)
  os_create_ok : bool;
  (** what is found at the path of a job name that holds a slash, which
      leads out of the signature folder: whether the path exists, the
      first line read there ([None] when [open] raises) and whether
      [open] for writing succeeds *)
  outside_exists : sig_folder -> string -> bool;
  outside_readline : sig_folder -> string -> option string;
  outside_write_ok : sig_folder -> string -> bool;
  (** [GenerateBackfillTableHelper.get_history_archive_perfherder_relational_table] *)
  history_table : string -> option (gmap string BuildInformation);
  (** [HasalPulsePublisher.check_pulse_queue_exists] *)
  queue_exists : string -> bool;
  (** [datetime.now().strftime(...)] *)
  now_string : string;
  (** [StatusFileCreator]: the job id of a run, the status folder, the tag *)
  create_job_id_folder : string -> string;
  status_folder : string;
  STATUS_TAG_PULSE_TRIGGER : string;
  (** [CommonUtil.mask_credential_value] *)
  mask_credential_value : config -> config
}.

Inductive exn :=
| AttributeError
| IOError
| NetworkError
| TypeError
| OverflowError
| ConflictingIdError (job_id : string).

Inductive result (A : Type) :=
| Ok (a : A)
| Raise (e : exn).
Arguments Ok {A} a.
Arguments Raise {A} e.

(** ** The state-and-exception monad *)

Definition M (A : Type) : Type := world -> result A * world.

Definition ret {A} (a : A) : M A := fun w => (Ok a, w).

Definition bind {A B} (m : M A) (f : A -> M B) : M B :=
  fun w => match m w with
           | (Ok a, w') => f a w'
           | (Raise e, w') => (Raise e, w')
           end.

Notation "'let*' x ':=' m 'in' k" := (bind m (fun x => k))
  (at level 10, x pattern, m at level 100, k at level 200).
Notation "'do' m 'then' k" := (bind m (fun _ => k))
  (at level 10, m at level 100, k at level 200).

Definition raise {A} (e : exn) : M A := fun w => (Raise e, w).
Definition emit (ev : event) : M unit :=
  fun w => (Ok tt, mkWorld (md5_folder w) (timestamp_folder w) (scheduler w) (trace w ++ [ev])%list).
Definition logging (lvl : level) (msg : log_msg) : M unit := emit (EvLog lvl msg).

Definition get_folder (f : sig_folder) (w : world) : folder :=
  match f with
  | MD5_HASH_FOLDER => md5_folder w
  | TIMESTAMP_FOLDER => timestamp_folder w
  end.

Definition set_folder (f : sig_folder) (d : folder) (w : world) : world :=
  match f with
  | MD5_HASH_FOLDER => mkWorld d (timestamp_folder w) (scheduler w) (trace w)
  | TIMESTAMP_FOLDER => mkWorld (md5_folder w) d (scheduler w) (trace w)
  end.

(** What [os.path.join(folder, job_name)] leads to. A signature folder is
    flat: it holds regular files only. *)
Inductive path_kind :=
| PathInvalid    (* the name holds a NUL byte: no path at all *)
| PathOutside    (* the name holds a slash: a path out of the folder *)
| PathDirectory  (* the empty name, [.] and [..]: a directory *)
| PathFile.      (* any other name: a file of the folder *)

Fixpoint has_char (c : ascii) (s : string) : bool :=
  match s with
  | EmptyString => false
  | String c' rest => (Ascii.eqb c' c || has_char c rest)%bool
  end.

Definition path_kind_of (job_name : string) : path_kind :=
  if has_char "000"%char job_name then PathInvalid
  else if has_char "/"%char job_name then PathOutside
  else if (String.eqb job_name EmptyString || String.eqb job_name "."
           || String.eqb job_name "..")%bool then PathDirectory
  else PathFile.

(** The record of [job_name] in a signature folder, if there is one. *)
Definition stored_record (f : sig_folder) (job_name : string) (w : world)
  : option string :=
  match path_kind_of job_name, get_folder f w with
  | PathFile, FolderDir records => records !! job_name
  | _, _ => None
  end.

(** whether the path of a signature folder is a directory *)
Definition is_dir (d : folder) : bool :=
  match d with FolderDir _ => true | _ => false end.

(** [os.path.exists(os.path.join(folder, job_name))]; in Python 2 a NUL
    byte makes [os.stat] raise [TypeError], which [exists] lets through. *)
Definition path_exists (env : environment) (f : sig_folder) (job_name : string)
  : M bool :=
  fun w => match path_kind_of job_name with
           | PathInvalid => (Raise TypeError, w)
           | PathOutside => (Ok (outside_exists env f job_name), w)
           | PathDirectory => (Ok (is_dir (get_folder f w)), w)
           | PathFile => (Ok (bool_decide (is_Some (stored_record f job_name w))), w)
           end.

(** [with open(path, 'r') as f: f.readline()]; a directory cannot be
    opened. *)
Definition read_first_line (env : environment) (f : sig_folder)
    (job_name : string) : M string :=
  fun w => match path_kind_of job_name with
           | PathInvalid => (Raise TypeError, w)
           | PathOutside =>
               match outside_readline env f job_name with
               | Some line => (Ok line, w)
               | None => (Raise IOError, w)
               end
           | PathDirectory => (Raise IOError, w)
           | PathFile =>
               match stored_record f job_name w with
               | Some content => (Ok (PyStr.readline content), w)
               | None => (Raise IOError, w)
               end
           end.

(** [with open(path, 'w') as f: f.write(data)]: a record that is there
    is replaced; one that is not is created, when the folder allows it.
    What is written out of the folder is not kept. *)
Definition write_file (env : environment) (f : sig_folder)
    (job_name data : string) : M unit :=
  fun w => match path_kind_of job_name with
           | PathInvalid => (Raise TypeError, w)
           | PathOutside =>
               if outside_write_ok env f job_name then (Ok tt, w)
               else (Raise IOError, w)
           | PathDirectory => (Raise IOError, w)
           | PathFile =>
               match get_folder f w with
               | FolderDir records =>
                   if (bool_decide (is_Some (records !! job_name))
                       || os_create_ok env)%bool
                   then (Ok tt, set_folder f (FolderDir (<[job_name := data]> records)) w)
                   else (Raise IOError, w)
               | _ => (Raise IOError, w)
               end
           end.

Definition try_except {A} (body : M A) (handler : exn -> M A) : M A :=
  fun w => match body w with
           | (Ok a, w') => (Ok a, w')
           | (Raise e, w') => handler e w'
           end.

(** ** Bytewise order on strings and [sorted(...)[-1]] *)

Definition str_le (s1 s2 : string) : Prop := String.leb s1 s2 = true.

Global Instance str_le_dec s1 s2 : Decision (str_le s1 s2).
Proof. unfold str_le. apply _. Defined.

(** [sorted(keys)] *)
Definition sorted (keys : list string) : list string := merge_sort str_le keys.

(** ** The engine *)

Definition ARCHIVE_ROOT_URL := "https://archive.mozilla.org".
Definition ARCHIVE_LATEST_FOLDER := "/pub/firefox/nightly/latest-mozilla-central/".
(** the text the lookbehind of [ARCHIVE_LINK_RE_STRING] asks for *)
Definition ARCHIVE_LINK_LOOKBEHIND := "href=" ++ String PyStr.quote EmptyString.
Definition BACK_FILL_DEFAULT_QUERY_DAYS := 14.

(** [MATCH_FORMAT.format(platform_key=.., ext=..)] *)
Definition MATCH_FORMAT (platform_key ext : string) : string :=
  "." ++ platform_key ++ "." ++ ext.

(** [re.search(ARCHIVE_LINK_RE_STRING, line)], giving [match.group(0)] *)
Definition search_link (line : string) : option string :=
  PyStr.search_after ARCHIVE_LINK_LOOKBEHIND EmptyString line.

Section Engine.
Variable env : environment.

(** what [os.path.exists] and [os.path.isfile] see at a folder path *)
Definition stat (f : sig_folder) : M folder :=
  fun w => (Ok (get_folder f w), w).

Definition os_remove (f : sig_folder) : M unit :=
  fun w => if os_remove_ok env then (Ok tt, set_folder f FolderAbsent w)
           else (Raise IOError, w).

Definition os_makedirs (f : sig_folder) : M unit :=
  fun w => if os_makedirs_ok env then (Ok tt, set_folder f (FolderDir ∅) w)
           else (Raise IOError, w).

Definition check_folder (checked_folder : sig_folder) : M bool :=
  try_except
    (let* found := stat checked_folder in
     match found with
     | FolderDir _ => ret true
     | FolderIsFile =>
         do os_remove checked_folder then do os_makedirs checked_folder then ret true
     | FolderAbsent =>
         do os_makedirs checked_folder then ret true
     end)
    (fun e => do logging ERROR MsgOSError then ret false).

(** [_validate_job_config]: the loop over [required_keys] stops at the
    first key that is missing. *)
Fixpoint validate_required (job_config : job_detail) (required_keys : list string)
  : M bool :=
  match required_keys with
  | [] => ret true
  | required_key :: rest =>
      if negb (job_has_key job_config required_key)
      then do logging ERROR (MsgMissingKey required_key) then ret false
      else validate_required job_config rest
  end.

Definition _validate_job_config (job_config : job_detail) : M bool :=
  validate_required job_config
    [KEY_JOBS_TOPIC; KEY_JOBS_PLATFORM_BUILD; KEY_JOBS_CMD].

(** The [for line in res_obj.readlines()] loop of
    [get_all_latest_files_for_md5]. *)
Definition collect_links (lines : list string) : gmap string string :=
  foldl (fun ret_dict line =>
           match search_link line with
           | Some href_link =>
               let name := List.last (PyStr.split "/" href_link) EmptyString in
               <[name := href_link]> ret_dict
           | None => ret_dict
           end) ∅ lines.

Definition get_all_latest_files_for_md5 : M (gmap string string) :=
  let latest_url := urljoin env ARCHIVE_ROOT_URL ARCHIVE_LATEST_FOLDER in
  match urlopen env latest_url with
  | Response code body =>
      if code =? 200 then ret (collect_links (PyStr.readlines body))
      else do logging ERROR (MsgFetchFailed code latest_url) then ret ∅
  | URLError => do logging ERROR MsgFetchException then ret ∅
  end.

Definition get_latest_info_json_url_for_md5 (platform : string)
  : M (option string) :=
  let ext_json := "json" in
  let match_endswith_string := MATCH_FORMAT platform ext_json in
  let* all_files := get_all_latest_files_for_md5 in
  let matched_files : gmap string string :=
    filter (fun kv => PyStr.endswith kv.1 match_endswith_string = true) all_files in
  if (1 <=? size matched_files)%nat then
    let matched_filename := List.last (sorted (map_to_list matched_files).*1) EmptyString in
    ret (Some (match matched_files !! matched_filename with
                | Some ret_url => urljoin env ARCHIVE_ROOT_URL ret_url
                | None => ARCHIVE_ROOT_URL
                end))
  else
    do logging ERROR (MsgNoMatch match_endswith_string) then ret None.

(** The [while True] loop of [get_remote_md5]: [chunks] are the
    successive results of [read(1024)], [acc] what the handler was fed. *)
Fixpoint md5_feed (chunks : list string) (counter max_size : Z) (acc : string)
  : string :=
  match chunks with
  | [] => acc
  | data :: rest =>
      let counter := counter + 1024 in
      if (String.eqb data EmptyString || (counter >=? max_size))%bool then acc
      else md5_feed rest counter max_size (acc ++ data)
  end.

(** [urllib2.urlopen] raises on a url that is [None] and on a network
    error. *)
Definition get_remote_md5 (url : option string) (max_size : Z) : M string :=
  match url with
  | None => raise AttributeError
  | Some url =>
      match urlopen env url with
      | URLError => raise NetworkError
      | Response _ body =>
          ret (MD5.hexdigest (md5_feed (PyStr.chunks 1024 body) 0 max_size EmptyString))
      end
  end.

Definition get_latest_info_json_md5_hash (platform : string) : M string :=
  let* json_file_url := get_latest_info_json_url_for_md5 platform in
  get_remote_md5 json_file_url (1 * 1024 * 1024).

Definition check_latest_info_json_md5_changed (job_name platform : string)
  : M bool :=
  let* folder_ok := check_folder MD5_HASH_FOLDER in
  if negb folder_ok then ret false else
  let* new_hash := get_latest_info_json_md5_hash platform in
  let* job_md5_file_exists := path_exists env MD5_HASH_FOLDER job_name in
  if job_md5_file_exists then
    let* origin_hash := read_first_line env MD5_HASH_FOLDER job_name in
    if String.eqb origin_hash new_hash then ret false
    else
      do logging INFO (MsgHashChanged job_name platform new_hash origin_hash) then
      do write_file env MD5_HASH_FOLDER job_name new_hash then
      ret true
  else
    do logging INFO (MsgHashFirst job_name platform new_hash) then
    do write_file env MD5_HASH_FOLDER job_name new_hash then
    ret true.

(** [if backfill_table_obj:] a table that is [None] or empty is false. *)
Definition truthy_table (t : option (gmap string BuildInformation)) : bool :=
  match t with
  | Some table => (0 <? size table)%nat
  | None => false
  end.

(** [sorted(backfill_table_obj.keys())[-1]] *)
Definition latest_key (table : gmap string BuildInformation) : string :=
  List.last (sorted (map_to_list table).*1) EmptyString.

Definition check_latest_timestamp (job_name platform : string)
  : M (bool * option BuildInformation) :=
  let backfill_table_obj := history_table env platform in
  if truthy_table backfill_table_obj then
    let table := default ∅ backfill_table_obj in
    let latest_timestamp := latest_key table in
    let* folder_ok := check_folder TIMESTAMP_FOLDER in
    if negb folder_ok then ret (false, None) else
    let* job_timestamp_file_exists := path_exists env TIMESTAMP_FOLDER job_name in
    if job_timestamp_file_exists then
      let* original_timestamp := read_first_line env TIMESTAMP_FOLDER job_name in
      if String.eqb original_timestamp latest_timestamp then ret (false, None)
      else
        do logging INFO (MsgTimestampChanged job_name platform latest_timestamp
                                             original_timestamp) then
        do write_file env TIMESTAMP_FOLDER job_name latest_timestamp then
        ret (true, table !! latest_timestamp)
    else
      do logging INFO (MsgTimestampFirst job_name platform latest_timestamp) then
      do write_file env TIMESTAMP_FOLDER job_name latest_timestamp then
      ret (true, table !! latest_timestamp)
  else
    do logging ERROR (MsgNoTable platform) then
    ret (false, None).

Definition CASE_LIST_KEY := "OVERWRITE_HASAL_SUITE_CASE_LIST".

(** The [convert case list] block of [filter_cmd_config]: [split] exists
    on strings only. *)
Definition convert_case_list (config_value : value) : result value :=
  match config_value with
  | VList _ => Ok config_value
  | VStr s => Ok (VList (VStr <$> PyStr.split "," s))
  | _ => Raise AttributeError
  end.

(** One turn of the loop of [filter_cmd_config] over the items the
    config had on entry. *)
Definition filter_step (acc : result config) (item : string * value)
  : result config :=
  match acc with
  | Raise e => Raise e
  | Ok ret_config =>
      let '(config_key, config_value) := item in
      if String.eqb config_key CASE_LIST_KEY then
        match convert_case_list config_value with
        | Ok case_list =>
            Ok (mask_credential_value env (<[config_key := case_list]> ret_config))
        | Raise e => Raise e
        end
      else Ok (mask_credential_value env ret_config)
  end.

Definition filter_cmd_config (input_config : config) : result config :=
  foldl filter_step (Ok input_config) (map_to_list input_config).

(** The commands that need the provenance of the build. *)
Definition SPECIFY_COMMANDS : list string :=
  ["run-hasal-on-specify-nightly"; "download-specify-nightly"].

(** The Python code sets the two keys in the [dict] it was given and
    returns that same object; the caller goes on with what is returned.
    It is reached with the [BuildInformation] of a detected change; on
    [None] the attribute access would raise. *)
Definition handle_specify_commands (cmd_name : string) (cmd_configs : config)
    (build_info : option BuildInformation) : result config :=
  if bool_decide (cmd_name ∈ SPECIFY_COMMANDS) then
    match build_info with
    | Some info =>
        Ok (<["DOWNLOAD_REVISION" := VStr (revision info)]>
              (<["DOWNLOAD_PKG_DIR_URL" := VStr (archive_url info)]> cmd_configs))
    | None => Raise AttributeError
    end
  else Ok cmd_configs.

Definition lift {A} (r : result A) : M A := fun w => (r, w).

(** [os.path.join(a, b)] on POSIX paths *)
Definition path_join (a b : string) : string :=
  if String.prefix "/" b then b
  else if (String.eqb a EmptyString || PyStr.endswith a "/")%bool then a ++ b
  else a ++ "/" ++ b.

(** ['{prefix}.{idx}'.format(prefix=uid_prefix, idx=idx + 1)] *)
Definition make_uid (uid_prefix : string) (idx : Z) : string :=
  uid_prefix ++ "." ++ pretty (idx + 1).

(** The [for idx in range(amount)] loop of the two dispatch jobs;
    [indices] is what is left of the range, [uid_list] the uids so far. *)
Fixpoint push_loop (topic cmd_name : string) (overwrite_cmd_config : config)
    (uid_prefix : string) (indices : list Z) (uid_list : list string)
  : M (list string) :=
  match indices with
  | [] => ret uid_list
  | idx :: rest =>
      let uid := make_uid uid_prefix idx in
      let uid_list := (uid_list ++ [uid])%list in
      do emit (EvPublish topic cmd_name overwrite_cmd_config uid) then
      push_loop topic cmd_name overwrite_cmd_config uid_prefix rest uid_list
  end.

(** [range(amount)] *)
Definition range (amount : Z) : list Z := seqZ 0 amount.

Definition job_pushing_meta_task_md5 (username password : string)
    (command_config : config) (job_name topic : string) (amount : Z)
    (platform_build cmd_name : string) (overwrite_cmd_config : config)
  : M unit :=
  let* changed := check_latest_info_json_md5_changed job_name platform_build in
  if changed : bool then
    do (if negb (queue_exists env topic)
        then logging ERROR (MsgNoQueue topic) else ret tt) then
    let uid_prefix := now_string env ++ "." ++ job_name in
    do logging INFO (MsgPushing uid_prefix job_name platform_build topic amount
                                cmd_name overwrite_cmd_config) then
    let* _ := push_loop topic cmd_name overwrite_cmd_config uid_prefix
                        (range amount) [] in
    ret tt
  else ret tt.

Definition job_pushing_meta_task (username password : string)
    (command_config : config) (job_name topic : string) (amount : Z)
    (platform_build cmd_name : string) (overwrite_cmd_config : config)
  : M unit :=
  do logging INFO (MsgChecking job_name platform_build) then
  let* (changed, build_info) := check_latest_timestamp job_name platform_build in
  do logging INFO (MsgChecked job_name platform_build changed) then
  if changed : bool then
    let job_id := create_job_id_folder env job_name in
    do emit (EvJobIdFolder job_name job_id) then
    let job_id_fp := path_join (status_folder env) job_id in
    do emit (EvStatusFile job_id_fp (STATUS_TAG_PULSE_TRIGGER env) 100 None) then
    do (if negb (queue_exists env topic)
        then logging ERROR (MsgNoQueue topic) else ret tt) then
    let* overwrite_cmd_config :=
      lift (handle_specify_commands cmd_name overwrite_cmd_config build_info) in
    let uid_prefix := now_string env ++ "." ++ job_name in
    do logging INFO (MsgPushing uid_prefix job_name platform_build topic amount
                                cmd_name overwrite_cmd_config) then
    let* uid_list := push_loop topic cmd_name overwrite_cmd_config uid_prefix
                               (range amount) [] in
    let* cmd_config := lift (filter_cmd_config overwrite_cmd_config) in
    let content := mkContent job_name platform_build topic amount cmd_name
                             cmd_config uid_list in
    emit (EvStatusFile job_id_fp (STATUS_TAG_PULSE_TRIGGER env) 900 (Some content))
  else ret tt.

(** [if enable and platform_build:] on a platform that may be missing *)
Definition truthy_str (s : option string) : bool :=
  match s with
  | Some s => negb (String.eqb s EmptyString)
  | None => false
  end.

(** One turn of the loop of
    [get_enabled_platform_list_from_trigger_jobs_config]. *)
Definition add_enabled_platform (enabled_platform_set : gset string)
    (item : string * job_detail) : gset string :=
  let job_detail := item.2 in
  let enable := default false (jd_enable job_detail) in
  let platform_build := jd_platform_build job_detail in
  if (enable && truthy_str platform_build)%bool
  then enabled_platform_set ∪ {[ default EmptyString platform_build ]}
  else enabled_platform_set.

Definition get_enabled_platform_list_from_trigger_jobs_config
    (config_dict_obj : gmap string job_detail) : M (list string) :=
  let enabled_platform_set : gset string :=
    foldl add_enabled_platform ({[ "win64" ]} ∪ ∅) (map_to_list config_dict_obj) in
  do logging INFO (MsgEnabledPlatforms enabled_platform_set) then
  ret (elements enabled_platform_set).

(** [timedelta(seconds=n)] and [timedelta(minutes=n)] exist when the
    number of whole days they span is within 999999999 on either side. *)
Definition timedelta_ok (i : interval) : bool :=
  let days := match i with
              | Seconds n => n / 86400
              | Minutes n => n / 1440
              end in
  ((-999999999 <=? days) && (days <=? 999999999))%bool.

(** [BackgroundScheduler.add_job(..., trigger='interval', id=job_id)] on a
    running scheduler: the trigger is built first, which raises
    [OverflowError] on an interval that [timedelta] cannot hold; then an
    id that is taken is refused. *)
Definition add_job (job_id : string) (t : timer) : M unit :=
  fun w => if negb (timedelta_ok (t_interval t)) then (Raise OverflowError, w)
           else match scheduler w !! job_id with
                | Some _ => (Raise (ConflictingIdError job_id), w)
                | None => (Ok tt, mkWorld (md5_folder w) (timestamp_folder w)
                                          (<[job_id := t]> (scheduler w)) (trace w))
                end.

(** a [for] loop run for its effects *)
Fixpoint for_each {A} (l : list A) (body : A -> M unit) : M unit :=
  match l with
  | [] => ret tt
  | x :: rest => do body x then for_each rest body
  end.

(** The fields of a [TasksTrigger] object that [run] reads. *)
Record TasksTrigger := mkTasksTrigger {
  jobs_config : gmap string job_detail;
  pulse_username : string;
  pulse_password : string;
  suite_white_list_for_signature : list string;
  cmd_config_obj : config
}.

Definition MGT_ID := "trigger_mgt_listener".
Definition MGT_LOG_PATH := "rotating_mgt.log".

(** The body of the [create each Trigger jobs] loop of [run]. *)
Definition register_trigger_job (self : TasksTrigger)
    (item : string * job_detail) : M unit :=
  let '(job_name, job_detail) := item in
  let* valid := _validate_job_config job_detail in
  do (if negb valid
      then logging ERROR (MsgInvalidJob job_name job_detail) else ret tt) then
  let enable := default false (jd_enable job_detail) in
  let interval_minutes := default 10 (jd_interval_minutes job_detail) in
  let configs := default ∅ (jd_configs job_detail) in
  let amount := default 1 (jd_amount job_detail) in
  let topic := jd_topic job_detail in
  let platform_build := jd_platform_build job_detail in
  let cmd := jd_cmd job_detail in
  if enable then
    do logging INFO (MsgJobEnabled job_name) then
    add_job job_name
      (mkTimer (PushingMetaTask (pulse_username self) (pulse_password self)
                  (cmd_config_obj self) job_name topic amount platform_build
                  cmd configs)
               (Minutes interval_minutes) 1)
  else logging INFO (MsgJobDisabled job_name).

Definition run (self : TasksTrigger) (skip_first_query : bool) : M unit :=
  do emit EvAddListener then
  do logging INFO MsgAddingRotatingLogger then
  do add_job MGT_ID
       (mkTimer (ListenResponseFromAgent (pulse_username self)
                   (pulse_password self) MGT_LOG_PATH)
                (Seconds 10) 1) then
  do logging INFO (MsgRotatingLoggerDone MGT_LOG_PATH) then
  let* enabled_platform_list :=
    get_enabled_platform_list_from_trigger_jobs_config (jobs_config self) in
  do (if negb skip_first_query then
        do for_each enabled_platform_list (fun platform_build =>
             do logging INFO (MsgGenerating platform_build) then
             emit (EvGenerateTable BACK_FILL_DEFAULT_QUERY_DAYS platform_build
                     (suite_white_list_for_signature self))) then
        logging INFO MsgGeneratingDone
      else ret tt) then
  do for_each enabled_platform_list (fun platform_build =>
       add_job ("query_backfill_table_" ++ platform_build)
         (mkTimer (GenerateRelationalTable BACK_FILL_DEFAULT_QUERY_DAYS
                     platform_build (suite_white_list_for_signature self))
                  (Minutes 10) 1)) then
  for_each (map_to_list (jobs_config self)) (register_trigger_job self).

End Engine.

(** ** Observations on traces and worlds *)

Definition is_log (ev : event) : bool :=
  match ev with EvLog _ _ => true | _ => false end.

Definition is_publish (ev : event) : bool :=
  match ev with EvPublish _ _ _ _ => true | _ => false end.

Definition is_status (ev : event) : bool :=
  match ev with EvStatusFile _ _ _ _ => true | _ => false end.

(** the messages handed to the broker, oldest first *)
Definition published (tr : list event) : list event := List.filter is_publish tr.

(** the status records written, oldest first *)
Definition status_records (tr : list event) : list event := List.filter is_status tr.

(** every collaborator call that is not a log line *)
Definition effects (tr : list event) : list event :=
  List.filter (fun ev => negb (is_log ev)) tr.

(** [w] with [evs] appended to its trace *)
Definition log_to (w : world) (evs : list event) : world :=
  mkWorld (md5_folder w) (timestamp_folder w) (scheduler w) (trace w ++ evs).

(** The signature a check reads back for a job: the first line of its
    record. *)
Definition stored_signature (f : sig_folder) (job_name : string) (w : world)
  : option string :=
  PyStr.readline <$> stored_record f job_name w.

(** the uid the fan-out gives to the [i]-th message, counting from 1 *)
Definition uid_of (uid_prefix : string) (i : Z) : string :=
  uid_prefix ++ "." ++ pretty i.

(** [w'] differs from [w] by log lines at most: no signature record was
    written, no message published, no status record written, no timer
    touched. *)
Definition quiet (w w' : world) : Prop :=
  md5_folder w' = md5_folder w
  ∧ timestamp_folder w' = timestamp_folder w
  ∧ scheduler w' = scheduler w
  ∧ published (trace w') = published (trace w)
  ∧ status_records (trace w') = status_records (trace w).

(** The config of [cmd_configs] with the archive URL and the revision of
    a build added to it. *)
Definition enriched (cmd_configs : config) (info : BuildInformation) : config :=
  <["DOWNLOAD_REVISION" := VStr (revision info)]>
    (<["DOWNLOAD_PKG_DIR_URL" := VStr (archive_url info)]> cmd_configs).

(** The config a dispatch sends out with every message. *)
Definition outgoing_config (cmd_name : string) (cmd_configs : config)
    (info : BuildInformation) : config :=
  if bool_decide (cmd_name ∈ SPECIFY_COMMANDS) then enriched cmd_configs info
  else cmd_configs.

(** The case list of a config, when it has one, is a list or a string. *)
Definition case_list_ok (c : config) : Prop :=
  match c !! CASE_LIST_KEY with
  | Some (VList _) | Some (VStr _) | None => True
  | Some _ => False
  end.

(** ** Concrete scenarios *)

Module Scenario.

Definition nl : string := String "010" EmptyString.
Definition dq : string := String PyStr.quote EmptyString.

Definition latest_url : string :=
  "https://archive.mozilla.org/pub/firefox/nightly/latest-mozilla-central/".

(** one line of the directory listing of the archive server *)
Definition link (name : string) : string :=
  "<td><a href=" ++ dq ++ ARCHIVE_LATEST_FOLDER ++ name ++ dq ++ ">"
    ++ name ++ "</a></td>" ++ nl.

Definition listing : string :=
  "<html>" ++ nl
    ++ link "firefox-56.0a1.en-US.win64.json"
    ++ link "firefox-57.0a1.en-US.win64.json"
    ++ link "firefox-57.0a1.en-US.win32.json"
    ++ "</html>" ++ nl.

Definition win64_json_url : string :=
  latest_url ++ "firefox-57.0a1.en-US.win64.json".

Definition history : gmap string BuildInformation :=
  {[ "2020-01-01T00:00:00" :=
       mkBuildInformation "https://archive.mozilla.org/pub/a" "000aaa";
     "2020-02-02T02:00:00" :=
       mkBuildInformation "https://archive.mozilla.org/pub/b" "abc123" ]}.

(** a masking pass: the value of [pulse_password], when there is one,
    is replaced by stars *)
Definition mask (c : config) : config :=
  match c !! "pulse_password" with
  | Some _ => <["pulse_password" := VStr "*****"]> c
  | None => c
  end.

(** The environment of a tick: [web] answers the HTTP requests,
    [makedirs_ok] tells whether folders and files can be created, there
    is nothing at the paths out of the signature folders; the history
    table of win64 has two builds, every queue exists. *)
Definition env_with (web : string -> http_result) (makedirs_ok : bool)
  : environment :=
  mkEnv web (fun base url => base ++ url) true makedirs_ok makedirs_ok
        (fun _ _ => false) (fun _ _ => None) (fun _ _ => false)
        (fun platform => if String.eqb platform "win64" then Some history else None)
        (fun _ => true) "2020-02-03_10:00:00.000001"
        (fun job_name => job_name ++ "-run1") "status" "PULSE_TRIGGER" mask.

(** the archive server: the listing has two win64 JSON files, the newer
    one holds [body] *)
Definition web (body : string) (url : string) : http_result :=
  if String.eqb url latest_url then Response 200 listing
  else if String.eqb url win64_json_url then Response 200 body
  else URLError.

(** a tick on which everything works *)
Definition env_ok : environment := env_with (web "abc") true.

(** the newest JSON file is served empty *)
Definition env_empty_body : environment := env_with (web EmptyString) true.

(** the archive server cannot be reached *)
Definition env_offline : environment := env_with (fun _ => URLError) true.

(** the folder of the module is read-only: [os.makedirs] fails *)
Definition env_read_only : environment := env_with (web "abc") false.

(** nothing on disk, no timer, nothing done yet *)
Definition fresh : world := mkWorld FolderAbsent FolderAbsent ∅ [].

(** the MD5 folder holds [signature] for [job_name] *)
Definition with_md5 (job_name signature : string) : world :=
  mkWorld (FolderDir {[ job_name := signature ]}) FolderAbsent ∅ [].

(** the timestamp folder holds [signature] for [job_name] *)
Definition with_timestamp (job_name signature : string) : world :=
  mkWorld FolderAbsent (FolderDir {[ job_name := signature ]}) ∅ [].

(** an enabled job that lacks [topic], [platform_build] and [cmd] *)
Definition invalid_job : job_detail :=
  mkJobDetail (Some true) None None None None None None.

Definition trigger_with (jobs : gmap string job_detail) : TasksTrigger :=
  mkTasksTrigger jobs "user" "secret" [] ∅.

(** an enabled job whose [platform_build] is the empty string *)
Definition blank_platform_job : job_detail :=
  mkJobDetail (Some true) (Some "win7") (Some EmptyString) None
              (Some "download-latest-nightly") None None.

End Scenario.


(** The listing of the archive server gives no file for a platform: the
    request fails, or it is answered with a code other than 200, or no
    name of the listing ends with the suffix of the platform. *)
Definition feed_fetch_fails (env : environment) (platform : string) : Prop :=
  match urlopen env (urljoin env ARCHIVE_ROOT_URL ARCHIVE_LATEST_FOLDER) with
  | URLError => True
  | Response code body =>
      code ≠ 200
      ∨ ∀ name href, collect_links (PyStr.readlines body) !! name = Some href ->
                     PyStr.endswith name (MATCH_FORMAT platform "json") = false
  end.

(** ** Maintenance operations *)

(** A line the reset operations log with [logging.warn] and
    [logging.debug]. *)
Inductive low_log :=
| WarnNotAFile (f : sig_folder) (job_name : string)
| DebugNotExists (f : sig_folder) (job_name : string).

Section Maintenance.
Variable env : environment.

(** What the reset operations find at the path of a job name that holds
    a slash: whether it is a regular file, and whether [os.remove]
    succeeds there. *)
Variable outside_isfile : sig_folder -> string -> bool.
Variable outside_remove_ok : sig_folder -> string -> bool.

(** [os.path.isfile(os.path.join(folder, job_name))] *)
Definition isfile (f : sig_folder) (job_name : string) : M bool :=
  fun w => match path_kind_of job_name with
           | PathInvalid => (Raise TypeError, w)
           | PathOutside => (Ok (outside_isfile f job_name), w)
           | PathDirectory => (Ok false, w)
           | PathFile => (Ok (bool_decide (is_Some (stored_record f job_name w))), w)
           end.

(** [os.remove(os.path.join(folder, job_name))]; a directory and a path
    that is not there cannot be removed. *)
Definition remove_record (f : sig_folder) (job_name : string) : M unit :=
  fun w => match path_kind_of job_name with
           | PathInvalid => (Raise TypeError, w)
           | PathOutside =>
               if outside_remove_ok f job_name then (Ok tt, w) else (Raise IOError, w)
           | PathDirectory => (Raise IOError, w)
           | PathFile =>
               match get_folder f w with
               | FolderDir records =>
                   if (bool_decide (is_Some (records !! job_name))
                       && os_remove_ok env)%bool
                   then (Ok tt, set_folder f (FolderDir (delete job_name records)) w)
                   else (Raise IOError, w)
               | _ => (Raise IOError, w)
               end
           end.

(** The body [clean_md5_by_job_name] and [clean_timestamp_by_job_name]
    share, the folder apart. Besides the outcome it returns the lines
    logged below the INFO level and as warnings, which the trace does
    not hold. *)
Definition clean_by_job_name (f : sig_folder) (job_name : string)
  : M (bool * list low_log) :=
  let* folder_ok := check_folder env f in
  if negb folder_ok then ret (false, []) else
  let* job_file_exists := path_exists env f job_name in
  if job_file_exists then
    let* is_file := isfile f job_name in
    if is_file then
      try_except
        (do remove_record f job_name then ret (true, []))
        (fun e => do logging ERROR MsgOSError then ret (false, []))
    else ret (false, [WarnNotAFile f job_name])
  else ret (true, [DebugNotExists f job_name]).

Definition clean_md5_by_job_name (job_name : string) : M (bool * list low_log) :=
  clean_by_job_name MD5_HASH_FOLDER job_name.

Definition clean_timestamp_by_job_name (job_name : string)
  : M (bool * list low_log) :=
  clean_by_job_name TIMESTAMP_FOLDER job_name.

End Maintenance.

(** ** Start-up *)

(** What [clean_pulse_queues] does, in the order it does it. *)
Inductive queue_event :=
| QLogCleaning
| QLogEnabledQueues (queues : gset string)
| QRecreate (username password topic : string)
| QLogNotRecreated (topic : string)
| QLogDone.

(** One turn of the first loop of [clean_pulse_queues]. *)
Definition add_enabled_topic (queues_set : gset string)
    (item : string * job_detail) : gset string :=
  let job_detail := item.2 in
  let enable := default false (jd_enable job_detail) in
  let topic := default EmptyString (jd_topic job_detail) in
  if (enable && negb (String.eqb topic EmptyString))%bool
  then queues_set ∪ {[ topic ]}
  else queues_set.

(** One turn of the second loop: the queue is re-created, and an error is
    logged when [re_create_pulse_queue] returns false. *)
Definition recreate_queue (re_create_pulse_queue : string -> string -> string -> bool)
    (username password topic : string) : list queue_event :=
  QRecreate username password topic
    :: (if negb (re_create_pulse_queue username password topic)
        then [QLogNotRecreated topic] else []).

(** [clean_pulse_queues], with [HasalPulsePublisher.re_create_pulse_queue]
    as a parameter. *)
Definition clean_pulse_queues
    (re_create_pulse_queue : string -> string -> string -> bool)
    (self : TasksTrigger) : list queue_event :=
  let queues_set : gset string :=
    foldl add_enabled_topic ∅ (map_to_list (jobs_config self)) in
  ([QLogCleaning; QLogEnabledQueues queues_set]
     ++ flat_map (recreate_queue re_create_pulse_queue (pulse_username self)
                    (pulse_password self))
          (elements queues_set)
     ++ [QLogDone])%list.

(** ** More observations *)

Definition is_generate (ev : event) : bool :=
  match ev with EvGenerateTable _ _ _ => true | _ => false end.

(** the calls of the history refresh, oldest first *)
Definition generated (tr : list event) : list event := List.filter is_generate tr.

Definition is_recreate (ev : queue_event) : bool :=
  match ev with QRecreate _ _ _ => true | _ => false end.

(** the id of the refresh timer of a platform *)
Definition query_id (platform_build : string) : string :=
  "query_backfill_table_" ++ platform_build.

(** the timer [run] registers for an enabled job *)
Definition trigger_timer (self : TasksTrigger) (job_name : string)
    (detail : job_detail) : timer :=
  mkTimer (PushingMetaTask (pulse_username self) (pulse_password self)
             (cmd_config_obj self) job_name (jd_topic detail)
             (default 1 (jd_amount detail)) (jd_platform_build detail)
             (jd_cmd detail) (default ∅ (jd_configs detail)))
          (Minutes (default 10 (jd_interval_minutes detail))) 1.

(** What [run] may hand to the scheduler: the listener of the management
    topic, the refresh timer of a platform, the timer of an enabled job. *)
Definition registered_by (self : TasksTrigger) (job_id : string) (t : timer) : Prop :=
  (job_id = MGT_ID
   ∧ t = mkTimer (ListenResponseFromAgent (pulse_username self) (pulse_password self)
                    MGT_LOG_PATH) (Seconds 10) 1)
  ∨ (∃ platform_build,
       job_id = query_id platform_build
       ∧ t = mkTimer (GenerateRelationalTable BACK_FILL_DEFAULT_QUERY_DAYS
                        platform_build (suite_white_list_for_signature self))
                     (Minutes 10) 1)
  ∨ (∃ detail,
       jobs_config self !! job_id = Some detail
       ∧ jd_enable detail = Some true
       ∧ t = trigger_timer self job_id detail).

(** every timer of the scheduler runs one instance at a time *)
Definition single_instance (w : world) : Prop :=
  ∀ job_id t, scheduler w !! job_id = Some t -> t_max_instances t = 1.

(** a registration the scheduler refuses *)
Definition refused (r : result unit) : Prop :=
  r = Raise OverflowError ∨ ∃ job_id, r = Raise (ConflictingIdError job_id).

(** the text of a list of reads, put end to end *)
Definition join (chunks : list string) : string :=
  foldr String.append EmptyString chunks.

(** ** More scenarios *)

Module Cases.

Definition win7_job : job_detail :=
  mkJobDetail (Some true) (Some "win7") (Some "win64") (Some 5)
              (Some "download-latest-nightly") (Some 2) None.

Definition mac_job_disabled : job_detail :=
  mkJobDetail (Some false) (Some "mac") (Some "mac") None
              (Some "download-latest-nightly") None None.

Definition jobs : gmap string job_detail :=
  {[ "win7_x64" := win7_job; "mac_os" := mac_job_disabled ]}.

Definition trigger : TasksTrigger := mkTasksTrigger jobs "user" "secret" ["suite"] ∅.

(** a job that takes the id of the listener of the management topic *)
Definition clashing_trigger : TasksTrigger :=
  mkTasksTrigger {[ "trigger_mgt_listener" := win7_job ]} "user" "secret" [] ∅.

(** the broker re-creates every queue but [win7] *)
Definition re_create (username password topic : string) : bool :=
  negb (String.eqb topic "win7").

End Cases.

(** ** Proof tools *)

Ltac unfold_m :=
  cbv [bind ret raise emit logging lift try_except stat os_remove os_makedirs
       path_exists read_first_line write_file stored_record stored_signature
       get_folder set_folder log_to] in *.

Lemma log_to_nil w : log_to w [] = w.
Proof. destruct w; unfold log_to; simpl. by rewrite app_nil_r. Qed.

Lemma published_app tr1 tr2 : published (tr1 ++ tr2) = (published tr1 ++ published tr2)%list.
Proof. apply List.filter_app. Qed.

Lemma status_records_app tr1 tr2 :
  status_records (tr1 ++ tr2) = (status_records tr1 ++ status_records tr2)%list.
Proof. apply List.filter_app. Qed.

Lemma effects_app tr1 tr2 : effects (tr1 ++ tr2) = (effects tr1 ++ effects tr2)%list.
Proof. apply List.filter_app. Qed.

(** *** Strings *)

Lemma append_inj_r (s a b : string) : (s ++ a = s ++ b)%string -> a = b.
Proof. induction s as [|c s IH]; simpl; [done|]. intros [= H]. auto. Qed.

Global Instance uid_of_inj uid_prefix : Inj (=) (=) (uid_of uid_prefix).
Proof.
  intros i j H. unfold uid_of in H.
  apply append_inj_r, append_inj_r in H. by apply (inj pretty).
Qed.

(** *** The order of [sorted] *)

Lemma ascii_compare_N (a b : ascii) :
  Ascii.compare a b = N.compare (N_of_ascii a) (N_of_ascii b).
Proof. reflexivity. Qed.

Lemma str_compare_refl (s : string) : String.compare s s = Eq.
Proof.
  induction s as [|c s IH]; simpl; [done|].
  rewrite ascii_compare_N, N.compare_refl. exact IH.
Qed.

Lemma str_compare_lt_trans (s1 s2 s3 : string) :
  String.compare s1 s2 = Lt -> String.compare s2 s3 = Lt -> String.compare s1 s3 = Lt.
Proof.
  revert s2 s3. induction s1 as [|c1 s1 IH]; intros [|c2 s2] [|c3 s3]; simpl; try done.
  rewrite !ascii_compare_N.
  destruct (N.compare_spec (N_of_ascii c1) (N_of_ascii c2)) as [E12|L12|G12];
    destruct (N.compare_spec (N_of_ascii c2) (N_of_ascii c3)) as [E23|L23|G23];
    try done; intros H1 H2.
  - rewrite E12, E23, N.compare_refl. eauto.
  - rewrite E12. by apply N.compare_lt_iff in L23 as ->.
  - rewrite <- E23. by apply N.compare_lt_iff in L12 as ->.
  - assert (N_of_ascii c1 < N_of_ascii c3)%N as L by lia.
    by apply N.compare_lt_iff in L as ->.
Qed.

Global Instance str_le_total : Total str_le.
Proof. intros s1 s2. apply String.leb_total. Qed.

Global Instance str_le_trans : Transitive str_le.
Proof.
  intros s1 s2 s3. unfold str_le, String.leb.
  destruct (String.compare s1 s2) eqn:E12; [| |done]; intros _.
  - by apply String.compare_eq_iff in E12 as ->.
  - destruct (String.compare s2 s3) eqn:E23; [| |done]; intros _.
    + apply String.compare_eq_iff in E23 as <-. by rewrite E12.
    + by rewrite (str_compare_lt_trans _ _ _ E12 E23).
Qed.

Lemma last_elem_of {A} (l : list A) (d : A) : l ≠ [] -> List.last l d ∈ l.
Proof.
  intros Hne. rewrite (app_removelast_last d Hne) at 2.
  apply elem_of_app. right. by apply list_elem_of_singleton.
Qed.

Lemma StronglySorted_last_max {A} (R : relation A) `{!Reflexive R} (l : list A) (d x : A) :
  StronglySorted R l -> x ∈ l -> R x (List.last l d).
Proof.
  induction 1 as [|y l Hl IH Hall]; intros Hx; [by apply elem_of_nil in Hx|].
  apply elem_of_cons in Hx as [->|Hx].
  - destruct l as [|z l']; [done|].
    change (List.last (y :: z :: l') d) with (List.last (z :: l') d).
    rewrite List.Forall_forall in Hall. apply Hall, list_elem_of_In.
    by apply last_elem_of.
  - destruct l as [|z l']; [by apply elem_of_nil in Hx|].
    change (List.last (y :: z :: l') d) with (List.last (z :: l') d). auto.
Qed.

Global Instance str_le_refl : Reflexive str_le.
Proof. intros s. unfold str_le, String.leb. by rewrite str_compare_refl. Qed.

(** [sorted(keys)[-1]] is a key, and no key is above it. *)
Lemma latest_key_spec (table : gmap string BuildInformation) :
  table ≠ ∅ ->
  is_Some (table !! latest_key table) ∧
  ∀ k, is_Some (table !! k) -> str_le k (latest_key table).
Proof.
  intros Hne. unfold latest_key, sorted.
  set (keys := (map_to_list table).*1).
  assert (Hperm : merge_sort str_le keys ≡ₚ keys) by apply merge_sort_Permutation.
  assert (Hkeys : ∀ k, k ∈ keys ↔ is_Some (table !! k)).
  { intros k. unfold keys. rewrite list_elem_of_fmap. split.
    - intros [[k' v] [-> Hin]]. apply elem_of_map_to_list in Hin. by eexists.
    - intros [v Hv]. exists (k, v). split; [done|]. by apply elem_of_map_to_list. }
  assert (Hnil : merge_sort str_le keys ≠ []).
  { intros Hnil. rewrite Hnil in Hperm. symmetry in Hperm.
    apply Permutation_nil_r in Hperm.
    apply map_size_non_empty_iff in Hne. apply Hne.
    unfold keys in Hperm. apply fmap_nil_inv in Hperm.
    by apply map_to_list_empty_iff in Hperm as ->. }
  assert (Hmem : ∀ k, k ∈ merge_sort str_le keys ↔ k ∈ keys).
  { intros k. by rewrite Hperm. }
  split.
  - apply Hkeys, Hmem. by apply last_elem_of.
  - intros k Hk. apply StronglySorted_last_max.
    + apply _.
    + apply (StronglySorted_merge_sort str_le).
    + by apply Hmem, Hkeys.
Qed.

Lemma truthy_table_Some (table : gmap string BuildInformation) :
  table ≠ ∅ -> truthy_table (Some table) = true.
Proof.
  intros Hne. apply map_size_non_empty_iff in Hne. simpl.
  apply Nat.ltb_lt. lia.
Qed.

(** ** What the building blocks do to the world *)

Lemma check_folder_run env f w :
  check_folder env f w =
    match get_folder f w with
    | FolderDir _ => (Ok true, w)
    | FolderIsFile =>
        if os_remove_ok env then
          if os_makedirs_ok env then (Ok true, set_folder f (FolderDir ∅) w)
          else (Ok false, log_to (set_folder f FolderAbsent w) [EvLog ERROR MsgOSError])
        else (Ok false, log_to w [EvLog ERROR MsgOSError])
    | FolderAbsent =>
        if os_makedirs_ok env then (Ok true, set_folder f (FolderDir ∅) w)
        else (Ok false, log_to w [EvLog ERROR MsgOSError])
    end.
Proof.
  unfold check_folder. unfold_m.
  destruct w as [md ts sch tr], f; simpl.
  - destruct md; simpl; [destruct (os_makedirs_ok env)
                        | destruct (os_remove_ok env), (os_makedirs_ok env) | ]; done.
  - destruct ts; simpl; [destruct (os_makedirs_ok env)
                        | destruct (os_remove_ok env), (os_makedirs_ok env) | ]; done.
Qed.

(** A folder check that succeeds leaves a directory behind, keeps every
    record that was there, and writes nothing to the trace. *)
Lemma check_folder_true env f w w1 :
  check_folder env f w = (Ok true, w1) ->
  ∃ records, get_folder f w1 = FolderDir records
    ∧ (get_folder f w = FolderDir records ∨ (records = ∅ ∧ is_dir (get_folder f w) = false))
    ∧ (∀ job, stored_record f job w1 = stored_record f job w)
    ∧ w1 = set_folder f (FolderDir records) w.
Proof.
  rewrite check_folder_run.
  assert (∀ job md ts sch tr, stored_record f job (set_folder f (FolderDir ∅)
            (mkWorld md ts sch tr)) = None) as Hnew.
  { intros job md ts sch tr. unfold stored_record.
    destruct (path_kind_of job), f; simpl; try done; apply lookup_empty. }
  destruct w as [md ts sch tr].
  destruct (get_folder f (mkWorld md ts sch tr)) as [| |records] eqn:Hget.
  - destruct (os_makedirs_ok env); intros [= <-]. exists ∅.
    split; [by destruct f|]. split; [by right|]. split; [|done].
    intros job. rewrite Hnew. unfold stored_record. rewrite Hget.
    by destruct (path_kind_of job).
  - destruct (os_remove_ok env), (os_makedirs_ok env); intros [= <-]. exists ∅.
    split; [by destruct f|]. split; [by right|]. split; [|done].
    intros job. rewrite Hnew. unfold stored_record. rewrite Hget.
    by destruct (path_kind_of job).
  - intros [= <-]. exists records. split; [done|]. split; [by left|].
    split; [done|]. destruct f; simpl in *; by subst.
Qed.

Lemma stored_record_Some f job w content :
  stored_record f job w = Some content ->
  path_kind_of job = PathFile
  ∧ ∃ records, get_folder f w = FolderDir records ∧ records !! job = Some content.
Proof.
  unfold stored_record. destruct (path_kind_of job); try done.
  destruct (get_folder f w) as [| |records]; try done. intros H. split; [done|].
  by exists records.
Qed.

Lemma stored_record_dir f job md ts sch tr records :
  get_folder f (mkWorld md ts sch tr) = FolderDir records ->
  path_kind_of job = PathFile ->
  stored_record f job (mkWorld md ts sch tr) = records !! job.
Proof. unfold stored_record. by intros -> ->. Qed.

(** Fetching the listing never raises and only writes log lines. *)
Lemma get_all_latest_files_for_md5_frame env :
  ∃ files evs, (∀ w, get_all_latest_files_for_md5 env w = (Ok files, log_to w evs))
               ∧ Forall (fun ev => is_log ev = true) evs.
Proof.
  unfold get_all_latest_files_for_md5.
  destruct (urlopen env _) as [|code body]; [|destruct (code =? 200)].
  - eexists _, [_]. split; [intros [md ts sch tr]; by unfold_m|by repeat constructor].
  - eexists _, []. split; [intros w; by rewrite log_to_nil|constructor].
  - eexists _, [_]. split; [intros [md ts sch tr]; by unfold_m|by repeat constructor].
Qed.

(** Neither does looking for the latest JSON file of a platform. *)
Lemma get_latest_info_json_url_for_md5_frame env platform :
  ∃ url evs, (∀ w, get_latest_info_json_url_for_md5 env platform w
                   = (Ok url, log_to w evs))
             ∧ Forall (fun ev => is_log ev = true) evs.
Proof.
  destruct (get_all_latest_files_for_md5_frame env) as (files & evs & Hall & Hlogs).
  destruct (1 <=? size (filter (fun kv : string * string =>
              PyStr.endswith kv.1 (MATCH_FORMAT platform "json") = true) files))%nat
    eqn:Hsize.
  - eexists _, evs. split; [|done]. intros w.
    unfold get_latest_info_json_url_for_md5, bind. rewrite Hall. cbv zeta.
    by rewrite Hsize.
  - eexists _, (evs ++ [_])%list. split.
    + intros w. unfold get_latest_info_json_url_for_md5, bind. rewrite Hall.
      cbv zeta. rewrite Hsize. destruct w; unfold_m; simpl. by rewrite <- app_assoc.
    + apply Forall_app. split; [done|by repeat constructor].
Qed.

(** The hash fetch only writes log lines, whatever its outcome. *)
Lemma get_latest_info_json_md5_hash_frame env platform :
  ∃ r evs, (∀ w, get_latest_info_json_md5_hash env platform w = (r, log_to w evs))
           ∧ Forall (fun ev => is_log ev = true) evs.
Proof.
  destruct (get_latest_info_json_url_for_md5_frame env platform)
    as (url & evs & Hurl & Hlogs).
  unfold get_latest_info_json_md5_hash, bind.
  destruct url as [url|].
  - destruct (urlopen env url) as [|code body] eqn:Hopen.
    + exists (Raise NetworkError), evs. split; [|done].
      intros w. rewrite Hurl. unfold get_remote_md5. by rewrite Hopen.
    + eexists (Ok _), evs. split; [|done].
      intros w. rewrite Hurl. unfold get_remote_md5. by rewrite Hopen.
  - exists (Raise AttributeError), evs. split; [|done]. intros w. by rewrite Hurl.
Qed.

Lemma filter_logs_nil (p : event -> bool) evs :
  (∀ ev, is_log ev = true -> p ev = false) ->
  Forall (fun ev => is_log ev = true) evs -> List.filter p evs = [].
Proof.
  intros Hp. induction 1 as [|ev evs Hev _ IH]; simpl; [done|].
  by rewrite (Hp _ Hev).
Qed.

Lemma published_logs evs :
  Forall (fun ev => is_log ev = true) evs -> published evs = [].
Proof. apply filter_logs_nil. by intros []. Qed.

Lemma status_records_logs evs :
  Forall (fun ev => is_log ev = true) evs -> status_records evs = [].
Proof. apply filter_logs_nil. by intros []. Qed.

Lemma effects_logs evs :
  Forall (fun ev => is_log ev = true) evs -> effects evs = [].
Proof. apply filter_logs_nil. by intros []. Qed.

(** What the two checks do once their folder is a directory and the
    current signature is known: the record is compared and, on a change,
    written. *)
Lemma md5_store env job platform new_hash (records : gmap string string)
    (ts : folder) sch tr :
  (let* job_md5_file_exists := path_exists env MD5_HASH_FOLDER job in
   if job_md5_file_exists then
     let* origin_hash := read_first_line env MD5_HASH_FOLDER job in
     if String.eqb origin_hash new_hash then ret false
     else
       do logging INFO (MsgHashChanged job platform new_hash origin_hash) then
       do write_file env MD5_HASH_FOLDER job new_hash then
       ret true
   else
     do logging INFO (MsgHashFirst job platform new_hash) then
     do write_file env MD5_HASH_FOLDER job new_hash then
     ret true) (mkWorld (FolderDir records) ts sch tr)
  = match path_kind_of job with
    | PathInvalid => (Raise TypeError, mkWorld (FolderDir records) ts sch tr)
    | PathDirectory => (Raise IOError, mkWorld (FolderDir records) ts sch tr)
    | PathOutside =>
        if outside_exists env MD5_HASH_FOLDER job then
          match outside_readline env MD5_HASH_FOLDER job with
          | None => (Raise IOError, mkWorld (FolderDir records) ts sch tr)
          | Some origin_hash =>
              if String.eqb origin_hash new_hash
              then (Ok false, mkWorld (FolderDir records) ts sch tr)
              else (if outside_write_ok env MD5_HASH_FOLDER job
                    then Ok true else Raise IOError,
                    mkWorld (FolderDir records) ts sch
                      (tr ++ [EvLog INFO (MsgHashChanged job platform new_hash
                                            origin_hash)]))
          end
        else (if outside_write_ok env MD5_HASH_FOLDER job
              then Ok true else Raise IOError,
              mkWorld (FolderDir records) ts sch
                (tr ++ [EvLog INFO (MsgHashFirst job platform new_hash)]))
    | PathFile =>
        match records !! job with
        | Some content =>
            if String.eqb (PyStr.readline content) new_hash
            then (Ok false, mkWorld (FolderDir records) ts sch tr)
            else (Ok true,
                  mkWorld (FolderDir (<[job := new_hash]> records)) ts sch
                    (tr ++ [EvLog INFO (MsgHashChanged job platform new_hash
                                          (PyStr.readline content))]))
        | None =>
            if os_create_ok env
            then (Ok true,
                  mkWorld (FolderDir (<[job := new_hash]> records)) ts sch
                    (tr ++ [EvLog INFO (MsgHashFirst job platform new_hash)]))
            else (Raise IOError,
                  mkWorld (FolderDir records) ts sch
                    (tr ++ [EvLog INFO (MsgHashFirst job platform new_hash)]))
        end
    end.
Proof.
  unfold_m. simpl.
  destruct (path_kind_of job); simpl; try done.
  - destruct (outside_exists env MD5_HASH_FOLDER job); simpl.
    + destruct (outside_readline env MD5_HASH_FOLDER job) as [line|]; [|done].
      destruct (String.eqb line new_hash); [done|]. simpl.
      by destruct (outside_write_ok env MD5_HASH_FOLDER job).
    + by destruct (outside_write_ok env MD5_HASH_FOLDER job).
  - destruct (records !! job) as [content|] eqn:Hrec; simpl; rewrite ?Hrec; simpl.
    + destruct (String.eqb (PyStr.readline content) new_hash); [done|].
      simpl. rewrite Hrec. done.
    + rewrite ?Hrec. simpl. by destruct (os_create_ok env).
Qed.

Lemma timestamp_store env job platform latest (info : option BuildInformation)
    (md : folder) (records : gmap string string) sch tr :
  (let* job_timestamp_file_exists := path_exists env TIMESTAMP_FOLDER job in
   if job_timestamp_file_exists then
     let* original_timestamp := read_first_line env TIMESTAMP_FOLDER job in
     if String.eqb original_timestamp latest then ret (false, None)
     else
       do logging INFO (MsgTimestampChanged job platform latest
                                            original_timestamp) then
       do write_file env TIMESTAMP_FOLDER job latest then
       ret (true, info)
   else
     do logging INFO (MsgTimestampFirst job platform latest) then
     do write_file env TIMESTAMP_FOLDER job latest then
     ret (true, info)) (mkWorld md (FolderDir records) sch tr)
  = match path_kind_of job with
    | PathInvalid => (Raise TypeError, mkWorld md (FolderDir records) sch tr)
    | PathDirectory => (Raise IOError, mkWorld md (FolderDir records) sch tr)
    | PathOutside =>
        if outside_exists env TIMESTAMP_FOLDER job then
          match outside_readline env TIMESTAMP_FOLDER job with
          | None => (Raise IOError, mkWorld md (FolderDir records) sch tr)
          | Some original_timestamp =>
              if String.eqb original_timestamp latest
              then (Ok (false, None), mkWorld md (FolderDir records) sch tr)
              else (if outside_write_ok env TIMESTAMP_FOLDER job
                    then Ok (true, info) else Raise IOError,
                    mkWorld md (FolderDir records) sch
                      (tr ++ [EvLog INFO (MsgTimestampChanged job platform latest
                                            original_timestamp)]))
          end
        else (if outside_write_ok env TIMESTAMP_FOLDER job
              then Ok (true, info) else Raise IOError,
              mkWorld md (FolderDir records) sch
                (tr ++ [EvLog INFO (MsgTimestampFirst job platform latest)]))
    | PathFile =>
        match records !! job with
        | Some content =>
            if String.eqb (PyStr.readline content) latest
            then (Ok (false, None), mkWorld md (FolderDir records) sch tr)
            else (Ok (true, info),
                  mkWorld md (FolderDir (<[job := latest]> records)) sch
                    (tr ++ [EvLog INFO (MsgTimestampChanged job platform latest
                                          (PyStr.readline content))]))
        | None =>
            if os_create_ok env
            then (Ok (true, info),
                  mkWorld md (FolderDir (<[job := latest]> records)) sch
                    (tr ++ [EvLog INFO (MsgTimestampFirst job platform latest)]))
            else (Raise IOError,
                  mkWorld md (FolderDir records) sch
                    (tr ++ [EvLog INFO (MsgTimestampFirst job platform latest)]))
        end
    end.
Proof.
  unfold_m. simpl.
  destruct (path_kind_of job); simpl; try done.
  - destruct (outside_exists env TIMESTAMP_FOLDER job); simpl.
    + destruct (outside_readline env TIMESTAMP_FOLDER job) as [line|]; [|done].
      destruct (String.eqb line latest); [done|]. simpl.
      by destruct (outside_write_ok env TIMESTAMP_FOLDER job).
    + by destruct (outside_write_ok env TIMESTAMP_FOLDER job).
  - destruct (records !! job) as [content|] eqn:Hrec; simpl; rewrite ?Hrec; simpl.
    + destruct (String.eqb (PyStr.readline content) latest); [done|].
      simpl. rewrite Hrec. done.
    + rewrite ?Hrec. simpl. by destruct (os_create_ok env).
Qed.

(** What a folder check does, whatever the trace it starts from. *)
Lemma check_folder_frame env f md ts sch :
  ∃ ok md' ts' evs,
    (∀ tr, check_folder env f (mkWorld md ts sch tr)
           = (Ok ok, mkWorld md' ts' sch (tr ++ evs)))
    ∧ Forall (fun ev => is_log ev = true) evs
    ∧ (∀ f', f' ≠ f -> get_folder f' (mkWorld md' ts' sch []) = get_folder f' (mkWorld md ts sch []))
    ∧ (ok = true -> ∃ records, get_folder f (mkWorld md' ts' sch []) = FolderDir records
                     ∧ ∀ job, records !! job = None
                              ∨ stored_record f job (mkWorld md ts sch []) = records !! job
                              ∨ path_kind_of job ≠ PathFile)
    ∧ (ok = false -> ∀ job, stored_record f job (mkWorld md' ts' sch []) = None).
Proof.
  assert (∀ tr0 : list event, tr0 = (tr0 ++ [])%list) as Hnil
    by (intros; by rewrite app_nil_r).
  destruct f; [destruct md as [| |records] | destruct ts as [| |records]];
    destruct (os_remove_ok env) eqn:Hrm, (os_makedirs_ok env) eqn:Hmk.
  all: try (eexists true, _, _, []; split;
        [intros tr; rewrite check_folder_run; simpl; rewrite ?Hrm, ?Hmk;
         by rewrite <- Hnil|];
        split; [constructor|]; split; [by intros []|]; split; [|done];
        intros _; eexists; split; [reflexivity|]; intros job;
        first [ by left; apply lookup_empty
              | unfold stored_record; simpl;
                destruct (path_kind_of job) eqn:Hk;
                first [by right; left | by right; right] ]).
  all: eexists false, _, _, [_]; split;
        [intros tr; rewrite check_folder_run; simpl; rewrite ?Hrm, ?Hmk;
         unfold log_to; simpl; reflexivity|];
        split; [by repeat constructor|]; split; [by intros []|]; split; [done|];
        intros _ job; unfold stored_record; simpl; by destruct (path_kind_of job).
Qed.

(** The timestamp check reads and writes the timestamp folder only, adds
    only log lines to the trace, and its outcome does not depend on the
    trace; a change always comes with the build information of the
    latest timestamp. *)
Lemma check_latest_timestamp_frame env job platform md ts sch :
  ∃ r ts' evs,
    (∀ tr, check_latest_timestamp env job platform (mkWorld md ts sch tr)
           = (r, mkWorld md ts' sch (tr ++ evs)))
    ∧ Forall (fun ev => is_log ev = true) evs
    ∧ (∀ obi, r = Ok (true, obi) -> is_Some obi).
Proof.
  unfold check_latest_timestamp.
  destruct (truthy_table (history_table env platform)) eqn:Htruthy.
  - destruct (history_table env platform) as [table|] eqn:Htable; [|done].
    assert (is_Some (table !! latest_key table)) as Hlatest.
    { apply latest_key_spec. intros ->. simpl in Htruthy.
      by rewrite map_size_empty in Htruthy. }
    simpl.
    destruct (check_folder_frame env TIMESTAMP_FOLDER md ts sch)
      as (ok & md' & ts1 & evs1 & Hall & Hlogs1 & Hother & Hdir & _).
    assert (md' = md) as -> by (by apply (Hother MD5_HASH_FOLDER)).
    destruct ok.
    + destruct (Hdir eq_refl) as (records & Hts1 & _). simpl in Hts1. subst ts1.
      pose proof (fun tr => timestamp_store env job platform (latest_key table)
                              (table !! latest_key table) md records sch (tr ++ evs1))
        as Htail.
      revert Htail.
      destruct (path_kind_of job);
        [ | destruct (outside_exists env TIMESTAMP_FOLDER job);
            [destruct (outside_readline env TIMESTAMP_FOLDER job) as [line|];
             [destruct (String.eqb line (latest_key table))|]|];
            destruct (outside_write_ok env TIMESTAMP_FOLDER job)
          |
          | destruct (records !! job) as [content|];
            [destruct (String.eqb (PyStr.readline content) (latest_key table))
            |destruct (os_create_ok env)] ];
        intros Htail;
        (eexists _, _, _; split;
         [intros tr; unfold bind at 1; rewrite Hall; cbn [negb];
          rewrite Htail; rewrite <- ?app_assoc; reflexivity|];
         split; [first [done | apply Forall_app; split; [done|by repeat constructor]]|];
         by intros obi [= <-]).
    + exists (Ok (false, None)), ts1, evs1.
      split; [|split; [done|by intros ? [=]]].
      intros tr. unfold bind at 1. by rewrite Hall.
  - exists (Ok (false, None)), ts, [EvLog ERROR (MsgNoTable platform)].
    split; [|split; [by repeat constructor|by intros ? [=]]].
    intros tr. by unfold_m.
Qed.

(** ** First check of a job (C2) *)

Lemma stored_record_no_folder env f w :
  (check_folder env f w).1 = Ok false ->
  ∀ job, stored_record f job (check_folder env f w).2 = None.
Proof.
  rewrite check_folder_run. intros Hfalse job. revert Hfalse.
  destruct w as [md ts sch tr]. unfold stored_record.
  destruct f; simpl.
  - destruct md; simpl; [destruct (os_makedirs_ok env)
                        | destruct (os_remove_ok env), (os_makedirs_ok env) | ];
      simpl; try done; by destruct (path_kind_of job).
  - destruct ts; simpl; [destruct (os_makedirs_ok env)
                        | destruct (os_remove_ok env), (os_makedirs_ok env) | ];
      simpl; try done; by destruct (path_kind_of job).
Qed.

(** The MD5 check of a job without a record, once its folder is ready and
    a hash is fetched: the record is created when the folder allows it,
    and [open] raises when it does not. *)
Lemma check_md5_first env job platform w h :
  path_kind_of job = PathFile ->
  stored_record MD5_HASH_FOLDER job w = None ->
  (check_folder env MD5_HASH_FOLDER w).1 = Ok true ->
  (get_latest_info_json_md5_hash env platform w).1 = Ok h ->
  ∃ w', check_latest_info_json_md5_changed env job platform w
        = (if os_create_ok env then Ok true else Raise IOError, w')
        ∧ stored_record MD5_HASH_FOLDER job w'
          = if os_create_ok env then Some h else None.
Proof.
  intros Hkind Hnone Hfolder Hfetch.
  destruct (get_latest_info_json_md5_hash_frame env platform) as (r & evs & Hr & _).
  rewrite Hr in Hfetch. simpl in Hfetch. subst r.
  destruct (check_folder env MD5_HASH_FOLDER w) as [rb w1] eqn:Hcf.
  simpl in Hfolder. subst rb.
  pose proof Hcf as Hcf'.
  apply check_folder_true in Hcf' as (records & Hget & _ & Hrecs & ->).
  specialize (Hrecs job). rewrite Hnone in Hrecs.
  unfold check_latest_info_json_md5_changed.
  unfold bind at 1. rewrite Hcf. cbn [negb].
  unfold bind at 1. rewrite Hr. destruct w as [md ts sch tr].
  unfold stored_record in Hrecs. rewrite Hkind in Hrecs.
  unfold log_to, set_folder, get_folder in Hrecs |- *.
  cbn [md5_folder timestamp_folder scheduler trace] in Hrecs |- *.
  rewrite md5_store, Hkind, Hrecs.
  unfold stored_record. rewrite Hkind.
  destruct (os_create_ok env); eexists; (split; [reflexivity|]); simpl.
  - by rewrite lookup_insert_eq.
  - done.
Qed.

(** The MD5 check stops at a folder that cannot be prepared. *)
Lemma check_md5_no_folder env job platform w :
  (check_folder env MD5_HASH_FOLDER w).1 = Ok false ->
  check_latest_info_json_md5_changed env job platform w
  = (Ok false, (check_folder env MD5_HASH_FOLDER w).2).
Proof.
  intros Hfolder. unfold check_latest_info_json_md5_changed.
  unfold bind at 1.
  destruct (check_folder env MD5_HASH_FOLDER w) as [rb w1].
  simpl in Hfolder. by subst rb.
Qed.

Lemma check_timestamp_first env job platform w table :
  path_kind_of job = PathFile ->
  stored_record TIMESTAMP_FOLDER job w = None ->
  (check_folder env TIMESTAMP_FOLDER w).1 = Ok true ->
  history_table env platform = Some table ->
  table ≠ ∅ ->
  ∃ info w',
    check_latest_timestamp env job platform w
    = (if os_create_ok env then Ok (true, Some info) else Raise IOError, w')
    ∧ table !! latest_key table = Some info
    ∧ stored_record TIMESTAMP_FOLDER job w'
      = if os_create_ok env then Some (latest_key table) else None.
Proof.
  intros Hkind Hnone Hfolder Htable Hne.
  destruct (latest_key_spec table Hne) as [[info Hinfo] _].
  destruct (check_folder env TIMESTAMP_FOLDER w) as [rb w1] eqn:Hcf.
  simpl in Hfolder. subst rb.
  pose proof Hcf as Hcf'.
  apply check_folder_true in Hcf' as (records & Hget & _ & Hrecs & ->).
  specialize (Hrecs job). rewrite Hnone in Hrecs.
  unfold check_latest_timestamp. rewrite Htable, (truthy_table_Some _ Hne).
  cbv zeta. change (default ∅ (Some table)) with table.
  unfold bind at 1. rewrite Hcf. cbn [negb]. destruct w as [md ts sch tr].
  unfold stored_record in Hrecs. rewrite Hkind in Hrecs.
  unfold log_to, set_folder, get_folder in Hrecs |- *.
  cbn [md5_folder timestamp_folder scheduler trace] in Hrecs |- *.
  rewrite timestamp_store, Hkind, Hrecs, Hinfo.
  unfold stored_record. rewrite Hkind.
  exists info.
  destruct (os_create_ok env); eexists; (split; [reflexivity|]);
    (split; [done|]); simpl.
  - by rewrite lookup_insert_eq.
  - done.
Qed.

(** The timestamp check finds the latest timestamp first and stops at a
    folder that cannot be prepared. *)
Lemma check_timestamp_no_folder env job platform w table :
  history_table env platform = Some table ->
  table ≠ ∅ ->
  (check_folder env TIMESTAMP_FOLDER w).1 = Ok false ->
  check_latest_timestamp env job platform w
  = (Ok (false, None), (check_folder env TIMESTAMP_FOLDER w).2).
Proof.
  intros Htable Hne Hfolder.
  unfold check_latest_timestamp. rewrite Htable, (truthy_table_Some _ Hne).
  cbv zeta. unfold bind at 1.
  destruct (check_folder env TIMESTAMP_FOLDER w) as [rb w1].
  simpl in Hfolder. by subst rb.
Qed.

(** C2 (as amended): take a job whose name is a file name of the signature
    folder and that has no record there. In MD5 mode, when the folder can
    be prepared and the hash fetch returns [h]: if the record file can be
    created the check reports a change and stores [h], otherwise it
    raises [IOError] and stores nothing; when the folder cannot be
    prepared the check reports no change and does nothing beyond the
    folder check, so no record is stored. In timestamp mode the same
    holds with the latest timestamp of a non-empty history table as the
    signature, and a reported change comes with the [BuildInformation]
    the table holds for that timestamp. *)
Theorem first_check_reports_change env job platform w :
  path_kind_of job = PathFile ->
  (stored_record MD5_HASH_FOLDER job w = None ->
   (∀ h,
      (check_folder env MD5_HASH_FOLDER w).1 = Ok true ->
      (get_latest_info_json_md5_hash env platform w).1 = Ok h ->
      (os_create_ok env = true ->
       ∃ w', check_latest_info_json_md5_changed env job platform w = (Ok true, w')
             ∧ stored_record MD5_HASH_FOLDER job w' = Some h)
      ∧ (os_create_ok env = false ->
         ∃ w', check_latest_info_json_md5_changed env job platform w
               = (Raise IOError, w')
               ∧ stored_record MD5_HASH_FOLDER job w' = None))
   ∧ ((check_folder env MD5_HASH_FOLDER w).1 = Ok false ->
      check_latest_info_json_md5_changed env job platform w
      = (Ok false, (check_folder env MD5_HASH_FOLDER w).2)
      ∧ stored_record MD5_HASH_FOLDER job
          (check_latest_info_json_md5_changed env job platform w).2 = None))
  ∧ (stored_record TIMESTAMP_FOLDER job w = None ->
     ∀ table,
       history_table env platform = Some table ->
       table ≠ ∅ ->
       ((check_folder env TIMESTAMP_FOLDER w).1 = Ok true ->
        (os_create_ok env = true ->
         ∃ info w',
           check_latest_timestamp env job platform w = (Ok (true, Some info), w')
           ∧ table !! latest_key table = Some info
           ∧ stored_record TIMESTAMP_FOLDER job w' = Some (latest_key table))
        ∧ (os_create_ok env = false ->
           ∃ w', check_latest_timestamp env job platform w = (Raise IOError, w')
                 ∧ stored_record TIMESTAMP_FOLDER job w' = None))
       ∧ ((check_folder env TIMESTAMP_FOLDER w).1 = Ok false ->
          check_latest_timestamp env job platform w
          = (Ok (false, None), (check_folder env TIMESTAMP_FOLDER w).2)
          ∧ stored_record TIMESTAMP_FOLDER job
              (check_latest_timestamp env job platform w).2 = None)).
Proof.
  intros Hkind. split.
  - intros Hnone. split.
    + intros h Hfolder Hfetch.
      destruct (check_md5_first env job platform w h Hkind Hnone Hfolder Hfetch)
        as (w' & Hrun & Hrec).
      split; intros Hcreate; rewrite Hcreate in Hrun, Hrec; by exists w'.
    + intros Hfolder.
      rewrite (check_md5_no_folder env job platform w Hfolder).
      split; [done|]. by apply stored_record_no_folder.
  - intros Hnone table Htable Hne. split.
    + intros Hfolder.
      destruct (check_timestamp_first env job platform w table
                  Hkind Hnone Hfolder Htable Hne) as (info & w' & Hrun & Hinfo & Hrec).
      split; intros Hcreate; rewrite Hcreate in Hrun, Hrec.
      * by exists info, w'.
      * by exists w'.
    + intros Hfolder.
      rewrite (check_timestamp_no_folder env job platform w table Htable Hne Hfolder).
      split; [done|]. by apply stored_record_no_folder.
Qed.

Lemma first_check_reports_change_witness :
  ((∃ w', check_latest_info_json_md5_changed Scenario.env_ok "A" "win64" Scenario.fresh
          = (Ok true, w')
          ∧ stored_record MD5_HASH_FOLDER "A" w' = Some "900150983cd24fb0d6963f7d28e17f72")
   ∧ (∃ info w', check_latest_timestamp Scenario.env_ok "A" "win64" Scenario.fresh
                 = (Ok (true, Some info), w')
                 ∧ Scenario.history !! latest_key Scenario.history = Some info
                 ∧ stored_record TIMESTAMP_FOLDER "A" w'
                   = Some (latest_key Scenario.history)))
  ∧ ((∃ w', check_latest_info_json_md5_changed Scenario.env_read_only "B" "win64"
              (Scenario.with_md5 "A" "deadbeef") = (Raise IOError, w')
            ∧ stored_record MD5_HASH_FOLDER "B" w' = None)
     ∧ (∃ w', check_latest_timestamp Scenario.env_read_only "B" "win64"
                (Scenario.with_timestamp "A" "2020-01-01T00:00:00")
              = (Raise IOError, w')
              ∧ stored_record TIMESTAMP_FOLDER "B" w' = None))
  ∧ (stored_record MD5_HASH_FOLDER "A"
       (check_latest_info_json_md5_changed Scenario.env_read_only "A" "win64"
          Scenario.fresh).2 = None
     ∧ stored_record TIMESTAMP_FOLDER "A"
         (check_latest_timestamp Scenario.env_read_only "A" "win64"
            Scenario.fresh).2 = None).
Proof.
  assert (Scenario.history ≠ ∅) as Hne.
  { intros H. apply (f_equal size) in H. vm_compute in H. discriminate. }
  split; [|split].
  - destruct (first_check_reports_change Scenario.env_ok "A" "win64" Scenario.fresh)
      as [Hmd5 Hts]; [vm_compute; reflexivity|].
    split.
    + destruct Hmd5 as [Hmd5 _]; [vm_compute; reflexivity|].
      apply (Hmd5 "900150983cd24fb0d6963f7d28e17f72"); vm_compute; reflexivity.
    + destruct (Hts ltac:(vm_compute; reflexivity) Scenario.history) as [Hok _];
        [vm_compute; reflexivity | exact Hne |].
      apply Hok; vm_compute; reflexivity.
  - split.
    + destruct (first_check_reports_change Scenario.env_read_only "B" "win64"
                  (Scenario.with_md5 "A" "deadbeef")) as [Hmd5 _];
        [vm_compute; reflexivity|].
      destruct Hmd5 as [Hmd5 _]; [vm_compute; reflexivity|].
      apply (Hmd5 "900150983cd24fb0d6963f7d28e17f72"); vm_compute; reflexivity.
    + destruct (first_check_reports_change Scenario.env_read_only "B" "win64"
                  (Scenario.with_timestamp "A" "2020-01-01T00:00:00")) as [_ Hts];
        [vm_compute; reflexivity|].
      destruct (Hts ltac:(vm_compute; reflexivity) Scenario.history) as [Hok _];
        [vm_compute; reflexivity | exact Hne |].
      apply Hok; vm_compute; reflexivity.
  - destruct (first_check_reports_change Scenario.env_read_only "A" "win64"
                Scenario.fresh) as [Hmd5 Hts]; [vm_compute; reflexivity|].
    split.
    + destruct Hmd5 as [_ Hno]; [vm_compute; reflexivity|].
      apply Hno; vm_compute; reflexivity.
    + destruct (Hts ltac:(vm_compute; reflexivity) Scenario.history) as [_ Hno];
        [vm_compute; reflexivity | exact Hne |].
      apply Hno; vm_compute; reflexivity.
Defined.

(** C2, counterexample to the claim as stated: job [B] has no timestamp
    on record and the history table yields a latest timestamp, but the
    timestamp folder cannot be created; the check reports no change and
    stores nothing. *)
Lemma first_check_without_folder :
  stored_record TIMESTAMP_FOLDER "B" Scenario.fresh = None
  ∧ latest_key Scenario.history = "2020-02-02T02:00:00"
  ∧ history_table Scenario.env_read_only "win64" = Some Scenario.history
  ∧ (check_latest_timestamp Scenario.env_read_only "B" "win64" Scenario.fresh).1
    = Ok (false, None)
  ∧ stored_record TIMESTAMP_FOLDER "B"
      (check_latest_timestamp Scenario.env_read_only "B" "win64" Scenario.fresh).2
    = None.
Proof. repeat split; vm_compute; reflexivity. Qed.

(** ** Unchanged signature (C3) *)

Lemma log_to_quiet w evs :
  Forall (fun ev => is_log ev = true) evs -> quiet w (log_to w evs).
Proof.
  intros Hlogs. unfold quiet, log_to. simpl.
  rewrite published_app, status_records_app.
  rewrite (published_logs _ Hlogs), (status_records_logs _ Hlogs).
  by rewrite !app_nil_r.
Qed.

Lemma stored_signature_Some f job w h :
  stored_signature f job w = Some h ->
  path_kind_of job = PathFile
  ∧ ∃ records content, get_folder f w = FolderDir records
    ∧ records !! job = Some content ∧ PyStr.readline content = h.
Proof.
  unfold stored_signature, stored_record.
  destruct (path_kind_of job); simpl; try done.
  destruct (get_folder f w) as [| |records]; simpl; try done.
  destruct (records !! job) as [content|] eqn:Hrec; simpl; [|done].
  intros [= <-]. split; [done|]. by exists records, content.
Qed.

Lemma check_md5_unchanged env job platform w h :
  stored_signature MD5_HASH_FOLDER job w = Some h ->
  (get_latest_info_json_md5_hash env platform w).1 = Ok h ->
  ∃ evs, check_latest_info_json_md5_changed env job platform w
         = (Ok false, log_to w evs)
         ∧ Forall (fun ev => is_log ev = true) evs.
Proof.
  intros Hsig Hfetch.
  destruct (get_latest_info_json_md5_hash_frame env platform) as (r & evs & Hr & Hlogs).
  rewrite Hr in Hfetch. simpl in Hfetch. subst r.
  apply stored_signature_Some in Hsig
    as (Hkind & records & content & Hget & Hrec & Hline).
  exists evs. split; [|done].
  unfold check_latest_info_json_md5_changed.
  unfold bind at 1. rewrite check_folder_run, Hget. cbn [negb].
  unfold bind at 1. rewrite Hr.
  destruct w as [md ts sch tr]. simpl in Hget. subst md.
  unfold log_to. cbn [md5_folder timestamp_folder scheduler trace].
  rewrite md5_store, Hkind, Hrec, Hline.
  by rewrite String.eqb_refl.
Qed.

Lemma check_timestamp_unchanged env job platform w table :
  history_table env platform = Some table ->
  table ≠ ∅ ->
  stored_signature TIMESTAMP_FOLDER job w = Some (latest_key table) ->
  check_latest_timestamp env job platform w = (Ok (false, None), w).
Proof.
  intros Htable Hne Hsig.
  apply stored_signature_Some in Hsig
    as (Hkind & records & content & Hget & Hrec & Hline).
  unfold check_latest_timestamp. rewrite Htable, (truthy_table_Some _ Hne).
  cbv zeta. change (default ∅ (Some table)) with table.
  unfold bind at 1. rewrite check_folder_run, Hget. cbn [negb].
  destruct w as [md ts sch tr]. simpl in Hget. subst ts.
  rewrite timestamp_store, Hkind, Hrec, Hline.
  by rewrite String.eqb_refl.
Qed.

(** C3: when the signature on record for a job equals the signature the
    check fetches, the check reports no change and rewrites no record,
    and the dispatch job built on it publishes no message and writes no
    status record: the world after the tick differs from the world
    before it by log lines only. This holds for the MD5 check with
    [job_pushing_meta_task_md5] and for the timestamp check with
    [job_pushing_meta_task]. *)
Theorem unchanged_signature_no_dispatch env username password command_config
    job topic amount platform cmd_name overwrite_cmd_config w :
  (∀ h,
     stored_signature MD5_HASH_FOLDER job w = Some h ->
     (get_latest_info_json_md5_hash env platform w).1 = Ok h ->
     (∃ w', check_latest_info_json_md5_changed env job platform w = (Ok false, w')
            ∧ quiet w w')
     ∧ (∃ w', job_pushing_meta_task_md5 env username password command_config job
                topic amount platform cmd_name overwrite_cmd_config w = (Ok tt, w')
              ∧ quiet w w'))
  ∧ (∀ table,
       history_table env platform = Some table ->
       table ≠ ∅ ->
       stored_signature TIMESTAMP_FOLDER job w = Some (latest_key table) ->
       check_latest_timestamp env job platform w = (Ok (false, None), w)
       ∧ (∃ w', job_pushing_meta_task env username password command_config job
                  topic amount platform cmd_name overwrite_cmd_config w = (Ok tt, w')
                ∧ quiet w w')).
Proof.
  split.
  - intros h Hsig Hfetch.
    destruct (check_md5_unchanged _ _ _ _ _ Hsig Hfetch) as (evs & Hcheck & Hlogs).
    split.
    + exists (log_to w evs). split; [done|]. by apply log_to_quiet.
    + exists (log_to w evs). split; [|by apply log_to_quiet].
      unfold job_pushing_meta_task_md5, bind. by rewrite Hcheck.
  - intros table Htable Hne Hsig. split.
    + by apply (check_timestamp_unchanged _ _ _ _ table).
    + exists (log_to w [EvLog INFO (MsgChecking job platform);
                        EvLog INFO (MsgChecked job platform false)]).
      split; [|by apply log_to_quiet; repeat constructor].
      unfold job_pushing_meta_task, bind at 1. unfold logging at 1, emit at 1.
      unfold bind at 1.
      rewrite (check_timestamp_unchanged env job platform _ table Htable Hne);
        [|by destruct w].
      destruct w as [md ts sch tr]. unfold_m. simpl. by rewrite <- app_assoc.
Qed.

Lemma unchanged_signature_no_dispatch_witness :
  ((∃ w', check_latest_info_json_md5_changed Scenario.env_ok "A" "win64"
            (Scenario.with_md5 "A" "900150983cd24fb0d6963f7d28e17f72") = (Ok false, w')
          ∧ quiet (Scenario.with_md5 "A" "900150983cd24fb0d6963f7d28e17f72") w')
   ∧ (∃ w', job_pushing_meta_task_md5 Scenario.env_ok "user" "secret" ∅ "A" "win7" 2
              "win64" "download-latest-nightly" ∅
              (Scenario.with_md5 "A" "900150983cd24fb0d6963f7d28e17f72") = (Ok tt, w')
            ∧ quiet (Scenario.with_md5 "A" "900150983cd24fb0d6963f7d28e17f72") w'))
  ∧ (check_latest_timestamp Scenario.env_ok "A" "win64"
       (Scenario.with_timestamp "A" "2020-02-02T02:00:00")
     = (Ok (false, None), Scenario.with_timestamp "A" "2020-02-02T02:00:00")
     ∧ (∃ w', job_pushing_meta_task Scenario.env_ok "user" "secret" ∅ "A" "win7" 2
                "win64" "download-latest-nightly" ∅
                (Scenario.with_timestamp "A" "2020-02-02T02:00:00") = (Ok tt, w')
              ∧ quiet (Scenario.with_timestamp "A" "2020-02-02T02:00:00") w')).
Proof.
  destruct (unchanged_signature_no_dispatch Scenario.env_ok "user" "secret" ∅ "A"
              "win7" 2 "win64" "download-latest-nightly" ∅
              (Scenario.with_md5 "A" "900150983cd24fb0d6963f7d28e17f72")) as [Hmd5 _].
  destruct (unchanged_signature_no_dispatch Scenario.env_ok "user" "secret" ∅ "A"
              "win7" 2 "win64" "download-latest-nightly" ∅
              (Scenario.with_timestamp "A" "2020-02-02T02:00:00")) as [_ Hts].
  split.
  - apply (Hmd5 "900150983cd24fb0d6963f7d28e17f72"); vm_compute; reflexivity.
  - apply (Hts Scenario.history); [vm_compute; reflexivity | | vm_compute; reflexivity].
    intros H. apply (f_equal size) in H. vm_compute in H. discriminate.
Defined.

(** ** Dispatch on a detected change (C4, C7, C8) *)

Lemma push_loop_run topic cmd cfg uid_prefix indices uid_list md ts sch tr :
  push_loop topic cmd cfg uid_prefix indices uid_list (mkWorld md ts sch tr)
  = (Ok (uid_list ++ (make_uid uid_prefix <$> indices))%list,
     mkWorld md ts sch
       (tr ++ ((fun idx => EvPublish topic cmd cfg (make_uid uid_prefix idx)) <$> indices))).
Proof.
  revert uid_list tr. induction indices as [|idx rest IH]; intros uid_list tr; simpl.
  - unfold ret. by rewrite !app_nil_r.
  - unfold bind, emit. simpl. rewrite IH. by rewrite <- !app_assoc.
Qed.

Lemma make_uid_range uid_prefix amount :
  make_uid uid_prefix <$> range amount = uid_of uid_prefix <$> seqZ 1 amount.
Proof.
  unfold range. change (seqZ 1 amount) with (seqZ (1 + 0) amount).
  rewrite <- (fmap_add_seqZ 1 0 amount), <- list_fmap_compose.
  apply list_fmap_ext. intros _ idx _. simpl. unfold make_uid, uid_of.
  by rewrite Z.add_comm.
Qed.

Lemma publish_range topic cmd cfg uid_prefix amount :
  (fun idx => EvPublish topic cmd cfg (make_uid uid_prefix idx)) <$> range amount
  = EvPublish topic cmd cfg <$> (uid_of uid_prefix <$> seqZ 1 amount).
Proof. by rewrite <- make_uid_range, <- list_fmap_compose. Qed.

Lemma handle_specify_commands_Some cmd cfg info :
  handle_specify_commands cmd cfg (Some info) = Ok (outgoing_config cmd cfg info).
Proof.
  unfold handle_specify_commands, outgoing_config, enriched.
  by destruct (bool_decide _).
Qed.

(** What [job_pushing_meta_task] does, step by step, on a tick whose
    timestamp check reports a change. *)
Lemma job_pushing_meta_task_dispatch env username password command_config job topic
    amount platform cmd_name overwrite_cmd_config w obi :
  (check_latest_timestamp env job platform w).1 = Ok (true, obi) ->
  ∃ info ts' logs,
    obi = Some info
    ∧ Forall (fun ev => is_log ev = true) logs
    ∧ let cfg := outgoing_config cmd_name overwrite_cmd_config info in
      let uid_list := uid_of (now_string env ++ "." ++ job) <$> seqZ 1 amount in
      let job_id_fp := path_join (status_folder env) (create_job_id_folder env job) in
      let tag := STATUS_TAG_PULSE_TRIGGER env in
      job_pushing_meta_task env username password command_config job topic amount
        platform cmd_name overwrite_cmd_config w
      = (match filter_cmd_config env cfg with
         | Ok _ => Ok tt
         | Raise e => Raise e
         end,
         mkWorld (md5_folder w) ts' (scheduler w)
           (trace w ++ logs
              ++ [EvJobIdFolder job (create_job_id_folder env job);
                  EvStatusFile job_id_fp tag 100 None]
              ++ (if queue_exists env topic then []
                  else [EvLog ERROR (MsgNoQueue topic)])
              ++ [EvLog INFO (MsgPushing (now_string env ++ "." ++ job) job platform
                                topic amount cmd_name cfg)]
              ++ (EvPublish topic cmd_name cfg <$> uid_list)
              ++ match filter_cmd_config env cfg with
                 | Ok cmd_config =>
                     [EvStatusFile job_id_fp tag 900
                        (Some (mkContent job platform topic amount cmd_name
                                 cmd_config uid_list))]
                 | Raise _ => []
                 end)).
Proof.
  destruct w as [md ts sch tr]. intros Hchanged.
  destruct (check_latest_timestamp_frame env job platform md ts sch)
    as (r & ts' & evs & Hcheck & Hlogs & Hinfo).
  rewrite Hcheck in Hchanged. simpl in Hchanged. subst r.
  destruct (Hinfo _ eq_refl) as [info ->].
  exists info, ts',
    ([EvLog INFO (MsgChecking job platform)] ++ evs
       ++ [EvLog INFO (MsgChecked job platform true)])%list.
  split; [done|]. split.
  { apply Forall_app. split; [by repeat constructor|].
    apply Forall_app. split; [done|by repeat constructor]. }
  cbv zeta. unfold job_pushing_meta_task.
  unfold bind at 1. unfold logging at 1, emit at 1. simpl.
  unfold bind at 1. rewrite Hcheck.
  unfold bind at 1. unfold logging at 1, emit at 1. simpl.
  unfold bind at 1. unfold emit at 1. simpl.
  unfold bind at 1. unfold emit at 1. simpl.
  unfold bind at 1.
  rewrite handle_specify_commands_Some.
  set (cfg := outgoing_config cmd_name overwrite_cmd_config info).
  assert (∀ tr0, (if negb (queue_exists env topic)
                  then logging ERROR (MsgNoQueue topic) else ret tt)
                   (mkWorld md ts' sch tr0)
                 = (Ok tt, mkWorld md ts' sch
                             (tr0 ++ if queue_exists env topic then []
                                     else [EvLog ERROR (MsgNoQueue topic)]))) as ->.
  { intros tr0. destruct (queue_exists env topic); simpl; unfold_m; simpl;
      by rewrite ?app_nil_r. }
  unfold bind at 1, lift at 1.
  unfold bind at 1. unfold logging at 1, emit at 1. simpl.
  unfold bind at 1. rewrite push_loop_run, publish_range, make_uid_range. simpl.
  unfold bind, lift, emit.
  destruct (filter_cmd_config env cfg) as [cmd_config|e]; simpl;
    f_equal; f_equal; rewrite <- ?app_assoc; simpl; rewrite ?app_nil_r; reflexivity.
Qed.

Lemma published_fan_out topic cmd cfg (uids : list string) :
  published (EvPublish topic cmd cfg <$> uids) = EvPublish topic cmd cfg <$> uids.
Proof. induction uids as [|u l IH]; simpl; [done|]. by f_equal. Qed.

Lemma effects_fan_out topic cmd cfg (uids : list string) :
  effects (EvPublish topic cmd cfg <$> uids) = EvPublish topic cmd cfg <$> uids.
Proof. induction uids as [|u l IH]; simpl; [done|]. by f_equal. Qed.

(** C4: on a detected change with [amount = k], [k >= 1], the dispatch
    job hands exactly [k] messages to the broker; they all carry the same
    topic, command and config, their uids are pairwise distinct, and the
    [i]-th uid is the prefix made of the dispatch time and the job name
    followed by a dot and [i], for [i] from 1 to [k] in this order. *)
Theorem fan_out_count env username password command_config job topic k platform
    cmd_name overwrite_cmd_config w obi :
  1 <= k ->
  (check_latest_timestamp env job platform w).1 = Ok (true, obi) ->
  let w' := (job_pushing_meta_task env username password command_config job topic k
               platform cmd_name overwrite_cmd_config w).2 in
  let uid_prefix := now_string env ++ "." ++ job in
  let uid_list := uid_of uid_prefix <$> seqZ 1 k in
  (∃ cfg, published (trace w')
          = (published (trace w) ++ (EvPublish topic cmd_name cfg <$> uid_list))%list)
  ∧ Z.of_nat (length uid_list) = k
  ∧ NoDup uid_list
  ∧ (∀ i, 1 <= i <= k ->
          uid_list !! Z.to_nat (i - 1) = Some (uid_prefix ++ "." ++ pretty i)).
Proof.
  intros Hk Hchanged w' uid_prefix uid_list.
  destruct (job_pushing_meta_task_dispatch env username password command_config job
              topic k platform cmd_name overwrite_cmd_config w obi Hchanged)
    as (info & ts' & logs & -> & Hlogs & Hrun).
  cbv zeta in Hrun. subst w'. rewrite Hrun. cbn [snd trace].
  split; [|split; [|split]].
  - exists (outgoing_config cmd_name overwrite_cmd_config info).
    rewrite !published_app, (published_logs _ Hlogs), published_fan_out.
    destruct (queue_exists env topic), (filter_cmd_config env _); simpl;
      by rewrite ?app_nil_r.
  - unfold uid_list. rewrite length_fmap, length_seqZ. clear - Hk. lia.
  - unfold uid_list. apply NoDup_fmap_2; [apply _|apply NoDup_seqZ].
  - intros i Hi. unfold uid_list. rewrite list_lookup_fmap.
    rewrite lookup_seqZ_lt by (clear - Hi; lia).
    replace (1 + Z.of_nat (Z.to_nat (i - 1))) with i by (clear - Hi; lia).
    done.
Qed.

Lemma fan_out_count_witness :
  let w' := (job_pushing_meta_task Scenario.env_ok "user" "secret" ∅ "A" "win7" 2
               "win64" "download-latest-nightly" ∅ Scenario.fresh).2 in
  let uid_list := uid_of "2020-02-03_10:00:00.000001.A" <$> seqZ 1 2 in
  (∃ cfg, published (trace w')
          = (published (trace Scenario.fresh)
               ++ (EvPublish "win7" "download-latest-nightly" cfg <$> uid_list))%list)
  ∧ Z.of_nat (length uid_list) = 2
  ∧ NoDup uid_list
  ∧ (∀ i, 1 <= i <= 2 ->
          uid_list !! Z.to_nat (i - 1)
          = Some ("2020-02-03_10:00:00.000001.A" ++ "." ++ pretty i)).
Proof.
  apply (fan_out_count Scenario.env_ok "user" "secret" ∅ "A" "win7" 2 "win64"
           "download-latest-nightly" ∅ Scenario.fresh
           (Some (mkBuildInformation "https://archive.mozilla.org/pub/b" "abc123"))).
  - lia.
  - vm_compute. reflexivity.
Defined.

(** what the uids of the scenario of the spec look like *)
Example fan_out_uids :
  uid_of "2020-02-03_10:00:00.000001.A" <$> seqZ 1 2
  = ["2020-02-03_10:00:00.000001.A.1"; "2020-02-03_10:00:00.000001.A.2"].
Proof. vm_compute. reflexivity. Qed.

(** *** The masking pass never fails on a well-typed case list *)

Lemma filter_steps_total env items acc :
  (∀ v, (CASE_LIST_KEY, v) ∈ items -> ∃ v', convert_case_list v = Ok v') ->
  ∃ masked, foldl (filter_step env) (Ok acc) items = Ok masked.
Proof.
  revert acc. induction items as [|[k v] items IH]; intros acc Hok; simpl.
  - by eexists.
  - destruct (String.eqb k CASE_LIST_KEY) eqn:Hk.
    + apply String.eqb_eq in Hk as ->.
      destruct (Hok v) as [v' ->]; [by left|].
      apply IH. intros v0 Hv0. apply Hok. by right.
    + apply IH. intros v0 Hv0. apply Hok. by right.
Qed.

Lemma filter_cmd_config_total env c :
  case_list_ok c -> ∃ masked, filter_cmd_config env c = Ok masked.
Proof.
  intros Hok. apply filter_steps_total. intros v Hv.
  apply elem_of_map_to_list in Hv. unfold case_list_ok in Hok. rewrite Hv in Hok.
  destruct v; try done; by eexists.
Qed.

Lemma case_list_ok_outgoing cmd c info :
  case_list_ok c -> case_list_ok (outgoing_config cmd c info).
Proof.
  unfold outgoing_config, enriched, case_list_ok.
  destruct (bool_decide _); [|done].
  by rewrite !lookup_insert_ne.
Qed.

Lemma case_list_bad_outgoing cmd c info :
  ¬ case_list_ok c -> ¬ case_list_ok (outgoing_config cmd c info).
Proof.
  unfold outgoing_config, enriched, case_list_ok.
  destruct (bool_decide _); [|done].
  by rewrite !lookup_insert_ne.
Qed.

(** *** On an ill-typed case list the masking pass raises *)

Lemma filter_steps_raise env items e :
  foldl (filter_step env) (Raise e) items = Raise e.
Proof. induction items as [|[k v] items IH]; simpl; [done|]. exact IH. Qed.

Lemma filter_steps_ill_typed env items acc v :
  (CASE_LIST_KEY, v) ∈ items ->
  (∀ v', (CASE_LIST_KEY, v') ∈ items -> v' = v) ->
  convert_case_list v = Raise AttributeError ->
  foldl (filter_step env) (Ok acc) items = Raise AttributeError.
Proof.
  revert acc. induction items as [|[k x] items IH]; intros acc Hin Hsame Hbad; simpl.
  - by apply elem_of_nil in Hin.
  - destruct (String.eqb k CASE_LIST_KEY) eqn:Hk.
    + apply String.eqb_eq in Hk as ->.
      rewrite (Hsame x) by by left. rewrite Hbad. apply filter_steps_raise.
    + apply String.eqb_neq in Hk.
      apply elem_of_cons in Hin as [[= <- _]|Hin]; [done|].
      apply IH; [done| |done]. intros v' Hv'. apply Hsame. by right.
Qed.

Lemma filter_cmd_config_ill_typed env c :
  ¬ case_list_ok c -> filter_cmd_config env c = Raise AttributeError.
Proof.
  unfold case_list_ok. intros Hbad.
  destruct (c !! CASE_LIST_KEY) as [v|] eqn:Hv; [|done].
  apply (filter_steps_ill_typed env _ _ v).
  - by apply elem_of_map_to_list.
  - intros v' Hv'. apply elem_of_map_to_list in Hv'. congruence.
  - destruct v; try done; by destruct Hbad.
Qed.

(** *** What the masking pass returns *)

(** Away from the case list every turn of the loop is one masking. *)
Lemma filter_steps_mask env items acc :
  CASE_LIST_KEY ∉ items.*1 ->
  foldl (filter_step env) (Ok acc) items
  = Ok (Nat.iter (length items) (mask_credential_value env) acc).
Proof.
  revert acc. induction items as [|[k v] items IH]; intros acc Hnot; simpl; [done|].
  rewrite fmap_cons, not_elem_of_cons in Hnot. destruct Hnot as [Hk Hnot].
  simpl in Hk. apply not_eq_sym, String.eqb_neq in Hk. rewrite Hk.
  rewrite (IH _ Hnot). f_equal. symmetry. apply Nat.iter_succ_r.
Qed.

(** On the turn of the case list the converted list is stored before the
    masking of that turn. *)
Lemma filter_steps_convert env before after acc v case_list :
  CASE_LIST_KEY ∉ before.*1 ->
  CASE_LIST_KEY ∉ after.*1 ->
  convert_case_list v = Ok case_list ->
  foldl (filter_step env) (Ok acc) (before ++ (CASE_LIST_KEY, v) :: after)
  = Ok (Nat.iter (S (length after)) (mask_credential_value env)
          (<[CASE_LIST_KEY := case_list]>
             (Nat.iter (length before) (mask_credential_value env) acc))).
Proof.
  intros Hbefore Hafter Hconv.
  rewrite foldl_app, (filter_steps_mask _ _ _ Hbefore). simpl.
  rewrite Hconv, (filter_steps_mask _ _ _ Hafter). f_equal.
  symmetry. apply Nat.iter_succ_r.
Qed.

Lemma filter_cmd_config_masks env c :
  (c !! CASE_LIST_KEY = None ->
   filter_cmd_config env c = Ok (Nat.iter (size c) (mask_credential_value env) c))
  ∧ (∀ v case_list,
       c !! CASE_LIST_KEY = Some v ->
       convert_case_list v = Ok case_list ->
       ∃ before after,
         (before + S after = size c)%nat
         ∧ filter_cmd_config env c
           = Ok (Nat.iter (S after) (mask_credential_value env)
                   (<[CASE_LIST_KEY := case_list]>
                      (Nat.iter before (mask_credential_value env) c)))).
Proof.
  unfold filter_cmd_config. split.
  - intros Hnone. rewrite filter_steps_mask; [by rewrite length_map_to_list|].
    intros Hin. apply list_elem_of_fmap in Hin as ([k v] & Hk & Hin).
    simpl in Hk. subst k. apply elem_of_map_to_list in Hin. congruence.
  - intros v case_list Hv Hconv.
    pose proof (NoDup_fst_map_to_list c) as Hnodup.
    pose proof (length_map_to_list c) as Hsize.
    apply elem_of_map_to_list, list_elem_of_split in Hv as (before & after & Heq).
    rewrite Heq in Hnodup, Hsize |- *.
    rewrite fmap_app, fmap_cons in Hnodup. simpl in Hnodup.
    apply NoDup_app in Hnodup as (_ & Hbefore & Hafter).
    apply NoDup_cons in Hafter as [Hafter _].
    exists (length before), (length after). split.
    + rewrite <- Hsize, length_app. simpl. lia.
    + apply filter_steps_convert; [|done|done].
      intros Hin. apply (Hbefore _ Hin). by left.
Qed.

(** C7 (as amended): take a dispatch triggered by a detected change. If
    the case list of its config, when there is one, is a list or a
    string, the dispatch runs to its end, and what it does besides
    logging is, in this order: it creates the status folder of the run,
    writes a status record with tag [STATUS_TAG_PULSE_TRIGGER] and marker
    100 and no content, publishes the [amount] messages, and writes a
    status record with marker 900 whose content holds the job name, the
    platform, the topic, the amount, the command, the masked config and
    the list of all uids. The masked config is what the masking pass of
    [CommonUtil.mask_credential_value] makes of the outgoing config when
    it is applied once for every entry of that config, the case list
    being stored as a list just before the masking of its own turn. If
    the case list is of another type, the dispatch raises
    [AttributeError] after the messages are published, and the record
    with marker 900 is not written. *)
Theorem status_records_around_fan_out env username password command_config job
    topic amount platform cmd_name overwrite_cmd_config w obi :
  (check_latest_timestamp env job platform w).1 = Ok (true, obi) ->
  ∃ info,
    obi = Some info
    ∧ let outgoing := outgoing_config cmd_name overwrite_cmd_config info in
      let mask := mask_credential_value env in
      let uid_list := uid_of (now_string env ++ "." ++ job) <$> seqZ 1 amount in
      let job_id_fp := path_join (status_folder env) (create_job_id_folder env job) in
      let started :=
        [EvJobIdFolder job (create_job_id_folder env job);
         EvStatusFile job_id_fp (STATUS_TAG_PULSE_TRIGGER env) 100 None] in
      let fan_out := EvPublish topic cmd_name outgoing <$> uid_list in
      let ticked := job_pushing_meta_task env username password command_config job
                      topic amount platform cmd_name overwrite_cmd_config w in
      (case_list_ok overwrite_cmd_config ->
       ∃ masked,
         filter_cmd_config env outgoing = Ok masked
         ∧ ticked.1 = Ok tt
         ∧ effects (trace ticked.2)
           = (effects (trace w) ++ started ++ fan_out
                ++ [EvStatusFile job_id_fp (STATUS_TAG_PULSE_TRIGGER env) 900
                      (Some (mkContent job platform topic amount cmd_name masked
                               uid_list))])%list
         ∧ (outgoing !! CASE_LIST_KEY = None ->
            masked = Nat.iter (size outgoing) mask outgoing)
         ∧ (∀ v, outgoing !! CASE_LIST_KEY = Some v ->
                 ∃ case_list before after,
                   convert_case_list v = Ok case_list
                   ∧ (before + S after = size outgoing)%nat
                   ∧ masked = Nat.iter (S after) mask
                                (<[CASE_LIST_KEY := case_list]>
                                   (Nat.iter before mask outgoing))))
      ∧ (¬ case_list_ok overwrite_cmd_config ->
         ticked.1 = Raise AttributeError
         ∧ effects (trace ticked.2)
           = (effects (trace w) ++ started ++ fan_out)%list).
Proof.
  intros Hchanged.
  destruct (job_pushing_meta_task_dispatch env username password command_config job
              topic amount platform cmd_name overwrite_cmd_config w obi Hchanged)
    as (info & ts' & logs & -> & Hlogs & Hrun).
  cbv zeta in Hrun. exists info. split; [done|]. cbv zeta.
  set (outgoing := outgoing_config cmd_name overwrite_cmd_config info) in *.
  split.
  - intros Hok.
    pose proof (case_list_ok_outgoing cmd_name _ info Hok) as Hout.
    fold outgoing in Hout.
    destruct (filter_cmd_config_total env _ Hout) as [masked Hmasked].
    rewrite Hmasked in Hrun. rewrite Hrun.
    exists masked. split; [done|]. split; [done|]. split.
    { cbn [snd trace]. rewrite !effects_app, (effects_logs _ Hlogs), effects_fan_out.
      by destruct (queue_exists env topic). }
    destruct (filter_cmd_config_masks env outgoing) as [Hnone Hsome]. split.
    + intros Hkey. rewrite (Hnone Hkey) in Hmasked. by injection Hmasked.
    + intros v Hkey.
      assert (∃ case_list, convert_case_list v = Ok case_list) as [case_list Hconv].
      { unfold case_list_ok in Hout. rewrite Hkey in Hout.
        destruct v; try done; by eexists. }
      destruct (Hsome v case_list Hkey Hconv) as (before & after & Hsize & Hrun').
      rewrite Hrun' in Hmasked. injection Hmasked as <-.
      by exists case_list, before, after.
  - intros Hbad.
    pose proof (case_list_bad_outgoing cmd_name _ info Hbad) as Hout.
    fold outgoing in Hout.
    rewrite (filter_cmd_config_ill_typed env _ Hout) in Hrun. rewrite Hrun.
    split; [done|].
    cbn [snd trace]. rewrite !effects_app, (effects_logs _ Hlogs), effects_fan_out.
    destruct (queue_exists env topic); simpl; by rewrite ?app_nil_r.
Qed.

Lemma status_records_around_fan_out_witness :
  let build := mkBuildInformation "https://archive.mozilla.org/pub/b" "abc123" in
  let uid_list := uid_of (now_string Scenario.env_ok ++ "." ++ "B") <$> seqZ 1 2 in
  let job_id_fp := path_join (status_folder Scenario.env_ok)
                     (create_job_id_folder Scenario.env_ok "B") in
  let started :=
    [EvJobIdFolder "B" (create_job_id_folder Scenario.env_ok "B");
     EvStatusFile job_id_fp (STATUS_TAG_PULSE_TRIGGER Scenario.env_ok) 100 None] in
  (let overwrite : config :=
     {[ CASE_LIST_KEY := VStr "a,b"; "pulse_password" := VStr "secret" ]} in
   let outgoing := outgoing_config "download-specify-nightly" overwrite build in
   let ticked := job_pushing_meta_task Scenario.env_ok "user" "secret" ∅ "B" "win7" 2
                   "win64" "download-specify-nightly" overwrite Scenario.fresh in
   ∃ masked,
     filter_cmd_config Scenario.env_ok outgoing = Ok masked
     ∧ ticked.1 = Ok tt
     ∧ effects (trace ticked.2)
       = (effects (trace Scenario.fresh) ++ started
            ++ (EvPublish "win7" "download-specify-nightly" outgoing <$> uid_list)
            ++ [EvStatusFile job_id_fp (STATUS_TAG_PULSE_TRIGGER Scenario.env_ok) 900
                  (Some (mkContent "B" "win64" "win7" 2 "download-specify-nightly"
                           masked uid_list))])%list
     ∧ ∃ case_list before after,
         convert_case_list (VStr "a,b") = Ok case_list
         ∧ (before + S after = size outgoing)%nat
         ∧ masked = Nat.iter (S after) Scenario.mask
                      (<[CASE_LIST_KEY := case_list]>
                         (Nat.iter before Scenario.mask outgoing)))
  ∧ (let overwrite : config := {[ CASE_LIST_KEY := VNone ]} in
     let outgoing := outgoing_config "download-specify-nightly" overwrite build in
     let ticked := job_pushing_meta_task Scenario.env_ok "user" "secret" ∅ "B" "win7" 2
                     "win64" "download-specify-nightly" overwrite Scenario.fresh in
     ticked.1 = Raise AttributeError
     ∧ effects (trace ticked.2)
       = (effects (trace Scenario.fresh) ++ started
            ++ (EvPublish "win7" "download-specify-nightly" outgoing <$> uid_list))%list).
Proof.
  cbv zeta. split.
  - destruct (status_records_around_fan_out Scenario.env_ok "user" "secret" ∅ "B"
                "win7" 2 "win64" "download-specify-nightly"
                {[ CASE_LIST_KEY := VStr "a,b"; "pulse_password" := VStr "secret" ]}
                Scenario.fresh
                (Some (mkBuildInformation "https://archive.mozilla.org/pub/b" "abc123")))
      as (info & Hinfo & Hok & _); [vm_compute; reflexivity|].
    injection Hinfo as <-.
    destruct Hok as (masked & Hmasked & Hrun & Heffects & _ & Hlist);
      [vm_compute; exact I|].
    exists masked. split; [exact Hmasked|]. split; [exact Hrun|].
    split; [exact Heffects|].
    apply Hlist. vm_compute. reflexivity.
  - destruct (status_records_around_fan_out Scenario.env_ok "user" "secret" ∅ "B"
                "win7" 2 "win64" "download-specify-nightly" {[ CASE_LIST_KEY := VNone ]}
                Scenario.fresh
                (Some (mkBuildInformation "https://archive.mozilla.org/pub/b" "abc123")))
      as (info & Hinfo & _ & Hbad); [vm_compute; reflexivity|].
    injection Hinfo as <-.
    apply Hbad. vm_compute. intros H. exact H.
Defined.

(** C7, counterexample to the claim as stated: the timestamp check of job
    [B] detects a change and the config of the job holds [None] as its
    case list. The record with marker 100 is written and the two
    messages are published; then the masking pass raises
    [AttributeError] on [None.split] and the dispatch ends there: no
    record with marker 900 is written. *)
Lemma dispatch_without_completed_record :
  let overwrite : config := {[ CASE_LIST_KEY := VNone ]} in
  let ticked := job_pushing_meta_task Scenario.env_ok "user" "secret" ∅ "B" "win7" 2
                  "win64" "download-latest-nightly" overwrite Scenario.fresh in
  (check_latest_timestamp Scenario.env_ok "B" "win64" Scenario.fresh).1
  = Ok (true, Some (mkBuildInformation "https://archive.mozilla.org/pub/b" "abc123"))
  ∧ ticked.1 = Raise AttributeError
  ∧ published (trace ticked.2)
    = [EvPublish "win7" "download-latest-nightly" overwrite
         "2020-02-03_10:00:00.000001.B.1";
       EvPublish "win7" "download-latest-nightly" overwrite
         "2020-02-03_10:00:00.000001.B.2"]
  ∧ status_records (trace ticked.2)
    = [EvStatusFile "status/B-run1" "PULSE_TRIGGER" 100 None].
Proof. repeat split; vm_compute; reflexivity. Qed.

(** C8: the config a dispatch sends out is the one
    [handle_specify_commands] returns: for the two commands
    [run-hasal-on-specify-nightly] and [download-specify-nightly] it is
    the overwrite config with the archive URL of the build stored under
    [DOWNLOAD_PKG_DIR_URL] and its revision under [DOWNLOAD_REVISION],
    every other key being kept; for any other command it is the
    overwrite config itself. Every message of the fan-out carries it. *)
Theorem provenance_enrichment env username password command_config job topic amount
    platform cmd_name overwrite_cmd_config w info :
  let sent := outgoing_config cmd_name overwrite_cmd_config info in
  handle_specify_commands cmd_name overwrite_cmd_config (Some info) = Ok sent
  ∧ (cmd_name = "run-hasal-on-specify-nightly" ∨ cmd_name = "download-specify-nightly" ->
       sent !! "DOWNLOAD_PKG_DIR_URL" = Some (VStr (archive_url info))
       ∧ sent !! "DOWNLOAD_REVISION" = Some (VStr (revision info))
       ∧ ∀ key, key ≠ "DOWNLOAD_PKG_DIR_URL" -> key ≠ "DOWNLOAD_REVISION" ->
                sent !! key = overwrite_cmd_config !! key)
  ∧ (cmd_name ≠ "run-hasal-on-specify-nightly" -> cmd_name ≠ "download-specify-nightly" ->
       sent = overwrite_cmd_config
       ∧ ∀ build_info, handle_specify_commands cmd_name overwrite_cmd_config build_info
                       = Ok overwrite_cmd_config)
  ∧ ((check_latest_timestamp env job platform w).1 = Ok (true, Some info) ->
       published (trace (job_pushing_meta_task env username password command_config
                           job topic amount platform cmd_name overwrite_cmd_config w).2)
       = (published (trace w)
            ++ (EvPublish topic cmd_name sent
                  <$> (uid_of (now_string env ++ "." ++ job) <$> seqZ 1 amount)))%list).
Proof.
  intros sent. split; [apply handle_specify_commands_Some|]. split; [|split].
  - intros Hcmd. unfold sent, outgoing_config, enriched.
    rewrite bool_decide_eq_true_2.
    + split; [by rewrite lookup_insert_ne, lookup_insert_eq|].
      split; [by rewrite lookup_insert_eq|].
      intros key H1 H2. by rewrite !lookup_insert_ne.
    + unfold SPECIFY_COMMANDS. rewrite !elem_of_cons. tauto.
  - intros H1 H2.
    assert (cmd_name ∉ SPECIFY_COMMANDS) as Hnot.
    { unfold SPECIFY_COMMANDS. rewrite !elem_of_cons, elem_of_nil. tauto. }
    unfold sent, outgoing_config, handle_specify_commands.
    by rewrite bool_decide_eq_false_2.
  - intros Hchanged.
    destruct (job_pushing_meta_task_dispatch env username password command_config job
                topic amount platform cmd_name overwrite_cmd_config w _ Hchanged)
      as (info' & ts' & logs & [= <-] & Hlogs & Hrun).
    cbv zeta in Hrun. rewrite Hrun. cbn [snd trace].
    rewrite !published_app, (published_logs _ Hlogs), published_fan_out.
    fold sent.
    destruct (queue_exists env topic), (filter_cmd_config env sent); simpl;
      by rewrite ?app_nil_r.
Qed.

Lemma provenance_enrichment_witness :
  let info := mkBuildInformation "https://archive.mozilla.org/pub/b" "abc123" in
  let sent := outgoing_config "download-specify-nightly" ∅ info in
  (sent !! "DOWNLOAD_PKG_DIR_URL" = Some (VStr "https://archive.mozilla.org/pub/b")
   ∧ sent !! "DOWNLOAD_REVISION" = Some (VStr "abc123")
   ∧ ∀ key, key ≠ "DOWNLOAD_PKG_DIR_URL" -> key ≠ "DOWNLOAD_REVISION" ->
            sent !! key = (∅ : config) !! key)
  ∧ (outgoing_config "download-latest-nightly" ∅ info = ∅
     ∧ ∀ build_info, handle_specify_commands "download-latest-nightly" ∅ build_info
                     = Ok ∅)
  ∧ published (trace (job_pushing_meta_task Scenario.env_ok "user" "secret" ∅ "B"
                        "win7" 2 "win64" "download-specify-nightly" ∅
                        Scenario.fresh).2)
    = (published (trace Scenario.fresh)
         ++ (EvPublish "win7" "download-specify-nightly" sent
               <$> (uid_of (now_string Scenario.env_ok ++ "." ++ "B") <$> seqZ 1 2)))%list.
Proof.
  intros info sent.
  destruct (provenance_enrichment Scenario.env_ok "user" "secret" ∅ "B" "win7" 2
              "win64" "download-specify-nightly" ∅ Scenario.fresh info)
    as (_ & Hspecify & _ & Hsent).
  destruct (provenance_enrichment Scenario.env_ok "user" "secret" ∅ "B" "win7" 2
              "win64" "download-latest-nightly" ∅ Scenario.fresh info)
    as (_ & _ & Hother & _).
  split; [|split].
  - apply Hspecify. by right.
  - apply Hother; congruence.
  - apply Hsent. vm_compute. reflexivity.
Defined.

(** the scenario of the spec: the published config holds the archive URL
    and the revision ["abc123"] *)
Example provenance_scenario :
  published (trace (job_pushing_meta_task Scenario.env_ok "user" "secret" ∅ "B"
                      "win7" 1 "win64" "download-specify-nightly" ∅ Scenario.fresh).2)
  = [EvPublish "win7" "download-specify-nightly"
       (<["DOWNLOAD_REVISION" := VStr "abc123"]>
          (<["DOWNLOAD_PKG_DIR_URL" := VStr "https://archive.mozilla.org/pub/b"]> ∅))
       "2020-02-03_10:00:00.000001.B.1"].
Proof. vm_compute. reflexivity. Qed.

(** ** The masking pass and the case list (C9) *)





(** what the masking pass returns on a comma-joined case list *)
Example case_list_split :
  filter_cmd_config Scenario.env_ok
    {[ CASE_LIST_KEY := VStr "case_a,case_b"; "pulse_password" := VStr "secret" ]}
  = Ok {[ CASE_LIST_KEY := VList [VStr "case_a"; VStr "case_b"];
          "pulse_password" := VStr "*****" ]}.
Proof. vm_compute. reflexivity. Qed.

(** a case list that is neither a list nor a string makes the pass raise *)
Example case_list_ill_typed :
  filter_cmd_config Scenario.env_ok {[ CASE_LIST_KEY := VInt 3 ]} = Raise AttributeError.
Proof. vm_compute. reflexivity. Qed.

(** ** The platforms whose history is refreshed (C10) *)

Lemma fold_enabled_platforms items (s : gset string) p :
  p ∈ foldl add_enabled_platform s items
  ↔ p ∈ s ∨ (p ≠ EmptyString
             ∧ ∃ name detail, (name, detail) ∈ items
                 ∧ jd_enable detail = Some true
                 ∧ jd_platform_build detail = Some p).
Proof.
  revert s. induction items as [|[name detail] items IH]; intros s; simpl.
  - split; [by left|]. intros [H|(_ & n & d & H & _)]; [done|by apply elem_of_nil in H].
  - rewrite IH. unfold add_enabled_platform. simpl. split.
    + intros [Hp|(Hne & n & d & Hin & He & Hpb)].
      * destruct (jd_enable detail) as [[|]|] eqn:He;
          destruct (jd_platform_build detail) as [pb|] eqn:Hpb; simpl in Hp;
          try (by left).
        destruct (String.eqb pb EmptyString) eqn:Hpb0; simpl in Hp; [by left|].
        apply elem_of_union in Hp as [Hp|Hp]; [by left|].
        apply elem_of_singleton in Hp as ->. right.
        apply String.eqb_neq in Hpb0. split; [done|].
        exists name, detail. split; [by left|done].
      * right. split; [done|]. exists n, d. split; [by right|done].
    + intros [Hp|(Hne & n & d & Hin & He & Hpb)].
      * left. destruct (_ && _); [apply elem_of_union; by left|done].
      * apply elem_of_cons in Hin as [[= -> ->]|Hin].
        -- left. rewrite He, Hpb. simpl.
           apply String.eqb_neq in Hne. rewrite Hne. simpl.
           apply elem_of_union. right. by apply elem_of_singleton.
        -- right. split; [done|]. by exists n, d.
Qed.

(** C10 (as amended): for every jobs configuration the call returns,
    writing one log line only, a list without duplicates that holds
    ["win64"] and otherwise exactly the non-empty [platform_build]
    values of the jobs whose [enable] is true. *)
Theorem enabled_platform_list (config_dict_obj : gmap string job_detail) w :
  ∃ platforms w',
    get_enabled_platform_list_from_trigger_jobs_config config_dict_obj w
    = (Ok platforms, w')
    ∧ quiet w w'
    ∧ NoDup platforms
    ∧ "win64" ∈ platforms
    ∧ ∀ p, p ∈ platforms
           ↔ p = "win64"
             ∨ (p ≠ EmptyString
                ∧ ∃ name detail, config_dict_obj !! name = Some detail
                    ∧ jd_enable detail = Some true
                    ∧ jd_platform_build detail = Some p).
Proof.
  unfold get_enabled_platform_list_from_trigger_jobs_config. cbv zeta.
  set (platform_set := foldl add_enabled_platform _ _).
  assert (∀ p, p ∈ platform_set
               ↔ p = "win64"
                 ∨ (p ≠ EmptyString
                    ∧ ∃ name detail, config_dict_obj !! name = Some detail
                        ∧ jd_enable detail = Some true
                        ∧ jd_platform_build detail = Some p)) as Hset.
  { intros p. unfold platform_set. rewrite fold_enabled_platforms.
    rewrite elem_of_union, elem_of_singleton. split.
    - intros [[->|H]|(Hne & n & d & Hin & H)]; [by left|by apply elem_of_empty in H|].
      right. split; [done|]. exists n, d. by rewrite <- elem_of_map_to_list.
    - intros [->|(Hne & n & d & Hin & H)]; [by left; left|].
      right. split; [done|]. exists n, d. by rewrite elem_of_map_to_list. }
  exists (elements platform_set), (log_to w [EvLog INFO (MsgEnabledPlatforms platform_set)]).
  split; [by destruct w|]. split; [by apply log_to_quiet; repeat constructor|].
  split; [apply NoDup_elements|]. split.
  - apply elem_of_elements, Hset. by left.
  - intros p. by rewrite elem_of_elements.
Qed.

(** C10, counterexample to the claim as stated: job [J] is enabled and
    its [platform_build] is the empty string, yet the list returned is
    [["win64"]]: the platform of that enabled job is not in it. *)
Lemma blank_platform_not_listed :
  let jobs : gmap string job_detail := {[ "J" := Scenario.blank_platform_job ]} in
  jobs !! "J" = Some Scenario.blank_platform_job
  ∧ jd_enable Scenario.blank_platform_job = Some true
  ∧ jd_platform_build Scenario.blank_platform_job = Some EmptyString
  ∧ (get_enabled_platform_list_from_trigger_jobs_config jobs Scenario.fresh).1
    = Ok ["win64"].
Proof. repeat split; vm_compute; reflexivity. Qed.

(** ** Jobs that lack a required key (C1) *)

Lemma validate_required_frame job_config required_keys :
  ∃ valid evs, (∀ w, validate_required job_config required_keys w
                     = (Ok valid, log_to w evs))
               ∧ Forall (fun ev => is_log ev = true) evs
               ∧ (valid = true ↔ ∀ key, key ∈ required_keys ->
                                        job_has_key job_config key = true).
Proof.
  induction required_keys as [|key rest IH]; simpl.
  - exists true, []. split; [intros w; by rewrite log_to_nil|]. split; [constructor|].
    split; [|done]. intros _ key Hkey. by apply elem_of_nil in Hkey.
  - destruct (job_has_key job_config key) eqn:Hkey; simpl.
    + destruct IH as (valid & evs & Hrun & Hlogs & Hvalid).
      exists valid, evs. split; [done|]. split; [done|].
      rewrite Hvalid. split.
      * intros H k [->|Hk]%elem_of_cons; [done|by apply H].
      * intros H k Hk. apply H. by right.
    + exists false, [EvLog ERROR (MsgMissingKey key)].
      split; [intros [md ts sch tr]; by unfold_m|]. split; [by repeat constructor|].
      split; [done|]. intros H. rewrite <- Hkey. apply H. by left.
Qed.

(** An enabled job whose interval [timedelta] can hold is handed to the
    scheduler whether or not its definition is valid. *)
Lemma register_trigger_job_enabled self job_name detail w :
  jd_enable detail = Some true ->
  timedelta_ok (Minutes (default 10 (jd_interval_minutes detail))) = true ->
  scheduler w !! job_name = None ->
  ∃ w', register_trigger_job self (job_name, detail) w = (Ok tt, w')
        ∧ is_Some (scheduler w' !! job_name).
Proof.
  intros Henable Hinterval Hfree.
  destruct (validate_required_frame detail
              [KEY_JOBS_TOPIC; KEY_JOBS_PLATFORM_BUILD; KEY_JOBS_CMD])
    as (valid & evs & Hrun & _).
  unfold register_trigger_job, _validate_job_config, bind. rewrite Hrun, Henable.
  destruct w as [md ts sch tr]. simpl in *.
  destruct valid; unfold_m; unfold add_job; simpl; rewrite Hinterval, Hfree;
    eexists; (split; [reflexivity|]); simpl; by rewrite lookup_insert_eq.
Qed.

(** C1, the code at the failing input: the only job, [A], is enabled and
    has none of [topic], [platform_build] and [cmd]. Its validation
    fails, [run] logs the missing key and the invalid job, and then
    registers a timer with id [A] all the same. *)
Theorem run_registers_invalid_job :
  let self := Scenario.trigger_with {[ "A" := Scenario.invalid_job ]} in
  let after := run self true Scenario.fresh in
  (_validate_job_config Scenario.invalid_job Scenario.fresh).1 = Ok false
  ∧ after.1 = Ok tt
  ∧ trace after.2
    = [EvAddListener;
       EvLog INFO MsgAddingRotatingLogger;
       EvLog INFO (MsgRotatingLoggerDone "rotating_mgt.log");
       EvLog INFO (MsgEnabledPlatforms {[ "win64" ]});
       EvLog ERROR (MsgMissingKey "topic");
       EvLog ERROR (MsgInvalidJob "A" Scenario.invalid_job);
       EvLog INFO (MsgJobEnabled "A")]
  ∧ scheduler after.2 !! "A"
    = Some (mkTimer (PushingMetaTask "user" "secret" ∅ "A" None 1 None None ∅)
                    (Minutes 10) 1).
Proof. repeat split; vm_compute; reflexivity. Qed.

(** ** A feed that cannot be fetched (C5) *)

Lemma no_latest_url env platform w :
  feed_fetch_fails env platform ->
  (get_latest_info_json_url_for_md5 env platform w).1 = Ok None.
Proof.
  unfold feed_fetch_fails, get_latest_info_json_url_for_md5,
    get_all_latest_files_for_md5, bind.
  destruct (urlopen env _) as [|code body].
  - intros _. destruct w. unfold_m. simpl. by rewrite map_filter_empty.
  - destruct (code =? 200) eqn:Hcode.
    + intros [Hne|Hnone]; [apply Z.eqb_eq in Hcode; done|].
      unfold ret at 1. cbv zeta.
      assert (filter (fun kv : string * string =>
                PyStr.endswith kv.1 (MATCH_FORMAT platform "json") = true)
                (collect_links (PyStr.readlines body)) = ∅) as ->.
      { apply map_empty_filter. intros name href Hin. simpl.
        by rewrite (Hnone _ _ Hin). }
      destruct w. by unfold_m.
    + intros _. destruct w. unfold_m. simpl. by rewrite map_filter_empty.
Qed.

(** Whenever the listing gives no file for the platform, the MD5 check
    does not return: [urlopen] is called on [None] and the exception
    leaves the check and the job built on it. *)
Lemma md5_check_raises env username password command_config job topic amount
    platform cmd_name overwrite_cmd_config w :
  (check_folder env MD5_HASH_FOLDER w).1 = Ok true ->
  feed_fetch_fails env platform ->
  (check_latest_info_json_md5_changed env job platform w).1 = Raise AttributeError
  ∧ (job_pushing_meta_task_md5 env username password command_config job topic
       amount platform cmd_name overwrite_cmd_config w).1 = Raise AttributeError.
Proof.
  intros Hfolder Hfails.
  assert ((check_latest_info_json_md5_changed env job platform w).1
          = Raise AttributeError) as Hcheck.
  { unfold check_latest_info_json_md5_changed, bind.
    destruct (check_folder env MD5_HASH_FOLDER w) as [rb w1]. simpl in Hfolder.
    subst rb. simpl.
    unfold get_latest_info_json_md5_hash, bind.
    pose proof (no_latest_url env platform w1 Hfails) as Hurl.
    destruct (get_latest_info_json_url_for_md5 env platform w1) as [r w2].
    simpl in Hurl. by subst r. }
  split; [done|].
  unfold job_pushing_meta_task_md5, bind.
  destruct (check_latest_info_json_md5_changed env job platform w) as [r w1].
  simpl in Hcheck. by subst r.
Qed.

(** The timestamp check, on its part, takes a missing or empty history
    table as no change, and its job does nothing but log. *)
Lemma timestamp_check_fails_closed env username password command_config job topic
    amount platform cmd_name overwrite_cmd_config w :
  truthy_table (history_table env platform) = false ->
  (∃ w', check_latest_timestamp env job platform w = (Ok (false, None), w')
         ∧ quiet w w')
  ∧ (∃ w', job_pushing_meta_task env username password command_config job topic
             amount platform cmd_name overwrite_cmd_config w = (Ok tt, w')
           ∧ quiet w w').
Proof.
  intros Htable. split.
  - exists (log_to w [EvLog ERROR (MsgNoTable platform)]).
    split; [|by apply log_to_quiet; repeat constructor].
    unfold check_latest_timestamp. rewrite Htable. by destruct w.
  - exists (log_to w [EvLog INFO (MsgChecking job platform);
                      EvLog ERROR (MsgNoTable platform);
                      EvLog INFO (MsgChecked job platform false)]).
    split; [|by apply log_to_quiet; repeat constructor].
    unfold job_pushing_meta_task, check_latest_timestamp. rewrite Htable.
    destruct w as [md ts sch tr]. unfold_m. simpl. by rewrite <- !app_assoc.
Qed.

(** C5, the code at the failing input: the archive server cannot be
    reached and job [A] has a hash on record. The MD5 check raises
    [AttributeError] to its caller instead of reporting no change, and so
    does [job_pushing_meta_task_md5]; the record is left as it was and
    nothing is published. *)
Theorem md5_check_raises_when_offline :
  let w := Scenario.with_md5 "A" "deadbeef" in
  let checked := check_latest_info_json_md5_changed Scenario.env_offline "A" "win64" w in
  let ticked := job_pushing_meta_task_md5 Scenario.env_offline "user" "secret" ∅ "A"
                  "win7" 2 "win64" "download-latest-nightly" ∅ w in
  checked.1 = Raise AttributeError
  ∧ ticked.1 = Raise AttributeError
  ∧ stored_record MD5_HASH_FOLDER "A" ticked.2 = Some "deadbeef"
  ∧ published (trace ticked.2) = [].
Proof. repeat split; vm_compute; reflexivity. Qed.

(** ** A fetch that yields no content (C6) *)

Example md5_of_nothing : MD5.hexdigest EmptyString = "d41d8cd98f00b204e9800998ecf8427e".
Proof. vm_compute. reflexivity. Qed.

(** C6 (as amended): for a job with a hash on record, a fetch whose
    content is empty is hashed like any other content: the current
    signature is the MD5 digest of the empty string. If the signature
    read from the record is that digest the check reports no change and
    leaves the record alone; otherwise it reports a change and replaces
    the record by that digest. *)
Theorem empty_fetch_is_hashed env job platform w old url code :
  stored_record MD5_HASH_FOLDER job w = Some old ->
  (get_latest_info_json_url_for_md5 env platform w).1 = Ok (Some url) ->
  urlopen env url = Response code EmptyString ->
  let empty_hash := MD5.hexdigest EmptyString in
  let same := String.eqb (PyStr.readline old) empty_hash in
  ∃ w', check_latest_info_json_md5_changed env job platform w = (Ok (negb same), w')
        ∧ stored_record MD5_HASH_FOLDER job w' = Some (if same then old else empty_hash)
        ∧ (same = true -> md5_folder w' = md5_folder w).
Proof.
  intros Hold Hurl Hopen empty_hash same.
  destruct (get_latest_info_json_url_for_md5_frame env platform)
    as (r & evs & Hr & Hlogs).
  rewrite Hr in Hurl. simpl in Hurl. injection Hurl as ->.
  apply stored_record_Some in Hold as (Hkind & records & Hget & Hold).
  destruct w as [md ts sch tr]. simpl in Hget. subst md.
  unfold check_latest_info_json_md5_changed. unfold bind at 1.
  rewrite check_folder_run. cbn [get_folder md5_folder negb].
  unfold bind at 1, get_latest_info_json_md5_hash. unfold bind at 1. rewrite Hr.
  unfold get_remote_md5. rewrite Hopen.
  change (MD5.hexdigest (md5_feed (PyStr.chunks 1024 EmptyString) 0 (1 * 1024 * 1024)
                                  EmptyString)) with empty_hash.
  unfold ret at 1. unfold log_to. cbn [md5_folder timestamp_folder scheduler trace].
  rewrite md5_store, Hkind, Hold. fold same.
  unfold stored_record. rewrite Hkind.
  destruct same; simpl.
  - eexists. split; [reflexivity|]. simpl. by rewrite Hold.
  - eexists. split; [reflexivity|]. simpl. by rewrite lookup_insert_eq.
Qed.

Lemma empty_fetch_is_hashed_witness :
  let empty_hash := MD5.hexdigest EmptyString in
  let same := String.eqb (PyStr.readline "deadbeef") empty_hash in
  ∃ w', check_latest_info_json_md5_changed Scenario.env_empty_body "A" "win64"
          (Scenario.with_md5 "A" "deadbeef") = (Ok (negb same), w')
        ∧ stored_record MD5_HASH_FOLDER "A" w'
          = Some (if same then "deadbeef" else empty_hash)
        ∧ (same = true -> md5_folder w' = md5_folder (Scenario.with_md5 "A" "deadbeef")).
Proof.
  apply (empty_fetch_is_hashed Scenario.env_empty_body "A" "win64"
           (Scenario.with_md5 "A" "deadbeef") "deadbeef" Scenario.win64_json_url 200).
  - vm_compute. reflexivity.
  - vm_compute. reflexivity.
  - vm_compute. reflexivity.
Defined.

(** C6, counterexample to the claim as stated: job [A] has the hash
    ["deadbeef"] on record and the newest JSON file is served empty; the
    check reports a change and the record now holds the digest of the
    empty string. *)
Lemma empty_fetch_overwrites_record :
  let w := Scenario.with_md5 "A" "deadbeef" in
  let checked := check_latest_info_json_md5_changed Scenario.env_empty_body "A" "win64" w in
  stored_record MD5_HASH_FOLDER "A" w = Some "deadbeef"
  ∧ urlopen Scenario.env_empty_body Scenario.win64_json_url = Response 200 EmptyString
  ∧ checked.1 = Ok true
  ∧ stored_record MD5_HASH_FOLDER "A" checked.2
    = Some "d41d8cd98f00b204e9800998ecf8427e".
Proof. repeat split; vm_compute; reflexivity. Qed.


(** * Further properties of the engine *)

(** ** Signature folders *)

(** A folder check never raises. *)
Lemma check_folder_returns env f w : ∃ ok w1, check_folder env f w = (Ok ok, w1).
Proof.
  rewrite check_folder_run.
  destruct (get_folder f w); [destruct (os_makedirs_ok env)
                             | destruct (os_remove_ok env), (os_makedirs_ok env) | ];
    by eexists _, _.
Qed.

(** X1: a folder check that returns [True] leaves a directory that holds
    exactly the records that were there, touches nothing else, and a
    second check is then a no-op that returns [True] again. *)
Theorem check_folder_success env f w w1 :
  check_folder env f w = (Ok true, w1) ->
  (∃ records, get_folder f w1 = FolderDir records)
  ∧ (∀ job, stored_record f job w1 = stored_record f job w)
  ∧ (∀ f', f' ≠ f -> get_folder f' w1 = get_folder f' w)
  ∧ scheduler w1 = scheduler w
  ∧ trace w1 = trace w
  ∧ check_folder env f w1 = (Ok true, w1).
Proof.
  intros Hrun.
  destruct (check_folder_true _ _ _ _ Hrun) as (records & Hget & _ & Hrecs & ->).
  split; [by exists records|]. split; [exact Hrecs|].
  split.
  { intros f' Hf'. destruct w, f, f'; done. }
  split; [by destruct w, f|]. split; [by destruct w, f|].
  rewrite check_folder_run. by rewrite Hget.
Qed.

Lemma check_folder_success_witness :
  (∃ records, get_folder TIMESTAMP_FOLDER
                (check_folder Scenario.env_ok TIMESTAMP_FOLDER Scenario.fresh).2
              = FolderDir records)
  ∧ check_folder Scenario.env_ok TIMESTAMP_FOLDER
      (check_folder Scenario.env_ok TIMESTAMP_FOLDER Scenario.fresh).2
    = (Ok true, (check_folder Scenario.env_ok TIMESTAMP_FOLDER Scenario.fresh).2).
Proof.
  destruct (check_folder_success Scenario.env_ok TIMESTAMP_FOLDER Scenario.fresh
              (check_folder Scenario.env_ok TIMESTAMP_FOLDER Scenario.fresh).2)
    as (Hdir & _ & _ & _ & _ & Hagain).
  - vm_compute. reflexivity.
  - split; [exact Hdir|exact Hagain].
Defined.

(** X2: a folder check never raises. It returns [False] exactly when the
    path is absent and [os.makedirs] fails, or the path is a regular file
    and [os.remove] or [os.makedirs] fails; it then logs one error and
    nothing else, and a regular file that could be removed is gone
    although no directory took its place. *)
Theorem check_folder_failure env f w :
  ∃ ok w1,
    check_folder env f w = (Ok ok, w1)
    ∧ (ok = false
       ↔ (get_folder f w = FolderAbsent ∧ os_makedirs_ok env = false)
         ∨ (get_folder f w = FolderIsFile
            ∧ (os_remove_ok env = false ∨ os_makedirs_ok env = false)))
    ∧ (ok = false ->
       trace w1 = (trace w ++ [EvLog ERROR MsgOSError])%list
       ∧ scheduler w1 = scheduler w
       ∧ (∀ f', f' ≠ f -> get_folder f' w1 = get_folder f' w)
       ∧ get_folder f w1
         = match get_folder f w with
           | FolderIsFile => if os_remove_ok env then FolderAbsent else FolderIsFile
           | other => other
           end).
Proof.
  rewrite check_folder_run.
  destruct w as [md ts sch tr], f; simpl;
    [destruct md as [| |records] | destruct ts as [| |records]];
    destruct (os_remove_ok env) eqn:Hrm, (os_makedirs_ok env) eqn:Hmk; simpl;
    eexists _, _; (split; [reflexivity|]); simpl;
    (split; [split; [try done; intros _; by (left + right; split; [done|]; auto)
                    | intros [[? ?]|[? [?|?]]]; congruence]
            | try done; intros _; repeat split; try done;
              by intros [] ?]).
Qed.

(** ** Job definitions *)

(** X3: [_validate_job_config] returns [True] exactly when [topic],
    [platform_build] and [cmd] are all present. Otherwise it logs one
    error, for the first key that is missing in this order, and it never
    does anything but log. *)
Theorem validate_job_config_first_missing job_config w :
  ∃ valid evs,
    _validate_job_config job_config w = (Ok valid, log_to w evs)
    ∧ (valid = true
       ↔ is_Some (jd_topic job_config) ∧ is_Some (jd_platform_build job_config)
         ∧ is_Some (jd_cmd job_config))
    ∧ evs = match jd_topic job_config, jd_platform_build job_config,
                  jd_cmd job_config with
            | None, _, _ => [EvLog ERROR (MsgMissingKey "topic")]
            | Some _, None, _ => [EvLog ERROR (MsgMissingKey "platform_build")]
            | Some _, Some _, None => [EvLog ERROR (MsgMissingKey "cmd")]
            | Some _, Some _, Some _ => []
            end.
Proof.
  destruct job_config as [en topic pb iv cmd am cf], w as [md ts sch tr].
  unfold _validate_job_config. simpl.
  destruct topic, pb, cmd; vm_compute job_has_key; simpl; unfold_m; simpl;
    eexists _, _; (split; [reflexivity || (by rewrite app_nil_r)|]);
    (split; [|try reflexivity]).
  all: try (split; [try done; intros _; repeat split; by eexists
                   | try done; intros (H1 & H2 & H3);
                     try (by destruct H1); try (by destruct H2); by destruct H3]).
Qed.

(** ** Change detection *)

(** X4: the signature the timestamp check takes from the history table
    is one of its timestamps, and no timestamp of the table is above it
    in the byte order of strings. *)
Theorem latest_timestamp_is_maximum (table : gmap string BuildInformation) :
  table ≠ ∅ ->
  is_Some (table !! latest_key table)
  ∧ ∀ timestamp, is_Some (table !! timestamp) ->
                 String.leb timestamp (latest_key table) = true.
Proof. intros Hne. by apply latest_key_spec. Qed.

Lemma latest_timestamp_is_maximum_witness :
  is_Some (Scenario.history !! latest_key Scenario.history)
  ∧ ∀ timestamp, is_Some (Scenario.history !! timestamp) ->
                 String.leb timestamp (latest_key Scenario.history) = true.
Proof.
  apply (latest_timestamp_is_maximum Scenario.history).
  intros H. apply (f_equal size) in H. vm_compute in H. discriminate.
Defined.

(** A store step leaves the records of the other jobs alone. *)
Lemma stored_record_other f job other data md ts sch tr tr' records :
  other ≠ job ->
  get_folder f (mkWorld md ts sch tr) = FolderDir records ->
  stored_record f other
    (set_folder f (FolderDir (<[job := data]> records)) (mkWorld md ts sch tr'))
  = stored_record f other (mkWorld md ts sch tr).
Proof.
  intros Hother Hget. unfold stored_record. rewrite Hget.
  destruct (path_kind_of other); try done.
  destruct f; simpl; by rewrite lookup_insert_ne.
Qed.

Lemma stored_record_trace f job md ts sch tr tr' :
  stored_record f job (mkWorld md ts sch tr) = stored_record f job (mkWorld md ts sch tr').
Proof. by destruct f. Qed.

Lemma check_md5_shape env job platform md ts sch tr :
  ∃ r md' evs,
    check_latest_info_json_md5_changed env job platform (mkWorld md ts sch tr)
    = (r, mkWorld md' ts sch (tr ++ evs))
    ∧ Forall (fun ev => is_log ev = true) evs
    ∧ ∀ other, other ≠ job ->
        stored_record MD5_HASH_FOLDER other (mkWorld md' ts sch (tr ++ evs))
        = stored_record MD5_HASH_FOLDER other (mkWorld md ts sch tr).
Proof.
  destruct (get_latest_info_json_md5_hash_frame env platform) as (r & evs & Hr & Hlogs).
  unfold check_latest_info_json_md5_changed. unfold bind at 1.
  rewrite check_folder_run. cbn [get_folder md5_folder].
  assert (∀ records,
    ∃ r' md' evs',
      (let* new_hash := get_latest_info_json_md5_hash env platform in
       let* job_md5_file_exists := path_exists env MD5_HASH_FOLDER job in
       if job_md5_file_exists
       then
        let* origin_hash := read_first_line env MD5_HASH_FOLDER job in
        if (origin_hash =? new_hash)%string
        then ret false
        else
         do logging INFO (MsgHashChanged job platform new_hash origin_hash)
         then do write_file env MD5_HASH_FOLDER job new_hash then ret true
       else
        do logging INFO (MsgHashFirst job platform new_hash)
        then do write_file env MD5_HASH_FOLDER job new_hash then ret true)
        (mkWorld (FolderDir records) ts sch tr)
      = (r', mkWorld md' ts sch (tr ++ evs'))
      ∧ Forall (fun ev => is_log ev = true) evs'
      ∧ ∀ other, other ≠ job ->
          stored_record MD5_HASH_FOLDER other (mkWorld md' ts sch (tr ++ evs'))
          = stored_record MD5_HASH_FOLDER other
              (mkWorld (FolderDir records) ts sch tr)) as Hdir.
  { intros records. unfold bind at 1. rewrite Hr.
    destruct r as [h|e]; [|by eexists _, _, _].
    unfold log_to. cbn [md5_folder timestamp_folder scheduler trace].
    rewrite md5_store.
    destruct (path_kind_of job);
      [ | destruct (outside_exists env MD5_HASH_FOLDER job);
          [destruct (outside_readline env MD5_HASH_FOLDER job) as [line|];
           [destruct (String.eqb line h)|]|];
          destruct (outside_write_ok env MD5_HASH_FOLDER job)
        |
        | destruct (records !! job) as [content|];
          [destruct (String.eqb (PyStr.readline content) h)
          |destruct (os_create_ok env)] ];
      rewrite <- ?app_assoc;
      (eexists _, _, _; split; [reflexivity|];
       split; [first [done | apply Forall_app; split; [done|by repeat constructor]]|];
       intros other Hother;
       first [ apply stored_record_trace
             | by apply (stored_record_other MD5_HASH_FOLDER) ]). }
  destruct md as [| |records]; unfold set_folder, log_to;
      cbn [negb md5_folder timestamp_folder scheduler trace].
  - destruct (os_makedirs_ok env); unfold set_folder, log_to;
      cbn [negb md5_folder timestamp_folder scheduler trace].
    + destruct (Hdir ∅) as (r' & md' & evs' & -> & Hlogs' & Hother).
      eexists _, _, _. split; [done|]. split; [done|].
      intros other Ho. rewrite (Hother _ Ho). unfold stored_record. simpl.
      destruct (path_kind_of other); try done; apply lookup_empty.
    + eexists _, _, [_]. split; [done|]. by split; [repeat constructor|].
  - destruct (os_remove_ok env), (os_makedirs_ok env); unfold set_folder, log_to;
      cbn [negb md5_folder timestamp_folder scheduler trace].
    + destruct (Hdir ∅) as (r' & md' & evs' & -> & Hlogs' & Hother).
      eexists _, _, _. split; [done|]. split; [done|].
      intros other Ho. rewrite (Hother _ Ho). unfold stored_record. simpl.
      destruct (path_kind_of other); try done; apply lookup_empty.
    + eexists _, _, [_]. split; [done|]. split; [by repeat constructor|].
      intros other _. unfold stored_record. simpl. by destruct (path_kind_of other).
    + eexists _, _, [_]. split; [done|]. by split; [repeat constructor|].
    + eexists _, _, [_]. split; [done|]. by split; [repeat constructor|].
  - destruct (Hdir records) as (r' & md' & evs' & -> & Hlogs' & Hother).
    eexists _, _, _. split; [done|]. split; [done|]. done.
Qed.




(** X6: when the MD5 check reads a signature from the record of a job
    and fetches a different hash, it reports a change, logs the new and
    the old hash, and the record then holds the new hash in place of the
    old content. *)
Theorem md5_change_overwrites_record env job platform w old h :
  stored_signature MD5_HASH_FOLDER job w = Some old ->
  (get_latest_info_json_md5_hash env platform w).1 = Ok h ->
  old ≠ h ->
  ∃ w' evs,
    check_latest_info_json_md5_changed env job platform w = (Ok true, w')
    ∧ stored_record MD5_HASH_FOLDER job w' = Some h
    ∧ trace w' = (trace w ++ evs ++ [EvLog INFO (MsgHashChanged job platform h old)])%list
    ∧ Forall (fun ev => is_log ev = true) evs.
Proof.
  intros Hsig Hfetch Hdiff.
  destruct (get_latest_info_json_md5_hash_frame env platform) as (r & evs & Hr & Hlogs).
  rewrite Hr in Hfetch. simpl in Hfetch. subst r.
  apply stored_signature_Some in Hsig
    as (Hkind & records & content & Hget & Hrec & Hline).
  unfold check_latest_info_json_md5_changed. unfold bind at 1.
  rewrite check_folder_run, Hget. cbn [negb]. unfold bind at 1. rewrite Hr.
  destruct w as [md ts sch tr]. simpl in Hget. subst md.
  unfold log_to. cbn [md5_folder timestamp_folder scheduler trace].
  rewrite md5_store, Hkind, Hrec, Hline.
  apply String.eqb_neq in Hdiff. rewrite Hdiff.
  eexists _, evs. split; [reflexivity|].
  unfold stored_record. rewrite Hkind. simpl.
  split; [by rewrite lookup_insert_eq|]. by rewrite <- app_assoc.
Qed.

Lemma md5_change_overwrites_record_witness :
  ∃ w' evs,
    check_latest_info_json_md5_changed Scenario.env_ok "A" "win64"
      (Scenario.with_md5 "A" "deadbeef") = (Ok true, w')
    ∧ stored_record MD5_HASH_FOLDER "A" w' = Some "900150983cd24fb0d6963f7d28e17f72"
    ∧ trace w'
      = (trace (Scenario.with_md5 "A" "deadbeef") ++ evs
           ++ [EvLog INFO (MsgHashChanged "A" "win64"
                             "900150983cd24fb0d6963f7d28e17f72" "deadbeef")])%list
    ∧ Forall (fun ev => is_log ev = true) evs.
Proof.
  apply (md5_change_overwrites_record Scenario.env_ok "A" "win64"
           (Scenario.with_md5 "A" "deadbeef")).
  - vm_compute. reflexivity.
  - vm_compute. reflexivity.
  - discriminate.
Defined.

(** X7: when the timestamp check reads a signature from the record of a
    job and the latest timestamp of the history table differs from it,
    it reports a change together with the [BuildInformation] of that
    timestamp, logs the new and the old timestamp, and the record then
    holds the latest timestamp. *)
Theorem timestamp_change_overwrites_record env job platform w table old :
  history_table env platform = Some table ->
  table ≠ ∅ ->
  stored_signature TIMESTAMP_FOLDER job w = Some old ->
  old ≠ latest_key table ->
  ∃ info w',
    check_latest_timestamp env job platform w = (Ok (true, Some info), w')
    ∧ table !! latest_key table = Some info
    ∧ stored_record TIMESTAMP_FOLDER job w' = Some (latest_key table)
    ∧ trace w'
      = (trace w ++ [EvLog INFO (MsgTimestampChanged job platform
                                   (latest_key table) old)])%list.
Proof.
  intros Htable Hne Hsig Hdiff.
  destruct (latest_key_spec table Hne) as [[info Hinfo] _].
  apply stored_signature_Some in Hsig
    as (Hkind & records & content & Hget & Hrec & Hline).
  unfold check_latest_timestamp. rewrite Htable, (truthy_table_Some _ Hne).
  cbv zeta. change (default ∅ (Some table)) with table.
  unfold bind at 1. rewrite check_folder_run, Hget. cbn [negb].
  destruct w as [md ts sch tr]. simpl in Hget. subst ts.
  rewrite timestamp_store, Hkind, Hrec, Hline.
  apply String.eqb_neq in Hdiff. rewrite Hdiff, Hinfo.
  eexists info, _. split; [reflexivity|].
  unfold stored_record. rewrite Hkind. simpl.
  split; [done|]. split; [by rewrite lookup_insert_eq|done].
Qed.

Lemma timestamp_change_overwrites_record_witness :
  ∃ info w',
    check_latest_timestamp Scenario.env_ok "A" "win64"
      (Scenario.with_timestamp "A" "2020-01-01T00:00:00") = (Ok (true, Some info), w')
    ∧ Scenario.history !! latest_key Scenario.history = Some info
    ∧ stored_record TIMESTAMP_FOLDER "A" w' = Some (latest_key Scenario.history)
    ∧ trace w'
      = (trace (Scenario.with_timestamp "A" "2020-01-01T00:00:00")
           ++ [EvLog INFO (MsgTimestampChanged "A" "win64"
                             (latest_key Scenario.history) "2020-01-01T00:00:00")])%list.
Proof.
  apply (timestamp_change_overwrites_record Scenario.env_ok "A" "win64"
           (Scenario.with_timestamp "A" "2020-01-01T00:00:00") Scenario.history).
  - vm_compute. reflexivity.
  - intros H. apply (f_equal size) in H. vm_compute in H. discriminate.
  - vm_compute. reflexivity.
  - vm_compute. discriminate.
Defined.

(** *** Hex digests are one line *)

Lemma hex_digit_not_newline n : Ascii.eqb (MD5.hex_digit n) "010"%char = false.
Proof.
  unfold MD5.hex_digit.
  destruct (nth_in_or_default (N.to_nat n)
              (list_ascii_of_string "0123456789abcdef") "0"%char) as [Hin|Hd].
  - set (c := nth _ _ _) in *. clearbody c. simpl in Hin.
    repeat (destruct Hin as [Hin|Hin]; [by subst c|]). destruct Hin.
  - by rewrite Hd.
Qed.

Lemma readline_two c1 c2 s :
  Ascii.eqb c1 "010"%char = false -> Ascii.eqb c2 "010"%char = false ->
  PyStr.readline (String c1 (String c2 s)) = String c1 (String c2 (PyStr.readline s)).
Proof. intros H1 H2. simpl. by rewrite H1, H2. Qed.

Lemma readline_hex_bytes (bs : list N) :
  PyStr.readline (foldr (fun b acc => MD5.hex_byte b ++ acc)%string EmptyString bs)
  = foldr (fun b acc => MD5.hex_byte b ++ acc)%string EmptyString bs.
Proof.
  induction bs as [|b bs IH]; [done|].
  cbn [foldr].
  set (rest := foldr _ _ bs) in *.
  change (MD5.hex_byte b ++ rest)%string
    with (String (MD5.hex_digit (N.shiftr b 4))
            (String (MD5.hex_digit (N.land b 15)) rest)).
  rewrite readline_two by apply hex_digit_not_newline. by rewrite IH.
Qed.

Lemma readline_hexdigest data : PyStr.readline (MD5.hexdigest data) = MD5.hexdigest data.
Proof. unfold MD5.hexdigest. apply readline_hex_bytes. Qed.

Lemma fetched_hash_is_digest env platform w h :
  (get_latest_info_json_md5_hash env platform w).1 = Ok h ->
  ∃ data, h = MD5.hexdigest data.
Proof.
  destruct (get_latest_info_json_url_for_md5_frame env platform)
    as (url & evs & Hurl & _).
  unfold get_latest_info_json_md5_hash, bind. rewrite Hurl.
  destruct url as [url|]; [|done]. unfold get_remote_md5.
  destruct (urlopen env url); [done|]. unfold ret. simpl. intros [= <-]. by eexists.
Qed.

(** X8: two MD5 checks in a row for a job whose name is a file name of
    the folder, against the same answers of the archive server and the
    same file system: whenever the first one returns, with or without a
    change, the second one reports no change and adds nothing but log
    lines. *)
Theorem second_md5_check_unchanged env job platform w changed w1 :
  path_kind_of job = PathFile ->
  check_latest_info_json_md5_changed env job platform w = (Ok changed, w1) ->
  ∃ w2, check_latest_info_json_md5_changed env job platform w1 = (Ok false, w2)
        ∧ quiet w1 w2.
Proof.
  intros Hkind Hfirst.
  destruct (get_latest_info_json_md5_hash_frame env platform) as (r & evs & Hr & Hlogs).
  assert (∀ w0 h, r = Ok h -> stored_signature MD5_HASH_FOLDER job w0 = Some h ->
            ∃ w2, check_latest_info_json_md5_changed env job platform w0 = (Ok false, w2)
                  ∧ quiet w0 w2) as Hsame.
  { intros w0 h -> Hsig.
    destruct (check_md5_unchanged env job platform w0 h Hsig) as (evs' & Hrun & Hlogs').
    - by rewrite Hr.
    - exists (log_to w0 evs'). split; [done|]. by apply log_to_quiet. }
  assert (∀ w0, (check_folder env MD5_HASH_FOLDER w0).1 = Ok false ->
            check_folder env MD5_HASH_FOLDER (check_folder env MD5_HASH_FOLDER w0).2
            = (Ok false, log_to (check_folder env MD5_HASH_FOLDER w0).2
                           [EvLog ERROR MsgOSError])) as Hfail.
  { intros [md ts sch tr]. rewrite !check_folder_run. simpl.
    destruct md; simpl; destruct (os_remove_ok env) eqn:Hrm,
      (os_makedirs_ok env) eqn:Hmk; simpl; try done; intros _;
      rewrite ?Hrm, ?Hmk; done. }
  unfold check_latest_info_json_md5_changed in Hfirst. unfold bind at 1 in Hfirst.
  destruct (check_folder env MD5_HASH_FOLDER w) as [rb w'] eqn:Hcf.
  assert (∃ ok, rb = Ok ok) as [ok ->].
  { destruct (check_folder_returns env MD5_HASH_FOLDER w) as (ok & w'' & Hrun).
    rewrite Hrun in Hcf. injection Hcf as <- _. by eexists. }
  destruct ok; cbn [negb] in Hfirst.
  - apply check_folder_true in Hcf as (records & Hget & _ & Hrecs & ->).
    unfold bind at 1 in Hfirst. rewrite Hr in Hfirst.
    destruct r as [h|e]; [|done].
    assert (PyStr.readline h = h) as Hline.
    { destruct (fetched_hash_is_digest env platform w h) as [data ->];
        [by rewrite Hr|]. apply readline_hexdigest. }
    destruct w as [md ts sch tr].
    unfold log_to, set_folder in Hfirst.
    cbn [md5_folder timestamp_folder scheduler trace] in Hfirst.
    rewrite md5_store, Hkind in Hfirst.
    destruct (records !! job) as [content|] eqn:Hrec.
    + destruct (String.eqb (PyStr.readline content) h) eqn:Heq;
        injection Hfirst as <- <-.
      * apply (Hsame _ _ eq_refl). unfold stored_signature, stored_record.
        rewrite Hkind. simpl. rewrite Hrec. simpl. f_equal. by apply String.eqb_eq.
      * apply (Hsame _ _ eq_refl). unfold stored_signature, stored_record.
        rewrite Hkind. simpl. rewrite lookup_insert_eq. simpl.
        by rewrite Hline.
    + destruct (os_create_ok env); [|done]. injection Hfirst as <- <-.
      apply (Hsame _ _ eq_refl). unfold stored_signature, stored_record.
      rewrite Hkind. simpl. rewrite lookup_insert_eq. simpl.
      by rewrite Hline.
  - unfold ret in Hfirst. injection Hfirst as <- <-.
    pose proof (Hfail w) as Hagain. rewrite Hcf in Hagain. simpl in Hagain.
    specialize (Hagain eq_refl).
    unfold check_latest_info_json_md5_changed. unfold bind at 1. rewrite Hagain.
    cbn [negb]. eexists. split; [reflexivity|].
    by apply log_to_quiet; repeat constructor.
Qed.

Lemma second_md5_check_unchanged_witness :
  ∃ w2, check_latest_info_json_md5_changed Scenario.env_ok "A" "win64"
          (check_latest_info_json_md5_changed Scenario.env_ok "A" "win64"
             Scenario.fresh).2 = (Ok false, w2)
        ∧ quiet (check_latest_info_json_md5_changed Scenario.env_ok "A" "win64"
                   Scenario.fresh).2 w2.
Proof.
  apply (second_md5_check_unchanged Scenario.env_ok "A" "win64" Scenario.fresh true).
  - vm_compute. reflexivity.
  - vm_compute. reflexivity.
Defined.

(** X9: two timestamp checks in a row for a job whose name is a file
    name of the folder, against the same history table, whose latest
    timestamp is a single line, and the same file system: whenever the
    first one returns, the second one reports no change and adds nothing
    but log lines. *)
Theorem second_timestamp_check_unchanged env job platform w changed info w1 :
  path_kind_of job = PathFile ->
  (∀ table, history_table env platform = Some table ->
            PyStr.readline (latest_key table) = latest_key table) ->
  check_latest_timestamp env job platform w = (Ok (changed, info), w1) ->
  ∃ w2, check_latest_timestamp env job platform w1 = (Ok (false, None), w2)
        ∧ quiet w1 w2.
Proof.
  intros Hkind Hline Hfirst.
  destruct (truthy_table (history_table env platform)) eqn:Htruthy.
  - destruct (history_table env platform) as [table|] eqn:Htable; [|done].
    specialize (Hline table eq_refl).
    assert (table ≠ ∅) as Hne.
    { intros ->. simpl in Htruthy. by rewrite map_size_empty in Htruthy. }
    assert (∀ w0, stored_signature TIMESTAMP_FOLDER job w0 = Some (latest_key table) ->
              ∃ w2, check_latest_timestamp env job platform w0 = (Ok (false, None), w2)
                    ∧ quiet w0 w2) as Hsame.
    { intros w0 Hsig. exists w0. split; [|by rewrite <- (log_to_nil w0) at 2;
                                           apply log_to_quiet].
      exact (check_timestamp_unchanged env job platform w0 table Htable Hne Hsig). }
    unfold check_latest_timestamp in Hfirst.
    rewrite Htable, Htruthy in Hfirst. cbv zeta in Hfirst.
    change (default ∅ (Some table)) with table in Hfirst.
    unfold bind at 1 in Hfirst.
    destruct (check_folder env TIMESTAMP_FOLDER w) as [rb w'] eqn:Hcf.
    assert (∃ ok, rb = Ok ok) as [ok ->].
    { destruct (check_folder_returns env TIMESTAMP_FOLDER w) as (ok & w'' & Hrun).
      rewrite Hrun in Hcf. injection Hcf as <- _. by eexists. }
    destruct ok; cbn [negb] in Hfirst.
    + apply check_folder_true in Hcf as (records & Hget & _ & Hrecs & ->).
      destruct w as [md ts sch tr].
      unfold set_folder in Hfirst.
      cbn [md5_folder timestamp_folder scheduler trace] in Hfirst.
      rewrite timestamp_store, Hkind in Hfirst.
      destruct (records !! job) as [content|] eqn:Hrec.
      * destruct (String.eqb (PyStr.readline content) (latest_key table)) eqn:Heq;
          injection Hfirst as <- <- <-.
        -- apply Hsame. unfold stored_signature, stored_record.
           rewrite Hkind. simpl. rewrite Hrec. simpl. f_equal. by apply String.eqb_eq.
        -- apply Hsame. unfold stored_signature, stored_record.
           rewrite Hkind. simpl. rewrite lookup_insert_eq. simpl. by rewrite Hline.
      * destruct (os_create_ok env); [|done]. injection Hfirst as <- <- <-.
        apply Hsame. unfold stored_signature, stored_record.
        rewrite Hkind. simpl. rewrite lookup_insert_eq. simpl. by rewrite Hline.
    + unfold ret in Hfirst. injection Hfirst as <- <- <-.
      assert (check_folder env TIMESTAMP_FOLDER w'
              = (Ok false, log_to w' [EvLog ERROR MsgOSError])) as Hagain.
      { revert Hcf. rewrite !check_folder_run. destruct w as [md ts sch tr]. simpl.
        destruct ts; simpl; destruct (os_remove_ok env) eqn:Hrm,
          (os_makedirs_ok env) eqn:Hmk; simpl; try done; intros [= <-]; simpl;
          rewrite ?Hrm, ?Hmk; done. }
      unfold check_latest_timestamp. rewrite Htable, Htruthy. cbv zeta.
      unfold bind at 1. rewrite Hagain. cbn [negb].
      eexists. split; [reflexivity|]. by apply log_to_quiet; repeat constructor.
  - unfold check_latest_timestamp in *. rewrite Htruthy in *.
    unfold_m. destruct w as [md ts sch tr]. simpl in Hfirst.
    injection Hfirst as <- <- <-. simpl.
    eexists. split; [reflexivity|].
    apply (log_to_quiet (mkWorld md ts sch (tr ++ [EvLog ERROR (MsgNoTable platform)]))
             [EvLog ERROR (MsgNoTable platform)]).
    by repeat constructor.
Qed.

Lemma second_timestamp_check_unchanged_witness :
  ∃ w2, check_latest_timestamp Scenario.env_ok "A" "win64"
          (check_latest_timestamp Scenario.env_ok "A" "win64" Scenario.fresh).2
        = (Ok (false, None), w2)
        ∧ quiet (check_latest_timestamp Scenario.env_ok "A" "win64" Scenario.fresh).2 w2.
Proof.
  apply (second_timestamp_check_unchanged Scenario.env_ok "A" "win64" Scenario.fresh
           true (Some (mkBuildInformation "https://archive.mozilla.org/pub/b" "abc123"))).
  - vm_compute. reflexivity.
  - intros table. unfold Scenario.env_ok, Scenario.env_with. simpl.
    intros [= <-]. vm_compute. reflexivity.
  - vm_compute. reflexivity.
Defined.

(** ** Fetching the hash *)

Lemma substring_0_0 s : substring 0 0 s = EmptyString.
Proof. by destruct s. Qed.

Lemma substring_0_nil m : substring 0 m EmptyString = EmptyString.
Proof. by destruct m. Qed.

Lemma substring_all m s : (String.length s <= m)%nat -> substring 0 m s = s.
Proof.
  revert m. induction s as [|c s IH]; intros m Hm; [apply substring_0_nil|].
  destruct m as [|m]; simpl in *; [lia|]. f_equal. apply IH. lia.
Qed.

Lemma substring_tail_length n s :
  String.length (substring n (String.length s - n) s) = (String.length s - n)%nat.
Proof.
  revert s. induction n as [|n IH]; intros s.
  - rewrite Nat.sub_0_r. by rewrite substring_all.
  - destruct s as [|c s]; [done|]. simpl. apply IH.
Qed.

Lemma substring_add a b s :
  substring 0 (a + b) s
  = (substring 0 a s ++ substring 0 b (substring a (String.length s - a) s))%string.
Proof.
  revert s. induction a as [|a IH]; intros s.
  - rewrite substring_0_0, Nat.sub_0_r. simpl. by rewrite (substring_all (String.length s)).
  - destruct s as [|c s].
    + by destruct b.
    + simpl. unfold String.append; fold String.append. f_equal. apply IH.
Qed.

Lemma append_cons c (a b : string) : (String c a ++ b)%string = String c (a ++ b).
Proof. reflexivity. Qed.

Lemma append_nil_r (s : string) : (s ++ EmptyString)%string = s.
Proof. induction s as [|c s IH]; [done|]. by rewrite append_cons, IH. Qed.

Lemma append_assoc (a b c : string) : ((a ++ b) ++ c)%string = (a ++ (b ++ c))%string.
Proof. induction a as [|x a IH]; [done|]. by rewrite !append_cons, IH. Qed.

(** The read loop feeds the first [r] reads to the hash, where [r] is the
    number of reads that keep the counter under [max_size]. *)
Lemma md5_feed_chunks fuel n s counter max_size acc (r : nat) :
  (0 < n)%nat ->
  (String.length s <= fuel)%nat ->
  r = 0%nat ∨ counter + 1024 * Z.of_nat r < max_size ->
  max_size <= counter + 1024 * (Z.of_nat r + 1) ->
  md5_feed (PyStr.chunks_aux fuel n s) counter max_size acc
  = (acc ++ substring 0 (r * n) s)%string.
Proof.
  intros Hn. revert s counter acc r.
  induction fuel as [|fuel IH]; intros s counter acc r Hlen Hunder Hover.
  - destruct s; [|simpl in Hlen; lia]. cbn [PyStr.chunks_aux md5_feed].
    by rewrite substring_0_nil, append_nil_r.
  - cbn [PyStr.chunks_aux]. destruct s as [|c s].
    + cbn [md5_feed String.eqb]. by rewrite substring_0_nil, append_nil_r.
    + change (String.eqb (String c s) EmptyString) with false. cbv iota.
      cbn [md5_feed].
      assert (String.eqb (substring 0 n (String c s)) EmptyString = false) as ->.
      { destruct n; [lia|]. done. }
      cbn [orb]. destruct r as [|r].
      * assert ((counter + 1024 >=? max_size) = true) as -> by lia.
        rewrite Nat.mul_0_l, substring_0_0. by rewrite append_nil_r.
      * assert ((counter + 1024 >=? max_size) = false) as ->.
        { destruct Hunder as [|Hunder]; [done|]. lia. }
        rewrite (IH _ _ _ r).
        -- rewrite append_assoc. f_equal.
           change (S r * n)%nat with (n + r * n)%nat. by rewrite substring_add.
        -- rewrite substring_tail_length. simpl in *. lia.
        -- destruct Hunder as [|Hunder]; [done|]. right. lia.
        -- lia.
Qed.

(** X10: [get_remote_md5] with its default cap hashes the first
    1023 × 1024 bytes of the resource and nothing after them: the read
    that would reach 1 MiB is dropped. A resource that is not longer is
    hashed in full. The response code is not looked at. *)
Theorem remote_md5_reads_under_cap env url code body w :
  urlopen env url = Response code body ->
  get_remote_md5 env (Some url) (1 * 1024 * 1024) w
  = (Ok (MD5.hexdigest (substring 0 (1023 * 1024) body)), w)
  ∧ ((String.length body <= 1023 * 1024)%nat ->
     get_remote_md5 env (Some url) (1 * 1024 * 1024) w = (Ok (MD5.hexdigest body), w)).
Proof.
  intros Hopen.
  assert (get_remote_md5 env (Some url) (1 * 1024 * 1024) w
          = (Ok (MD5.hexdigest (substring 0 (1023 * 1024) body)), w)) as Hrun.
  { unfold get_remote_md5. rewrite Hopen. unfold ret, PyStr.chunks.
    rewrite (md5_feed_chunks _ 1024 body 0 _ EmptyString 1023); [done|lia|lia|lia|lia]. }
  split; [done|]. intros Hshort. rewrite Hrun. by rewrite substring_all.
Qed.

Lemma remote_md5_reads_under_cap_witness :
  get_remote_md5 Scenario.env_ok (Some Scenario.win64_json_url) (1 * 1024 * 1024)
    Scenario.fresh
  = (Ok (MD5.hexdigest (substring 0 (1023 * 1024) "abc")), Scenario.fresh)
  ∧ ((String.length "abc" <= 1023 * 1024)%nat ->
     get_remote_md5 Scenario.env_ok (Some Scenario.win64_json_url) (1 * 1024 * 1024)
       Scenario.fresh
     = (Ok (MD5.hexdigest "abc"), Scenario.fresh)).
Proof.
  apply (remote_md5_reads_under_cap Scenario.env_ok Scenario.win64_json_url 200 "abc").
  vm_compute. reflexivity.
Defined.

(** ** The listing of the archive server *)

Lemma collect_links_from (lines : list string) (start : gmap string string) name href :
  foldl (fun ret_dict line =>
           match search_link line with
           | Some href_link =>
               <[List.last (PyStr.split "/" href_link) EmptyString := href_link]> ret_dict
           | None => ret_dict
           end) start lines !! name = Some href ->
  start !! name = Some href
  ∨ (List.last (PyStr.split "/" href) EmptyString = name
     ∧ ∃ line, line ∈ lines ∧ search_link line = Some href).
Proof.
  revert start. induction lines as [|line lines IH]; intros start; simpl; [by left|].
  intros Hlookup. apply IH in Hlookup as [Hstart|(Hname & l & Hl & Hfound)].
  - destruct (search_link line) as [href_link|] eqn:Hsearch; [|by left].
    destruct (decide (List.last (PyStr.split "/" href_link) EmptyString = name))
      as [Heq|Hne].
    + rewrite Heq, lookup_insert_eq in Hstart. injection Hstart as ->.
      right. split; [done|]. exists line. split; [by left|done].
    + rewrite lookup_insert_ne in Hstart by done. by left.
  - right. split; [done|]. exists l. split; [by right|done].
Qed.

(** X11: fetching the listing never raises. Every entry of the mapping
    it returns comes from a response with code 200: its value is the
    link found on one line of the body and its key is what follows the
    last slash of that link. On any other outcome of the request the
    mapping is empty. *)
Theorem latest_files_are_links env w :
  ∃ files w',
    get_all_latest_files_for_md5 env w = (Ok files, w')
    ∧ quiet w w'
    ∧ (∀ name href,
         files !! name = Some href ->
         List.last (PyStr.split "/" href) EmptyString = name
         ∧ ∃ body line,
             urlopen env (urljoin env ARCHIVE_ROOT_URL ARCHIVE_LATEST_FOLDER)
             = Response 200 body
             ∧ line ∈ PyStr.readlines body
             ∧ search_link line = Some href)
    ∧ ((∀ body, urlopen env (urljoin env ARCHIVE_ROOT_URL ARCHIVE_LATEST_FOLDER)
                ≠ Response 200 body) -> files = ∅).
Proof.
  unfold get_all_latest_files_for_md5.
  destruct (urlopen env _) as [|code body] eqn:Hopen.
  - eexists ∅, (log_to w [_]). split; [by destruct w|].
    split; [by apply log_to_quiet; repeat constructor|].
    split; [intros name href Hin; by rewrite lookup_empty in Hin|done].
  - destruct (code =? 200) eqn:Hcode.
    + apply Z.eqb_eq in Hcode as ->.
      exists (collect_links (PyStr.readlines body)), w. split; [done|].
      split; [rewrite <- (log_to_nil w) at 2; by apply log_to_quiet|].
      split.
      * intros name href Hin. apply collect_links_from in Hin as [Hin|[Hname Hline]].
        -- by rewrite lookup_empty in Hin.
        -- split; [done|]. destruct Hline as (line & Hline & Hsearch).
           by exists body, line.
      * intros Hnot. by destruct (Hnot body).
    + eexists ∅, (log_to w [_]). split; [by destruct w|].
      split; [by apply log_to_quiet; repeat constructor|].
      split; [intros name href Hin; by rewrite lookup_empty in Hin|done].
Qed.

Lemma last_sorted_key {A} (m : gmap string A) :
  m ≠ ∅ ->
  is_Some (m !! List.last (sorted (map_to_list m).*1) EmptyString)
  ∧ ∀ k, is_Some (m !! k) -> str_le k (List.last (sorted (map_to_list m).*1) EmptyString).
Proof.
  intros Hne. unfold sorted.
  set (keys := (map_to_list m).*1).
  assert (Hperm : merge_sort str_le keys ≡ₚ keys) by apply merge_sort_Permutation.
  assert (Hkeys : ∀ k, k ∈ keys ↔ is_Some (m !! k)).
  { intros k. unfold keys. rewrite list_elem_of_fmap. split.
    - intros [[k' v] [-> Hin]]. apply elem_of_map_to_list in Hin. by eexists.
    - intros [v Hv]. exists (k, v). split; [done|]. by apply elem_of_map_to_list. }
  assert (Hnil : merge_sort str_le keys ≠ []).
  { intros Hnil. rewrite Hnil in Hperm. symmetry in Hperm.
    apply Permutation_nil_r in Hperm.
    apply map_size_non_empty_iff in Hne. apply Hne.
    unfold keys in Hperm. apply fmap_nil_inv in Hperm.
    by apply map_to_list_empty_iff in Hperm as ->. }
  assert (Hmem : ∀ k, k ∈ merge_sort str_le keys ↔ k ∈ keys).
  { intros k. by rewrite Hperm. }
  split.
  - apply Hkeys, Hmem. by apply last_elem_of.
  - intros k Hk. apply StronglySorted_last_max.
    + apply _.
    + apply (StronglySorted_merge_sort str_le).
    + by apply Hmem, Hkeys.
Qed.

(** X12: looking for the JSON file of a platform never raises. It gives
    a URL exactly when some name of the listing ends with
    [.<platform>.json]; the URL is then that of the greatest such name
    in the byte order of strings. Otherwise it gives [None] and logs
    that no name matches. *)
Theorem latest_json_url_is_greatest_match env platform w :
  let suffix := MATCH_FORMAT platform "json" in
  ∃ files w0 result w',
    get_all_latest_files_for_md5 env w = (Ok files, w0)
    ∧ get_latest_info_json_url_for_md5 env platform w = (Ok result, w')
    ∧ match result with
      | Some url =>
          w' = w0
          ∧ ∃ name href,
              files !! name = Some href
              ∧ PyStr.endswith name suffix = true
              ∧ url = urljoin env ARCHIVE_ROOT_URL href
              ∧ ∀ name' href', files !! name' = Some href' ->
                               PyStr.endswith name' suffix = true ->
                               String.leb name' name = true
      | None =>
          w' = log_to w0 [EvLog ERROR (MsgNoMatch suffix)]
          ∧ ∀ name href, files !! name = Some href ->
                         PyStr.endswith name suffix = false
      end.
Proof.
  intros suffix.
  destruct (get_all_latest_files_for_md5_frame env) as (files & evs & Hall & _).
  set (matched := filter (fun kv : string * string =>
                            PyStr.endswith kv.1 suffix = true) files).
  unfold get_latest_info_json_url_for_md5, bind. rewrite Hall. cbv zeta.
  fold suffix. fold matched.
  destruct (1 <=? size matched)%nat eqn:Hsize.
  - apply Nat.leb_le in Hsize.
    assert (matched ≠ ∅) as Hne.
    { apply map_size_non_empty_iff. lia. }
    destruct (last_sorted_key matched Hne) as [[href Hhref] Hmax].
    eexists files, _, (Some _), _. split; [done|]. split; [reflexivity|].
    split; [done|]. rewrite Hhref.
    apply map_lookup_filter_Some in Hhref as [Hfile Hends]. simpl in Hends.
    eexists _, href. split; [exact Hfile|]. split; [done|]. split; [done|].
    intros name' href' Hfile' Hends'. apply Hmax. exists href'.
    by apply map_lookup_filter_Some.
  - apply Nat.leb_gt in Hsize.
    assert (matched = ∅) as Hempty.
    { apply map_size_empty_iff. lia. }
    eexists files, _, None, _. split; [done|].
    split; [by destruct w|]. split; [done|].
    intros name href Hfile.
    destruct (PyStr.endswith name suffix) eqn:Hends; [|done].
    assert (matched !! name = Some href) as Hin by by apply map_lookup_filter_Some.
    by rewrite Hempty, lookup_empty in Hin.
Qed.
(** ** The masking pass *)

Lemma case_list_ok_or_not c : case_list_ok c ∨ ¬ case_list_ok c.
Proof.
  unfold case_list_ok.
  destruct (c !! CASE_LIST_KEY) as [[]|]; first [by left | right; by intros []].
Qed.

(** X13: [filter_cmd_config] returns a config exactly when the case list
    of its input, if there is one, is a list or a string; on a case list
    of any other type it raises [AttributeError], whatever else the
    config holds. *)
Theorem filter_cmd_config_raises_iff env input_config :
  ((∃ masked, filter_cmd_config env input_config = Ok masked)
   ↔ case_list_ok input_config)
  ∧ (filter_cmd_config env input_config = Raise AttributeError
     ↔ ¬ case_list_ok input_config).
Proof.
  split; split.
  - intros [masked Hrun]. destruct (case_list_ok_or_not input_config) as [|Hbad];
      [done|]. by rewrite (filter_cmd_config_ill_typed env _ Hbad) in Hrun.
  - apply filter_cmd_config_total.
  - intros Hraise Hok. destruct (filter_cmd_config_total env _ Hok) as [masked Hrun].
    congruence.
  - apply filter_cmd_config_ill_typed.
Qed.

(** ** The dispatch jobs *)

(** X14: on a change detected by the MD5 check,
    [job_pushing_meta_task_md5] publishes [amount] messages with the
    uids [prefix.1] to [prefix.amount] and the overwrite config as it was
    given, whatever the command; besides log lines it does nothing else:
    no status record is written and no job id folder created. *)
Theorem md5_job_fan_out env username password command_config job topic amount
    platform cmd_name overwrite_cmd_config w :
  (check_latest_info_json_md5_changed env job platform w).1 = Ok true ->
  ∃ w',
    job_pushing_meta_task_md5 env username password command_config job topic amount
      platform cmd_name overwrite_cmd_config w = (Ok tt, w')
    ∧ effects (trace w')
      = (effects (trace w)
           ++ (EvPublish topic cmd_name overwrite_cmd_config
                 <$> (uid_of (now_string env ++ "." ++ job) <$> seqZ 1 amount)))%list
    ∧ status_records (trace w') = status_records (trace w).
Proof.
  destruct w as [md ts sch tr]. intros Hchanged.
  destruct (check_md5_shape env job platform md ts sch tr)
    as (r & md' & evs & Hrun & Hlogs & _).
  rewrite Hrun in Hchanged. simpl in Hchanged. subst r.
  unfold job_pushing_meta_task_md5. unfold bind at 1. rewrite Hrun.
  unfold bind at 1.
  assert (∀ tr0, (if negb (queue_exists env topic)
                  then logging ERROR (MsgNoQueue topic) else ret tt)
                   (mkWorld md' ts sch tr0)
                 = (Ok tt, mkWorld md' ts sch
                             (tr0 ++ if queue_exists env topic then []
                                     else [EvLog ERROR (MsgNoQueue topic)]))) as ->.
  { intros tr0. destruct (queue_exists env topic); simpl; unfold_m; simpl;
      by rewrite ?app_nil_r. }
  unfold bind at 1. unfold logging at 1, emit at 1. simpl.
  unfold bind at 1. rewrite push_loop_run, publish_range. unfold ret.
  eexists. split; [reflexivity|]. simpl.
  rewrite !effects_app, !status_records_app, (effects_logs _ Hlogs),
    (status_records_logs _ Hlogs), effects_fan_out.
  assert (effects (if queue_exists env topic then []
                   else [EvLog ERROR (MsgNoQueue topic)]) = []) as ->
    by by destruct (queue_exists env topic).
  assert (status_records (if queue_exists env topic then []
                          else [EvLog ERROR (MsgNoQueue topic)]) = []) as ->
    by by destruct (queue_exists env topic).
  simpl. rewrite !app_nil_r. split; [done|].
  assert (∀ l : list string,
            status_records (EvPublish topic cmd_name overwrite_cmd_config <$> l) = [])
    as -> by (induction l; by simpl).
  by rewrite app_nil_r.
Qed.

Lemma md5_job_fan_out_witness :
  ∃ w',
    job_pushing_meta_task_md5 Scenario.env_ok "user" "secret" ∅ "A" "win7" 2 "win64"
      "download-specify-nightly" ∅ Scenario.fresh = (Ok tt, w')
    ∧ effects (trace w')
      = (effects (trace Scenario.fresh)
           ++ (EvPublish "win7" "download-specify-nightly" ∅
                 <$> (uid_of (now_string Scenario.env_ok ++ "." ++ "A") <$> seqZ 1 2)))%list
    ∧ status_records (trace w') = status_records (trace Scenario.fresh).
Proof.
  apply (md5_job_fan_out Scenario.env_ok "user" "secret" ∅ "A" "win7" 2 "win64"
           "download-specify-nightly" ∅ Scenario.fresh).
  vm_compute. reflexivity.
Defined.

(** X15: on a detected change with an [amount] of zero or less the
    dispatch job publishes nothing, and still writes both status
    records: the one with marker 900 lists no uid. *)
Theorem dispatch_without_messages env username password command_config job topic
    amount platform cmd_name overwrite_cmd_config w obi :
  amount <= 0 ->
  (check_latest_timestamp env job platform w).1 = Ok (true, obi) ->
  case_list_ok overwrite_cmd_config ->
  ∃ info masked w',
    obi = Some info
    ∧ filter_cmd_config env (outgoing_config cmd_name overwrite_cmd_config info)
      = Ok masked
    ∧ job_pushing_meta_task env username password command_config job topic amount
        platform cmd_name overwrite_cmd_config w = (Ok tt, w')
    ∧ published (trace w') = published (trace w)
    ∧ let job_id_fp := path_join (status_folder env) (create_job_id_folder env job) in
      status_records (trace w')
      = (status_records (trace w)
           ++ [EvStatusFile job_id_fp (STATUS_TAG_PULSE_TRIGGER env) 100 None;
               EvStatusFile job_id_fp (STATUS_TAG_PULSE_TRIGGER env) 900
                 (Some (mkContent job platform topic amount cmd_name masked []))])%list.
Proof.
  intros Hamount Hchanged Hok.
  destruct (job_pushing_meta_task_dispatch env username password command_config job
              topic amount platform cmd_name overwrite_cmd_config w obi Hchanged)
    as (info & ts' & logs & -> & Hlogs & Hrun).
  cbv zeta in Hrun.
  destruct (filter_cmd_config_total env _ (case_list_ok_outgoing cmd_name _ info Hok))
    as [masked Hmasked].
  rewrite Hmasked in Hrun. unfold seqZ in Hrun.
  replace (Z.to_nat amount) with 0%nat in Hrun by lia. simpl in Hrun.
  eexists info, masked, _. split; [done|]. split; [done|]. split; [exact Hrun|].
  cbn [trace].
  rewrite !published_app, !status_records_app, (published_logs _ Hlogs),
    (status_records_logs _ Hlogs).
  destruct (queue_exists env topic); simpl; by rewrite ?app_nil_r.
Qed.

Lemma dispatch_without_messages_witness :
  ∃ info masked w',
    Some (mkBuildInformation "https://archive.mozilla.org/pub/b" "abc123") = Some info
    ∧ filter_cmd_config Scenario.env_ok
        (outgoing_config "download-latest-nightly" ∅ info) = Ok masked
    ∧ job_pushing_meta_task Scenario.env_ok "user" "secret" ∅ "A" "win7" 0 "win64"
        "download-latest-nightly" ∅ Scenario.fresh = (Ok tt, w')
    ∧ published (trace w') = published (trace Scenario.fresh)
    ∧ let job_id_fp := path_join (status_folder Scenario.env_ok)
                         (create_job_id_folder Scenario.env_ok "A") in
      status_records (trace w')
      = (status_records (trace Scenario.fresh)
           ++ [EvStatusFile job_id_fp (STATUS_TAG_PULSE_TRIGGER Scenario.env_ok) 100 None;
               EvStatusFile job_id_fp (STATUS_TAG_PULSE_TRIGGER Scenario.env_ok) 900
                 (Some (mkContent "A" "win64" "win7" 0 "download-latest-nightly"
                          masked []))])%list.
Proof.
  apply (dispatch_without_messages Scenario.env_ok "user" "secret" ∅ "A" "win7" 0
           "win64" "download-latest-nightly" ∅ Scenario.fresh).
  - lia.
  - vm_compute. reflexivity.
  - vm_compute. exact I.
Defined.


(** ** Registering the timers *)

Lemma bind_run {A B} (m : M A) (f : A -> M B) w :
  bind m f w = match m w with
               | (Ok a, w') => f a w'
               | (Raise e, w') => (Raise e, w')
               end.
Proof. reflexivity. Qed.

(** An invariant of the body of a loop is an invariant of the loop. *)
Lemma for_each_invariant {A} (I : world -> Prop) (l : list A) (body : A -> M unit) w :
  (∀ x w, x ∈ l -> I w -> I (body x w).2) ->
  I w -> I (for_each l body w).2.
Proof.
  revert w. induction l as [|x l IH]; intros w Hbody Hw; simpl; [done|].
  rewrite bind_run. pose proof (Hbody x w (list_elem_of_here _ _) Hw) as Hx.
  destruct (body x w) as [[[]|e] w1]; simpl in *; [|done].
  apply IH; [|done]. intros y w0 Hy. apply Hbody. by right.
Qed.

(** A loop that returns has run its body to the end on each item, from a
    world in which every invariant of the body that held before the loop
    holds. *)
Lemma for_each_reaches {A} (I : world -> Prop) (l : list A) (body : A -> M unit)
    w w' x0 :
  (∀ x w, x ∈ l -> I w -> I (body x w).2) ->
  I w ->
  x0 ∈ l ->
  for_each l body w = (Ok tt, w') ->
  ∃ w1 w2, I w1 ∧ body x0 w1 = (Ok tt, w2) ∧ for_each l body w = (Ok tt, w')
           ∧ ∃ rest, for_each rest body w2 = (Ok tt, w') ∧ ∀ x, x ∈ rest -> x ∈ l.
Proof.
  revert w. induction l as [|x l IH]; intros w Hbody Hw Hin Hrun.
  - by apply elem_of_nil in Hin.
  - pose proof Hrun as Hrun0. simpl in Hrun. rewrite bind_run in Hrun.
    pose proof (Hbody x w (list_elem_of_here _ _) Hw) as Hx.
    destruct (body x w) as [[[]|e] w1] eqn:Hfirst; simpl in *; [|done].
    apply elem_of_cons in Hin as [->|Hin].
    + exists w, w1. split; [done|]. split; [done|]. split; [done|].
      exists l. split; [done|]. intros y Hy. by right.
    + destruct (IH w1) as (wa & wb & Ha & Hb & _ & rest & Hrest & Hsub); try done.
      { intros y w0 Hy. apply Hbody. by right. }
      exists wa, wb. split; [done|]. split; [done|]. split; [done|].
      exists rest. split; [done|]. intros y Hy. right. by apply Hsub.
Qed.

Lemma add_job_run job_id t md ts sch tr :
  add_job job_id t (mkWorld md ts sch tr)
  = if negb (timedelta_ok (t_interval t))
    then (Raise OverflowError, mkWorld md ts sch tr)
    else match sch !! job_id with
         | Some _ => (Raise (ConflictingIdError job_id), mkWorld md ts sch tr)
         | None => (Ok tt, mkWorld md ts (<[job_id := t]> sch) tr)
         end.
Proof. reflexivity. Qed.

(** The intervals [run] sets itself, ten seconds and ten minutes, are in
    range. *)
Lemma add_job_run_fixed job_id func md ts sch tr :
  (∀ interval, interval = Seconds 10 ∨ interval = Minutes 10 ->
     add_job job_id (mkTimer func interval 1) (mkWorld md ts sch tr)
     = match sch !! job_id with
       | Some _ => (Raise (ConflictingIdError job_id), mkWorld md ts sch tr)
       | None => (Ok tt, mkWorld md ts (<[job_id := mkTimer func interval 1]> sch) tr)
       end).
Proof. by intros interval [-> | ->]. Qed.

(** What the body of the last loop of [run] does for one job: it logs,
    and hands the job to the scheduler when it is enabled. *)
Lemma register_trigger_job_run self job_name detail w :
  ∃ evs, Forall (fun ev => is_log ev = true) evs
    ∧ register_trigger_job self (job_name, detail) w
      = if default false (jd_enable detail)
        then add_job job_name (trigger_timer self job_name detail) (log_to w evs)
        else (Ok tt, log_to w evs).
Proof.
  destruct (validate_required_frame detail
              [KEY_JOBS_TOPIC; KEY_JOBS_PLATFORM_BUILD; KEY_JOBS_CMD])
    as (valid & evs & Hrun & Hlogs & _).
  unfold register_trigger_job, _validate_job_config. rewrite bind_run, Hrun.
  destruct w as [md ts sch tr].
  destruct valid, (default false (jd_enable detail)); simpl; unfold_m; simpl.
  - exists (evs ++ [EvLog INFO (MsgJobEnabled job_name)])%list.
    split; [apply Forall_app; split; [done|by repeat constructor]|].
    by rewrite ?app_nil_r, <- ?app_assoc.
  - exists (evs ++ [EvLog INFO (MsgJobDisabled job_name)])%list.
    split; [apply Forall_app; split; [done|by repeat constructor]|].
    by rewrite ?app_nil_r, <- ?app_assoc.
  - exists (evs ++ [EvLog ERROR (MsgInvalidJob job_name detail);
                    EvLog INFO (MsgJobEnabled job_name)])%list.
    split; [apply Forall_app; split; [done|by repeat constructor]|].
    by rewrite <- ?app_assoc.
  - exists (evs ++ [EvLog ERROR (MsgInvalidJob job_name detail);
                    EvLog INFO (MsgJobDisabled job_name)])%list.
    split; [apply Forall_app; split; [done|by repeat constructor]|].
    by rewrite <- ?app_assoc.
Qed.

Lemma enabled_platforms_run (config_dict_obj : gmap string job_detail) w :
  let platform_set :=
    foldl add_enabled_platform ({[ "win64" ]} ∪ ∅) (map_to_list config_dict_obj) in
  get_enabled_platform_list_from_trigger_jobs_config config_dict_obj w
  = (Ok (elements platform_set), log_to w [EvLog INFO (MsgEnabledPlatforms platform_set)]).
Proof. by destruct w. Qed.

Lemma first_query_run (white_list : list string) platforms w :
  for_each platforms (fun platform_build =>
    do logging INFO (MsgGenerating platform_build) then
    emit (EvGenerateTable BACK_FILL_DEFAULT_QUERY_DAYS platform_build white_list)) w
  = (Ok tt, log_to w (flat_map (fun platform_build =>
                        [EvLog INFO (MsgGenerating platform_build);
                         EvGenerateTable BACK_FILL_DEFAULT_QUERY_DAYS platform_build
                           white_list]) platforms)).
Proof.
  revert w. induction platforms as [|p l IH]; intros [md ts sch tr]; simpl.
  - unfold ret, log_to. simpl. by rewrite app_nil_r.
  - rewrite bind_run. unfold_m. simpl. rewrite IH. unfold log_to. simpl.
    by rewrite <- !app_assoc.
Qed.

(** [run] cut in two: what it does up to the first query, and the two
    loops that register the timers of the platforms and of the jobs. *)
Lemma run_steps self skip_first_query md ts sch tr :
  let platform_set :=
    foldl add_enabled_platform ({[ "win64" ]} ∪ ∅) (map_to_list (jobs_config self)) in
  let platforms := elements platform_set in
  let logs := [EvLog INFO MsgAddingRotatingLogger;
               EvLog INFO (MsgRotatingLoggerDone MGT_LOG_PATH);
               EvLog INFO (MsgEnabledPlatforms platform_set)] in
  run self skip_first_query (mkWorld md ts sch tr)
  = match sch !! MGT_ID with
    | Some _ =>
        (Raise (ConflictingIdError MGT_ID),
         mkWorld md ts sch
           (tr ++ [EvAddListener; EvLog INFO MsgAddingRotatingLogger]))
    | None =>
        (do for_each platforms (fun platform_build =>
              add_job (query_id platform_build)
                (mkTimer (GenerateRelationalTable BACK_FILL_DEFAULT_QUERY_DAYS
                            platform_build (suite_white_list_for_signature self))
                         (Minutes 10) 1)) then
         for_each (map_to_list (jobs_config self)) (register_trigger_job self))
          (mkWorld md ts
             (<[MGT_ID := mkTimer (ListenResponseFromAgent (pulse_username self)
                                     (pulse_password self) MGT_LOG_PATH)
                                  (Seconds 10) 1]> sch)
             (tr ++ [EvAddListener] ++ logs
                ++ (if skip_first_query then []
                    else flat_map (fun platform_build =>
                           [EvLog INFO (MsgGenerating platform_build);
                            EvGenerateTable BACK_FILL_DEFAULT_QUERY_DAYS
                              platform_build (suite_white_list_for_signature self)])
                           platforms
                         ++ [EvLog INFO MsgGeneratingDone])))
    end.
Proof.
  intros platform_set platforms logs.
  unfold run. rewrite bind_run. unfold emit at 1. cbn [md5_folder timestamp_folder
    scheduler trace]. rewrite bind_run. unfold logging at 1, emit at 1.
  cbn [md5_folder timestamp_folder scheduler trace].
  rewrite bind_run, add_job_run_fixed by by left.
  destruct (sch !! MGT_ID) eqn:Hmgt; [by rewrite <- app_assoc|].
  rewrite bind_run. unfold logging at 1, emit at 1.
  cbn [md5_folder timestamp_folder scheduler trace].
  rewrite bind_run, enabled_platforms_run. cbv zeta. fold platform_set platforms.
  rewrite (bind_run (if negb skip_first_query then _ else _)).
  destruct skip_first_query; cbn [negb].
  - unfold ret at 1. unfold log_to.
    cbn [md5_folder timestamp_folder scheduler trace].
    rewrite app_nil_r, <- !app_assoc. reflexivity.
  - rewrite bind_run, first_query_run. unfold logging at 1, emit at 1.
    unfold log_to. cbn [md5_folder timestamp_folder scheduler trace].
    rewrite <- !app_assoc. reflexivity.
Qed.

Lemma bind_invariant {A B} (I : world -> Prop) (m : M A) (f : A -> M B) w :
  I (m w).2 -> (∀ a w1, I w1 -> I (f a w1).2) -> I (bind m f w).2.
Proof.
  intros Hm Hf. rewrite bind_run. destruct (m w) as [[a|e] w1]; simpl in *; auto.
Qed.

Lemma bind_Ok {A B} (m : M A) (f : A -> M B) w b w' :
  bind m f w = (Ok b, w') -> ∃ a w1, m w = (Ok a, w1) ∧ f a w1 = (Ok b, w').
Proof.
  rewrite bind_run. destruct (m w) as [[a|e] w1]; [|done]. intros H. by exists a, w1.
Qed.

Lemma add_job_scheduler job_id t w :
  scheduler (add_job job_id t w).2 = scheduler w
  ∨ (scheduler w !! job_id = None
     ∧ scheduler (add_job job_id t w).2 = <[job_id := t]> (scheduler w)).
Proof.
  destruct w as [md ts sch tr]. rewrite add_job_run. simpl.
  destruct (timedelta_ok (t_interval t)); [|by left].
  destruct (sch !! job_id); [by left|by right].
Qed.

Lemma add_job_trace job_id t w : trace (add_job job_id t w).2 = trace w.
Proof.
  destruct w as [md ts sch tr]. rewrite add_job_run. simpl.
  destruct (timedelta_ok (t_interval t)); [|done]. by destruct (sch !! job_id).
Qed.

(** Every property of the scheduler that is kept when a timer [run] may
    register is added under a free id is kept by [run], whatever its
    outcome. *)
Lemma run_scheduler_invariant (P : gmap string timer -> Prop) self skip_first_query w :
  (∀ sch job_id t, P sch -> sch !! job_id = None -> registered_by self job_id t ->
                   P (<[job_id := t]> sch)) ->
  P (scheduler w) ->
  P (scheduler (run self skip_first_query w).2).
Proof.
  intros Hadd Hw. destruct w as [md ts sch tr]. simpl in Hw.
  pose proof (run_steps self skip_first_query md ts sch tr) as Hrun.
  cbv zeta in Hrun. rewrite Hrun. clear Hrun.
  destruct (sch !! MGT_ID) eqn:Hmgt; [done|].
  apply (bind_invariant (fun w => P (scheduler w))).
  - apply (for_each_invariant (fun w => P (scheduler w))).
    + intros p w0 _ Hw0.
      destruct (add_job_scheduler (query_id p)
                  (mkTimer (GenerateRelationalTable BACK_FILL_DEFAULT_QUERY_DAYS p
                              (suite_white_list_for_signature self)) (Minutes 10) 1) w0)
        as [->|[Hfree ->]]; [done|].
      apply Hadd; [done|done|]. right. left. by exists p.
    + simpl. apply Hadd; [done|done|]. by left.
  - intros _ w1 Hw1.
    apply (for_each_invariant (fun w => P (scheduler w))); [|done].
    intros [name detail] w0 Hin Hw0.
    destruct (register_trigger_job_run self name detail w0) as (evs & _ & ->).
    destruct (jd_enable detail) as [[|]|] eqn:Henable; simpl; try done.
    destruct (add_job_scheduler name (trigger_timer self name detail) (log_to w0 evs))
      as [->|[Hfree ->]]; [done|].
    simpl in Hfree |- *.
    apply Hadd; [done|done|]. right. right. exists detail.
    split; [by apply elem_of_map_to_list|done].
Qed.

(** X16: [run] keeps the concurrency guard: if every timer of the
    scheduler runs one instance at a time before the call, so does every
    timer after it, those just registered included, whether [run]
    returns or raises. *)
Theorem run_registers_single_instance_timers self skip_first_query w :
  single_instance w -> single_instance (run self skip_first_query w).2.
Proof.
  intros Hw. unfold single_instance.
  apply (run_scheduler_invariant
           (fun sch => ∀ job_id t, sch !! job_id = Some t -> t_max_instances t = 1));
    [|exact Hw].
  intros sch job_id t Hsch Hfree Hreg id t'.
  destruct (decide (job_id = id)) as [->|Hne].
  - rewrite lookup_insert_eq. intros [= <-].
    destruct Hreg as [[_ ->]|[(p & _ & ->)|(detail & _ & _ & ->)]]; done.
  - rewrite lookup_insert_ne by done. apply Hsch.
Qed.

Lemma run_registers_single_instance_timers_witness :
  single_instance (run Cases.trigger false Scenario.fresh).2.
Proof.
  apply (run_registers_single_instance_timers Cases.trigger false Scenario.fresh).
  intros job_id t H. vm_compute in H. discriminate.
Defined.

(** X17: [run] never registers a timer under the name of a job that is
    disabled or not in the jobs configuration, unless that name is the id
    of the listener or of a refresh timer. *)
Theorem run_skips_disabled_jobs self skip_first_query w job_name :
  job_name ≠ MGT_ID ->
  (∀ platform_build, job_name ≠ query_id platform_build) ->
  (∀ detail, jobs_config self !! job_name = Some detail ->
             jd_enable detail ≠ Some true) ->
  scheduler w !! job_name = None ->
  scheduler (run self skip_first_query w).2 !! job_name = None.
Proof.
  intros Hmgt Hquery Hdisabled Hfree.
  apply (run_scheduler_invariant (fun sch => sch !! job_name = None)); [|done].
  intros sch job_id t Hsch _ Hreg.
  destruct (decide (job_id = job_name)) as [->|Hne]; [|by rewrite lookup_insert_ne].
  destruct Hreg as [[? _]|[(p & Hp & _)|(detail & Hjob & Henable & _)]].
  - done.
  - by destruct (Hquery p).
  - by destruct (Hdisabled detail Hjob).
Qed.

Lemma run_skips_disabled_jobs_witness :
  scheduler (run Cases.trigger false Scenario.fresh).2 !! "mac_os" = None.
Proof.
  apply (run_skips_disabled_jobs Cases.trigger false Scenario.fresh "mac_os").
  - discriminate.
  - intros p. unfold query_id. discriminate.
  - intros detail. vm_compute. intros [= <-]. discriminate.
  - vm_compute. reflexivity.
Defined.

Lemma register_trigger_job_keeps self item w job_id t :
  scheduler w !! job_id = Some t ->
  scheduler (register_trigger_job self item w).2 !! job_id = Some t.
Proof.
  intros Hin. destruct item as [name detail].
  destruct (register_trigger_job_run self name detail w) as (evs & _ & ->).
  destruct (default false (jd_enable detail)); [|done].
  destruct (add_job_scheduler name (trigger_timer self name detail) (log_to w evs))
    as [->|[Hfree ->]]; [done|].
  simpl in Hfree |- *. rewrite lookup_insert_ne; [done|]. congruence.
Qed.

(** X18: when [run] returns, every enabled job of the configuration has
    a timer under its name: it was registered for
    [job_pushing_meta_task] with [minutes = interval_minutes] (10 when
    the key is missing) and [max_instances = 1], with the amount (1 when
    missing) and the configs (empty when missing) of the job, and with
    its topic, platform and command as they are, missing or not. *)
Theorem run_registers_enabled_jobs self skip_first_query w w' job_name detail :
  run self skip_first_query w = (Ok tt, w') ->
  jobs_config self !! job_name = Some detail ->
  jd_enable detail = Some true ->
  scheduler w' !! job_name
  = Some (mkTimer (PushingMetaTask (pulse_username self) (pulse_password self)
                     (cmd_config_obj self) job_name (jd_topic detail)
                     (default 1 (jd_amount detail)) (jd_platform_build detail)
                     (jd_cmd detail) (default ∅ (jd_configs detail)))
                  (Minutes (default 10 (jd_interval_minutes detail))) 1).
Proof.
  intros Hrun Hjob Henable. destruct w as [md ts sch tr].
  pose proof (run_steps self skip_first_query md ts sch tr) as Hsteps.
  cbv zeta in Hsteps. rewrite Hsteps in Hrun. clear Hsteps.
  destruct (sch !! MGT_ID); [done|].
  apply bind_Ok in Hrun as ([] & w1 & _ & Hloop).
  destruct (for_each_reaches (fun _ => True) _ _ _ _ (job_name, detail)
              (fun _ _ _ _ => I) I (proj2 (elem_of_map_to_list _ _ _) Hjob) Hloop)
    as (wa & wb & _ & Hbody & _ & rest & Hrest & _).
  assert (scheduler wb !! job_name = Some (trigger_timer self job_name detail)) as Hwb.
  { destruct (register_trigger_job_run self job_name detail wa) as (evs & _ & Heq).
    rewrite Heq, Henable in Hbody. simpl in Hbody.
    destruct wa as [mda tsa scha tra]. unfold log_to in Hbody. simpl in Hbody.
    rewrite add_job_run in Hbody.
    destruct (timedelta_ok _); [|done].
    destruct (scha !! job_name); [done|]. injection Hbody as <-. simpl.
    by rewrite lookup_insert_eq. }
  pose proof (for_each_invariant
                (fun w => scheduler w !! job_name
                          = Some (trigger_timer self job_name detail))
                rest (register_trigger_job self) wb) as Hkeep.
  rewrite Hrest in Hkeep. apply Hkeep; [|done].
  intros item w0 _. apply register_trigger_job_keeps.
Qed.

Lemma run_registers_enabled_jobs_witness :
  scheduler (run Cases.trigger false Scenario.fresh).2 !! "win7_x64"
  = Some (mkTimer (PushingMetaTask "user" "secret" ∅ "win7_x64" (Some "win7") 2
                     (Some "win64") (Some "download-latest-nightly") ∅)
                  (Minutes 5) 1).
Proof.
  apply (run_registers_enabled_jobs Cases.trigger false Scenario.fresh
           (run Cases.trigger false Scenario.fresh).2 "win7_x64" Cases.win7_job).
  - vm_compute. reflexivity.
  - vm_compute. reflexivity.
  - reflexivity.
Defined.

Lemma for_each_refused {A} (l : list A) (body : A -> M unit) w :
  (∀ x w, (body x w).1 = Ok tt ∨ refused (body x w).1) ->
  (for_each l body w).1 = Ok tt ∨ refused (for_each l body w).1.
Proof.
  intros Hbody. revert w. induction l as [|x l IH]; intros w; simpl; [by left|].
  rewrite bind_run. destruct (Hbody x w) as [Hok|Hraise];
    destruct (body x w) as [[[]|e] w1]; simpl in *; try done.
  by right.
Qed.

Lemma add_job_refused job_id t w :
  (add_job job_id t w).1 = Ok tt ∨ refused (add_job job_id t w).1.
Proof.
  destruct w as [md ts sch tr]. rewrite add_job_run.
  destruct (timedelta_ok _); [|right; by left].
  destruct (sch !! job_id); [right; right; by eexists|by left].
Qed.

(** X19: a jobs configuration with an enabled job named like the
    listener of the management topic, [trigger_mgt_listener], cannot be
    scheduled: [run] never returns on it. It raises
    [ConflictingIdError], at the latest when it comes to that job, unless
    the interval of a job makes it raise [OverflowError] before. *)
Theorem run_refuses_listener_name self skip_first_query w detail :
  jobs_config self !! MGT_ID = Some detail ->
  jd_enable detail = Some true ->
  refused (run self skip_first_query w).1.
Proof.
  intros Hjob Henable. destruct w as [md ts sch tr].
  pose proof (run_steps self skip_first_query md ts sch tr) as Hsteps.
  cbv zeta in Hsteps. rewrite Hsteps. clear Hsteps.
  destruct (sch !! MGT_ID) eqn:Hmgt; [right; by exists MGT_ID|].
  match goal with |- refused (bind ?m ?f ?w0).1 =>
    set (loop1 := m); set (w1 := w0) end.
  assert ((bind loop1 (fun _ => for_each (map_to_list (jobs_config self))
                                  (register_trigger_job self)) w1).1 = Ok tt
          ∨ refused (bind loop1 (fun _ => for_each (map_to_list (jobs_config self))
                                   (register_trigger_job self)) w1).1)
    as [Hok|Hraise]; [| |done].
  { rewrite bind_run.
    destruct (for_each_refused (elements (foldl add_enabled_platform ({[ "win64" ]} ∪ ∅)
                                  (map_to_list (jobs_config self))))
                (fun platform_build =>
                add_job (query_id platform_build)
                  (mkTimer (GenerateRelationalTable BACK_FILL_DEFAULT_QUERY_DAYS
                              platform_build (suite_white_list_for_signature self))
                           (Minutes 10) 1)) w1 (fun p w0 => add_job_refused _ _ w0))
      as [H1|H1]; fold loop1 in H1;
      destruct (loop1 w1) as [[[]|e] w2]; simpl in H1; try done.
    - apply for_each_refused. intros [name d] w0.
      destruct (register_trigger_job_run self name d w0) as (evs & _ & ->).
      destruct (default false (jd_enable d)); [apply add_job_refused|by left].
    - by destruct H1 as [H1|[id H1]].
    - right. exact H1. }
  exfalso.
  destruct (bind loop1 _ w1) as [r w'] eqn:Hrun. simpl in Hok. subst r.
  apply bind_Ok in Hrun as ([] & w2 & Hloop1 & Hloop2).
  assert (is_Some (scheduler w2 !! MGT_ID)) as Hw2.
  { pose proof (for_each_invariant (fun w => is_Some (scheduler w !! MGT_ID))
                  (elements (foldl add_enabled_platform ({[ "win64" ]} ∪ ∅)
                               (map_to_list (jobs_config self))))
                  (fun platform_build => add_job (query_id platform_build)
                     (mkTimer (GenerateRelationalTable BACK_FILL_DEFAULT_QUERY_DAYS
                                 platform_build (suite_white_list_for_signature self))
                              (Minutes 10) 1)) w1) as Hkeep.
    fold loop1 in Hkeep. rewrite Hloop1 in Hkeep. apply Hkeep.
    - intros p w0 _ [t0 Ht0].
      destruct (add_job_scheduler (query_id p)
                  (mkTimer (GenerateRelationalTable BACK_FILL_DEFAULT_QUERY_DAYS p
                              (suite_white_list_for_signature self)) (Minutes 10) 1) w0)
        as [->|[Hfree ->]]; [by eexists|].
      rewrite lookup_insert_ne by congruence. by eexists.
    - subst w1. simpl. rewrite lookup_insert_eq. by eexists. }
  destruct (for_each_reaches (fun w => is_Some (scheduler w !! MGT_ID)) _ _ _ _
              (MGT_ID, detail)
              (fun item w0 _ '(ex_intro _ t0 Ht0) =>
                 ex_intro _ t0 (register_trigger_job_keeps self item w0 _ _ Ht0))
              Hw2 (proj2 (elem_of_map_to_list _ _ _) Hjob) Hloop2)
    as (wa & wb & [ta Hwa] & Hbody & _).
  destruct (register_trigger_job_run self MGT_ID detail wa) as (evs & _ & Heq).
  rewrite Heq, Henable in Hbody. simpl in Hbody.
  destruct wa as [mda tsa scha tra]. unfold log_to in Hbody. simpl in *.
  rewrite add_job_run, Hwa in Hbody. by destruct (timedelta_ok _).
Qed.

Lemma run_refuses_listener_name_witness :
  refused (run Cases.clashing_trigger true Scenario.fresh).1.
Proof.
  apply (run_refuses_listener_name Cases.clashing_trigger true Scenario.fresh
           Cases.win7_job).
  - vm_compute. reflexivity.
  - reflexivity.
Defined.

Lemma generated_app tr1 tr2 : generated (tr1 ++ tr2) = (generated tr1 ++ generated tr2)%list.
Proof. apply List.filter_app. Qed.

Lemma generated_logs evs :
  Forall (fun ev => is_log ev = true) evs -> generated evs = [].
Proof. apply filter_logs_nil. by intros []. Qed.

Lemma generated_first_query (white_list : list string) platforms :
  generated (flat_map (fun platform_build =>
               [EvLog INFO (MsgGenerating platform_build);
                EvGenerateTable BACK_FILL_DEFAULT_QUERY_DAYS platform_build white_list])
               platforms)
  = (fun platform_build =>
       EvGenerateTable BACK_FILL_DEFAULT_QUERY_DAYS platform_build white_list)
      <$> platforms.
Proof. induction platforms as [|p l IH]; simpl; [done|]. by f_equal. Qed.

(** X20: when the id of the listener is free, [run] refreshes the
    history before any timer of a platform or of a job is registered:
    once for each platform of the enabled-platform list, in the order of
    the list, with a window of 14 days and the suite white list of the
    trigger; with [skip_first_query] it refreshes nothing. Nothing else
    in [run] calls the refresh. *)
Theorem run_first_query self skip_first_query w :
  scheduler w !! MGT_ID = None ->
  ∃ platforms,
    (get_enabled_platform_list_from_trigger_jobs_config (jobs_config self) w).1
    = Ok platforms
    ∧ generated (trace (run self skip_first_query w).2)
      = (generated (trace w)
           ++ if skip_first_query then []
              else (fun platform_build =>
                      EvGenerateTable 14 platform_build
                        (suite_white_list_for_signature self)) <$> platforms)%list.
Proof.
  intros Hfree. destruct w as [md ts sch tr]. simpl in Hfree.
  eexists. split; [by rewrite enabled_platforms_run|].
  pose proof (run_steps self skip_first_query md ts sch tr) as Hsteps.
  cbv zeta in Hsteps. rewrite Hsteps, Hfree. clear Hsteps.
  match goal with |- generated (trace (bind ?m ?f ?w0).2) = ?rhs =>
    apply (bind_invariant (fun w => generated (trace w) = rhs)) end.
  - apply (for_each_invariant (fun w => generated (trace w) = _)).
    + intros p w0 _ Hw0. by rewrite add_job_trace.
    + simpl. rewrite !generated_app. simpl. f_equal.
      destruct skip_first_query; [done|].
      by rewrite generated_app, generated_first_query, app_nil_r.
  - intros _ w1 Hw1.
    apply (for_each_invariant (fun w => generated (trace w) = _)); [|done].
    intros [name detail] w0 _ Hw0.
    destruct (register_trigger_job_run self name detail w0) as (evs & Hlogs & ->).
    assert (generated (trace (log_to w0 evs)) = generated (trace w0)) as Hlog.
    { unfold log_to. simpl. by rewrite generated_app, (generated_logs _ Hlogs), app_nil_r. }
    destruct (default false (jd_enable detail)); cbn [snd];
      [rewrite add_job_trace|]; by rewrite Hlog.
Qed.

Lemma run_first_query_witness :
  ∃ platforms,
    (get_enabled_platform_list_from_trigger_jobs_config (jobs_config Cases.trigger)
       Scenario.fresh).1 = Ok platforms
    ∧ generated (trace (run Cases.trigger false Scenario.fresh).2)
      = (generated (trace Scenario.fresh)
           ++ if false then []
              else (fun platform_build =>
                      EvGenerateTable 14 platform_build
                        (suite_white_list_for_signature Cases.trigger)) <$> platforms)%list.
Proof.
  apply (run_first_query Cases.trigger false Scenario.fresh).
  vm_compute. reflexivity.
Defined.
(** ** Job names that are no file name *)

Lemma check_md5_not_a_file env job platform w h :
  path_kind_of job = PathDirectory ∨ path_kind_of job = PathInvalid ->
  (check_folder env MD5_HASH_FOLDER w).1 = Ok true ->
  (get_latest_info_json_md5_hash env platform w).1 = Ok h ->
  (check_latest_info_json_md5_changed env job platform w).1
  = Raise (match path_kind_of job with PathDirectory => IOError | _ => TypeError end).
Proof.
  intros Hkind Hfolder Hfetch.
  destruct (get_latest_info_json_md5_hash_frame env platform) as (r & evs & Hr & _).
  rewrite Hr in Hfetch. simpl in Hfetch. subst r.
  destruct (check_folder env MD5_HASH_FOLDER w) as [rb w1] eqn:Hcf.
  simpl in Hfolder. subst rb.
  pose proof Hcf as Hcf'.
  apply check_folder_true in Hcf' as (records & Hget & _ & _ & ->).
  unfold check_latest_info_json_md5_changed.
  unfold bind at 1. rewrite Hcf. cbn [negb].
  unfold bind at 1. rewrite Hr. destruct w as [md ts sch tr].
  unfold log_to, set_folder, get_folder.
  cbn [md5_folder timestamp_folder scheduler trace].
  rewrite md5_store.
  by destruct Hkind as [Hk | Hk]; rewrite Hk.
Qed.

Lemma check_timestamp_not_a_file env job platform w table :
  path_kind_of job = PathDirectory ∨ path_kind_of job = PathInvalid ->
  (check_folder env TIMESTAMP_FOLDER w).1 = Ok true ->
  history_table env platform = Some table ->
  table ≠ ∅ ->
  (check_latest_timestamp env job platform w).1
  = Raise (match path_kind_of job with PathDirectory => IOError | _ => TypeError end).
Proof.
  intros Hkind Hfolder Htable Hne.
  destruct (check_folder env TIMESTAMP_FOLDER w) as [rb w1] eqn:Hcf.
  simpl in Hfolder. subst rb.
  pose proof Hcf as Hcf'.
  apply check_folder_true in Hcf' as (records & Hget & _ & _ & ->).
  unfold check_latest_timestamp. rewrite Htable, (truthy_table_Some _ Hne).
  cbv zeta. change (default ∅ (Some table)) with table.
  unfold bind at 1. rewrite Hcf. cbn [negb]. destruct w as [md ts sch tr].
  unfold set_folder, get_folder.
  cbn [md5_folder timestamp_folder scheduler trace].
  rewrite timestamp_store.
  by destruct Hkind as [Hk | Hk]; rewrite Hk.
Qed.

(** X21: a job whose name is not a file name of the signature folder
    cannot be checked. For the empty name, [.] and [..] the path of the
    record is a directory, which exists, and reading it raises
    [IOError]; for a name with a NUL byte [os.path.exists] raises
    [TypeError]. This holds for the MD5 check and the timestamp check
    whenever the folder is ready and the current signature is obtained,
    and the dispatch jobs built on the checks raise the same exception
    without publishing anything. *)
Theorem check_raises_on_folder_name env username password command_config job topic
    amount platform cmd_name overwrite_cmd_config w :
  path_kind_of job = PathDirectory ∨ path_kind_of job = PathInvalid ->
  let e := match path_kind_of job with PathDirectory => IOError | _ => TypeError end in
  (∀ h,
     (check_folder env MD5_HASH_FOLDER w).1 = Ok true ->
     (get_latest_info_json_md5_hash env platform w).1 = Ok h ->
     (check_latest_info_json_md5_changed env job platform w).1 = Raise e
     ∧ (job_pushing_meta_task_md5 env username password command_config job topic
          amount platform cmd_name overwrite_cmd_config w).1 = Raise e
     ∧ effects (trace (job_pushing_meta_task_md5 env username password command_config
                         job topic amount platform cmd_name overwrite_cmd_config w).2)
       = effects (trace w))
  ∧ (∀ table,
       (check_folder env TIMESTAMP_FOLDER w).1 = Ok true ->
       history_table env platform = Some table ->
       table ≠ ∅ ->
       (check_latest_timestamp env job platform w).1 = Raise e
       ∧ (job_pushing_meta_task env username password command_config job topic
            amount platform cmd_name overwrite_cmd_config w).1 = Raise e
       ∧ effects (trace (job_pushing_meta_task env username password command_config
                           job topic amount platform cmd_name overwrite_cmd_config w).2)
         = effects (trace w)).
Proof.
  intros Hkind e. split.
  - intros h Hfolder Hfetch.
    pose proof (check_md5_not_a_file env job platform w h Hkind Hfolder Hfetch)
      as Hcheck.
    fold e in Hcheck. split; [done|].
    destruct w as [md ts sch tr].
    destruct (check_md5_shape env job platform md ts sch tr)
      as (r & md' & evs & Hrun & Hlogs & _).
    rewrite Hrun in Hcheck. simpl in Hcheck. subst r.
    assert (job_pushing_meta_task_md5 env username password command_config job topic
              amount platform cmd_name overwrite_cmd_config (mkWorld md ts sch tr)
            = (Raise e, mkWorld md' ts sch (tr ++ evs))) as ->.
    { unfold job_pushing_meta_task_md5. unfold bind at 1. by rewrite Hrun. }
    split; [done|]. cbn [snd trace].
    by rewrite effects_app, (effects_logs _ Hlogs), app_nil_r.
  - intros table Hfolder Htable Hne.
    pose proof (check_timestamp_not_a_file env job platform w table Hkind Hfolder
                  Htable Hne) as Hcheck.
    fold e in Hcheck. split; [done|].
    destruct w as [md ts sch tr].
    destruct (check_latest_timestamp_frame env job platform md ts sch)
      as (r & ts' & evs & Hrun & Hlogs & _).
    rewrite Hrun in Hcheck. simpl in Hcheck. subst r.
    assert (job_pushing_meta_task env username password command_config job topic
              amount platform cmd_name overwrite_cmd_config (mkWorld md ts sch tr)
            = (Raise e, mkWorld md ts' sch
                          ((tr ++ [EvLog INFO (MsgChecking job platform)]) ++ evs)))
      as ->.
    { unfold job_pushing_meta_task.
      unfold bind at 1. unfold logging at 1, emit at 1.
      cbn [md5_folder timestamp_folder scheduler trace].
      unfold bind at 1. by rewrite Hrun. }
    split; [done|]. cbn [snd trace].
    rewrite !effects_app, (effects_logs _ Hlogs). simpl. by rewrite !app_nil_r.
Qed.

Lemma check_raises_on_folder_name_witness :
  ((check_latest_info_json_md5_changed Scenario.env_ok EmptyString "win64"
      Scenario.fresh).1 = Raise IOError
   ∧ (job_pushing_meta_task_md5 Scenario.env_ok "user" "secret" ∅ EmptyString "win7" 2
        "win64" "download-latest-nightly" ∅ Scenario.fresh).1 = Raise IOError
   ∧ effects (trace (job_pushing_meta_task_md5 Scenario.env_ok "user" "secret" ∅
                       EmptyString "win7" 2 "win64" "download-latest-nightly" ∅
                       Scenario.fresh).2)
     = effects (trace Scenario.fresh))
  ∧ ((check_latest_timestamp Scenario.env_ok EmptyString "win64" Scenario.fresh).1
     = Raise IOError
     ∧ (job_pushing_meta_task Scenario.env_ok "user" "secret" ∅ EmptyString "win7" 2
          "win64" "download-latest-nightly" ∅ Scenario.fresh).1 = Raise IOError
     ∧ effects (trace (job_pushing_meta_task Scenario.env_ok "user" "secret" ∅
                         EmptyString "win7" 2 "win64" "download-latest-nightly" ∅
                         Scenario.fresh).2)
       = effects (trace Scenario.fresh)).
Proof.
  destruct (check_raises_on_folder_name Scenario.env_ok "user" "secret" ∅ EmptyString
              "win7" 2 "win64" "download-latest-nightly" ∅ Scenario.fresh)
    as [Hmd5 Hts]; [left; vm_compute; reflexivity|].
  split.
  - apply (Hmd5 "900150983cd24fb0d6963f7d28e17f72"); vm_compute; reflexivity.
  - apply (Hts Scenario.history); [vm_compute; reflexivity | vm_compute; reflexivity|].
    intros H. apply (f_equal size) in H. vm_compute in H. discriminate.
Defined.
(** ** The reset operations *)

(** What a reset does once its folder is a directory. *)
Lemma clean_by_job_name_dir env outside_isfile outside_remove_ok f job md ts sch tr
    records :
  get_folder f (mkWorld md ts sch tr) = FolderDir records ->
  let w := mkWorld md ts sch tr in
  clean_by_job_name env outside_isfile outside_remove_ok f job w
  = match path_kind_of job with
    | PathInvalid => (Raise TypeError, w)
    | PathOutside =>
        if outside_exists env f job then
          if outside_isfile f job then
            if outside_remove_ok f job then (Ok (true, []), w)
            else (Ok (false, []), log_to w [EvLog ERROR MsgOSError])
          else (Ok (false, [WarnNotAFile f job]), w)
        else (Ok (true, [DebugNotExists f job]), w)
    | PathDirectory => (Ok (false, [WarnNotAFile f job]), w)
    | PathFile =>
        match records !! job with
        | Some _ =>
            if os_remove_ok env
            then (Ok (true, []), set_folder f (FolderDir (delete job records)) w)
            else (Ok (false, []), log_to w [EvLog ERROR MsgOSError])
        | None => (Ok (true, [DebugNotExists f job]), w)
        end
    end.
Proof.
  intros Hget w. subst w. unfold clean_by_job_name. unfold bind at 1.
  rewrite check_folder_run, Hget. cbn [negb].
  destruct f; simpl in Hget; subst;
    unfold bind, path_exists, isfile, remove_record, try_except, stored_record,
      logging, emit, ret, log_to, get_folder, set_folder; simpl;
    (destruct (path_kind_of job); try done;
     [ destruct (outside_exists env _ job); [|done];
       destruct (outside_isfile _ job); [|done];
       destruct (outside_remove_ok _ job); by simpl
     | destruct (records !! job) as [content|] eqn:Hrec;
       repeat (progress (simpl; rewrite ?Hrec));
       [destruct (os_remove_ok env); by simpl|done] ]).
Qed.

(** X22: a reset of a job that has a record, in either folder
    ([clean_md5_by_job_name], [clean_timestamp_by_job_name]): when
    [os.remove] succeeds it returns [True], the record is gone and
    nothing else has changed, no other record, not the other folder, no
    timer, and nothing is logged; when [os.remove] fails it returns
    [False], logs the error and leaves everything as it was. *)
Theorem reset_removes_record env outside_isfile outside_remove_ok f job w content :
  stored_record f job w = Some content ->
  let done := clean_by_job_name env outside_isfile outside_remove_ok f job w in
  (os_remove_ok env = true ->
   done.1 = Ok (true, [])
   ∧ stored_record f job done.2 = None
   ∧ (∀ other, other ≠ job -> stored_record f other done.2 = stored_record f other w)
   ∧ (∀ f', f' ≠ f -> get_folder f' done.2 = get_folder f' w)
   ∧ scheduler done.2 = scheduler w
   ∧ trace done.2 = trace w)
  ∧ (os_remove_ok env = false ->
     done = (Ok (false, []), log_to w [EvLog ERROR MsgOSError])).
Proof.
  intros Hrec done. subst done.
  apply stored_record_Some in Hrec as (Hkind & records & Hget & Hrec).
  destruct w as [md ts sch tr].
  rewrite (clean_by_job_name_dir _ _ _ _ _ _ _ _ _ records Hget).
  cbv zeta. rewrite Hkind, Hrec. split; intros Hrm; rewrite Hrm; [|done].
  split; [done|]. cbn [snd]. split.
  { unfold stored_record. rewrite Hkind. destruct f; simpl; apply lookup_delete_eq. }
  split.
  { intros other Hother. unfold stored_record. rewrite Hget.
    destruct (path_kind_of other); try done.
    destruct f; simpl; by rewrite lookup_delete_ne. }
  split; [intros f' Hf'; by destruct f, f'|]. by destruct f.
Qed.

Lemma reset_removes_record_witness :
  let done := clean_md5_by_job_name Scenario.env_ok (fun _ _ => false)
                (fun _ _ => false) "A" (Scenario.with_md5 "A" "deadbeef") in
  done.1 = Ok (true, [])
  ∧ stored_record MD5_HASH_FOLDER "A" done.2 = None
  ∧ (∀ other, other ≠ "A" ->
       stored_record MD5_HASH_FOLDER other done.2
       = stored_record MD5_HASH_FOLDER other (Scenario.with_md5 "A" "deadbeef"))
  ∧ (∀ f', f' ≠ MD5_HASH_FOLDER ->
       get_folder f' done.2 = get_folder f' (Scenario.with_md5 "A" "deadbeef"))
  ∧ scheduler done.2 = scheduler (Scenario.with_md5 "A" "deadbeef")
  ∧ trace done.2 = trace (Scenario.with_md5 "A" "deadbeef").
Proof.
  apply (reset_removes_record Scenario.env_ok (fun _ _ => false) (fun _ _ => false)
           MD5_HASH_FOLDER "A" (Scenario.with_md5 "A" "deadbeef") "deadbeef").
  - vm_compute. reflexivity.
  - reflexivity.
Defined.

(** X23: a reset that has nothing to remove. For a file name without a
    record it returns [True] when its folder can be prepared, after a
    debug line, and does nothing beyond the folder check. For the empty
    name, [.] and [..], which name a directory, it returns [False] after
    a warning. When the folder cannot be prepared it returns [False]
    for every job name. *)
Theorem reset_without_record env outside_isfile outside_remove_ok f job w :
  let done := clean_by_job_name env outside_isfile outside_remove_ok f job w in
  let checked := check_folder env f w in
  (checked.1 = Ok true ->
   (path_kind_of job = PathFile -> stored_record f job w = None ->
    done = (Ok (true, [DebugNotExists f job]), checked.2))
   ∧ (path_kind_of job = PathDirectory ->
      done = (Ok (false, [WarnNotAFile f job]), checked.2)))
  ∧ (checked.1 = Ok false -> done = (Ok (false, []), checked.2)).
Proof.
  intros done checked. subst done checked. split.
  - intros Hfolder.
    destruct (check_folder env f w) as [rb w1] eqn:Hcf. simpl in Hfolder. subst rb.
    pose proof Hcf as Hcf'.
    apply check_folder_true in Hcf' as (records & Hget & _ & Hrecs & ->).
    assert (clean_by_job_name env outside_isfile outside_remove_ok f job w
            = clean_by_job_name env outside_isfile outside_remove_ok f job
                (set_folder f (FolderDir records) w)) as ->.
    { unfold clean_by_job_name. unfold bind at 1. rewrite Hcf. cbn [negb].
      symmetry. unfold bind at 1. by rewrite check_folder_run, Hget. }
    assert (path_kind_of job = PathFile -> stored_record f job w = None ->
            records !! job = None) as Hlook.
    { intros Hk Hn. specialize (Hrecs job). rewrite Hn in Hrecs.
      unfold stored_record in Hrecs. by rewrite Hk, Hget in Hrecs. }
    destruct w as [md ts sch tr].
    assert (set_folder f (FolderDir records) (mkWorld md ts sch tr)
            = mkWorld (md5_folder (set_folder f (FolderDir records)
                                     (mkWorld md ts sch tr)))
                      (timestamp_folder (set_folder f (FolderDir records)
                                           (mkWorld md ts sch tr))) sch tr) as Hw
      by by destruct f.
    rewrite Hw in Hget |- *.
    rewrite (clean_by_job_name_dir _ _ _ _ _ _ _ _ _ records Hget). cbv zeta.
    split.
    + intros Hkind Hnone. by rewrite Hkind, (Hlook Hkind Hnone).
    + by intros ->.
  - intros Hfolder. unfold clean_by_job_name. unfold bind at 1.
    destruct (check_folder env f w) as [rb w1]. simpl in Hfolder. by subst rb.
Qed.

Lemma reset_without_record_witness :
  (clean_timestamp_by_job_name Scenario.env_ok (fun _ _ => false) (fun _ _ => false)
     "A" Scenario.fresh
   = (Ok (true, [DebugNotExists TIMESTAMP_FOLDER "A"]),
      (check_folder Scenario.env_ok TIMESTAMP_FOLDER Scenario.fresh).2)
   ∧ clean_timestamp_by_job_name Scenario.env_ok (fun _ _ => false) (fun _ _ => false)
       EmptyString Scenario.fresh
     = (Ok (false, [WarnNotAFile TIMESTAMP_FOLDER EmptyString]),
        (check_folder Scenario.env_ok TIMESTAMP_FOLDER Scenario.fresh).2))
  ∧ clean_timestamp_by_job_name Scenario.env_read_only (fun _ _ => false)
      (fun _ _ => false) "A" Scenario.fresh
    = (Ok (false, []),
       (check_folder Scenario.env_read_only TIMESTAMP_FOLDER Scenario.fresh).2).
Proof.
  split; [split|].
  - destruct (reset_without_record Scenario.env_ok (fun _ _ => false)
                (fun _ _ => false) TIMESTAMP_FOLDER "A" Scenario.fresh) as [Hok _].
    destruct Hok as [Hfile _]; [vm_compute; reflexivity|].
    apply Hfile; vm_compute; reflexivity.
  - destruct (reset_without_record Scenario.env_ok (fun _ _ => false)
                (fun _ _ => false) TIMESTAMP_FOLDER EmptyString Scenario.fresh)
      as [Hok _].
    destruct Hok as [_ Hdir]; [vm_compute; reflexivity|].
    apply Hdir; vm_compute; reflexivity.
  - destruct (reset_without_record Scenario.env_read_only (fun _ _ => false)
                (fun _ _ => false) TIMESTAMP_FOLDER "A" Scenario.fresh) as [_ Hno].
    apply Hno; vm_compute; reflexivity.
Defined.

(** X24: a reset makes the next check a first check. When the record of
    a job is removed by [clean_timestamp_by_job_name], the timestamp
    check that follows reports a change with the [BuildInformation] of
    the latest timestamp and stores that timestamp, whatever the record
    held before, provided the history table is not empty and the record
    file can be created; in the same way the MD5 check that follows
    [clean_md5_by_job_name] reports a change and stores the hash it
    fetches. *)
Theorem reset_then_check_reports_change env outside_isfile outside_remove_ok job
    platform w content :
  os_remove_ok env = true ->
  os_create_ok env = true ->
  (stored_record TIMESTAMP_FOLDER job w = Some content ->
   ∀ table,
     history_table env platform = Some table ->
     table ≠ ∅ ->
     let cleaned := (clean_timestamp_by_job_name env outside_isfile outside_remove_ok
                       job w).2 in
     ∃ info w',
       check_latest_timestamp env job platform cleaned = (Ok (true, Some info), w')
       ∧ table !! latest_key table = Some info
       ∧ stored_record TIMESTAMP_FOLDER job w' = Some (latest_key table))
  ∧ (stored_record MD5_HASH_FOLDER job w = Some content ->
     ∀ h,
       (get_latest_info_json_md5_hash env platform w).1 = Ok h ->
       let cleaned := (clean_md5_by_job_name env outside_isfile outside_remove_ok
                         job w).2 in
       ∃ w',
         check_latest_info_json_md5_changed env job platform cleaned = (Ok true, w')
         ∧ stored_record MD5_HASH_FOLDER job w' = Some h).
Proof.
  intros Hrm Hcreate.
  assert (∀ f, stored_record f job w = Some content ->
            path_kind_of job = PathFile
            ∧ stored_record f job
                (clean_by_job_name env outside_isfile outside_remove_ok f job w).2 = None
            ∧ (check_folder env f
                 (clean_by_job_name env outside_isfile outside_remove_ok f job w).2).1
              = Ok true) as Hclean.
  { intros f Hrec.
    apply stored_record_Some in Hrec as (Hkind & records & Hget & Hrec).
    split; [done|]. destruct w as [md ts sch tr].
    rewrite (clean_by_job_name_dir _ _ _ _ _ _ _ _ _ records Hget).
    cbv zeta. rewrite Hkind, Hrec, Hrm. cbn [snd]. split.
    - unfold stored_record. rewrite Hkind. destruct f; simpl; apply lookup_delete_eq.
    - rewrite check_folder_run. by destruct f. }
  split.
  - intros Hrec table Htable Hne cleaned.
    destruct (Hclean TIMESTAMP_FOLDER Hrec) as (Hkind & Hnone & Hfolder).
    destruct (check_timestamp_first env job platform cleaned table
                Hkind Hnone Hfolder Htable Hne) as (info & w' & Hrun & Hinfo & Hstored).
    rewrite Hcreate in Hrun, Hstored. by exists info, w'.
  - intros Hrec h Hfetch cleaned.
    destruct (Hclean MD5_HASH_FOLDER Hrec) as (Hkind & Hnone & Hfolder).
    destruct (check_md5_first env job platform cleaned h Hkind Hnone Hfolder)
      as (w' & Hrun & Hstored).
    { destruct (get_latest_info_json_md5_hash_frame env platform)
        as (r & evs & Hr & _).
      rewrite Hr in Hfetch |- *. exact Hfetch. }
    rewrite Hcreate in Hrun, Hstored. by exists w'.
Qed.

Lemma reset_then_check_reports_change_witness :
  (let cleaned := (clean_timestamp_by_job_name Scenario.env_ok (fun _ _ => false)
                     (fun _ _ => false) "A"
                     (Scenario.with_timestamp "A" "2020-02-02T02:00:00")).2 in
   ∃ info w',
     check_latest_timestamp Scenario.env_ok "A" "win64" cleaned
     = (Ok (true, Some info), w')
     ∧ Scenario.history !! latest_key Scenario.history = Some info
     ∧ stored_record TIMESTAMP_FOLDER "A" w' = Some (latest_key Scenario.history))
  ∧ (let cleaned := (clean_md5_by_job_name Scenario.env_ok (fun _ _ => false)
                       (fun _ _ => false) "A"
                       (Scenario.with_md5 "A" "900150983cd24fb0d6963f7d28e17f72")).2 in
     ∃ w',
       check_latest_info_json_md5_changed Scenario.env_ok "A" "win64" cleaned
       = (Ok true, w')
       ∧ stored_record MD5_HASH_FOLDER "A" w'
         = Some "900150983cd24fb0d6963f7d28e17f72").
Proof.
  split.
  - destruct (reset_then_check_reports_change Scenario.env_ok (fun _ _ => false)
                (fun _ _ => false) "A" "win64"
                (Scenario.with_timestamp "A" "2020-02-02T02:00:00")
                "2020-02-02T02:00:00") as [Hts _]; [reflexivity | reflexivity |].
    apply Hts; [vm_compute; reflexivity | vm_compute; reflexivity |].
    intros H. apply (f_equal size) in H. vm_compute in H. discriminate.
  - destruct (reset_then_check_reports_change Scenario.env_ok (fun _ _ => false)
                (fun _ _ => false) "A" "win64"
                (Scenario.with_md5 "A" "900150983cd24fb0d6963f7d28e17f72")
                "900150983cd24fb0d6963f7d28e17f72") as [_ Hmd5];
      [reflexivity | reflexivity |].
    apply Hmd5; vm_compute; reflexivity.
Defined.
(** ** Re-creating the queues *)

Lemma fold_enabled_topics items (s : gset string) t :
  t ∈ foldl add_enabled_topic s items
  ↔ t ∈ s ∨ (t ≠ EmptyString
             ∧ ∃ name detail, (name, detail) ∈ items
                 ∧ jd_enable detail = Some true
                 ∧ jd_topic detail = Some t).
Proof.
  revert s. induction items as [|[name detail] items IH]; intros s; simpl.
  - split; [by left|]. intros [H|(_ & n & d & H & _)]; [done|by apply elem_of_nil in H].
  - rewrite IH. unfold add_enabled_topic. simpl. split.
    + intros [Ht|(Hne & n & d & Hin & He & Htopic)].
      * destruct (jd_enable detail) as [[|]|] eqn:He;
          destruct (jd_topic detail) as [topic|] eqn:Htopic; simpl in Ht;
          try (by left).
        destruct (String.eqb topic EmptyString) eqn:Htopic0; simpl in Ht; [by left|].
        apply elem_of_union in Ht as [Ht|Ht]; [by left|].
        apply elem_of_singleton in Ht as ->. right.
        apply String.eqb_neq in Htopic0. split; [done|].
        exists name, detail. split; [by left|done].
      * right. split; [done|]. exists n, d. split; [by right|done].
    + intros [Ht|(Hne & n & d & Hin & He & Htopic)].
      * left. destruct (_ && _); [apply elem_of_union; by left|done].
      * apply elem_of_cons in Hin as [[= -> ->]|Hin].
        -- left. rewrite He, Htopic. simpl.
           apply String.eqb_neq in Hne. rewrite Hne. simpl.
           apply elem_of_union. right. by apply elem_of_singleton.
        -- right. split; [done|]. by exists n, d.
Qed.

Lemma recreate_queues_elem re_create username password (topics : list string) ev :
  ev ∈ flat_map (recreate_queue re_create username password) topics
  ↔ ∃ topic, topic ∈ topics
      ∧ (ev = QRecreate username password topic
         ∨ (ev = QLogNotRecreated topic
            ∧ re_create username password topic = false)).
Proof.
  induction topics as [|t l IH]; simpl.
  - split; [by intros H%elem_of_nil|]. by intros (topic & H%elem_of_nil & _).
  - rewrite elem_of_cons, elem_of_app, IH. unfold recreate_queue.
    split.
    + intros [->|[Hin|(topic & Hin & Hev)]].
      * exists t. split; [by left|by left].
      * exists t. split; [by left|]. right.
        destruct (re_create username password t); simpl in Hin;
          [by apply elem_of_nil in Hin|].
        apply list_elem_of_singleton in Hin. by split.
      * exists topic. split; [by right|done].
    + intros (topic & Hin & Hev). apply elem_of_cons in Hin as [->|Hin].
      * destruct Hev as [->|[-> Hfail]]; [by left|].
        right. left. rewrite Hfail. simpl. by left.
      * right. right. by exists topic.
Qed.

Lemma recreate_queues_filter re_create username password (topics : list string) :
  List.filter is_recreate (flat_map (recreate_queue re_create username password) topics)
  = QRecreate username password <$> topics.
Proof.
  induction topics as [|t l IH]; simpl; [done|]. f_equal.
  rewrite List.filter_app, IH.
  by destruct (re_create username password t).
Qed.

(** X25: [clean_pulse_queues] re-creates the queue of a topic exactly
    when the topic is not empty and is the topic of an enabled job, with
    the account of the trigger, and each such queue once, however many
    jobs share the topic; it logs an error for a topic exactly when the
    re-creation of its queue returned false; its first and last acts are
    its two framing log lines. *)
Theorem clean_pulse_queues_recreates_enabled re_create self :
  let acts := clean_pulse_queues re_create self in
  (∀ username password topic,
     QRecreate username password topic ∈ acts
     ↔ username = pulse_username self ∧ password = pulse_password self
       ∧ topic ≠ EmptyString
       ∧ ∃ name detail, jobs_config self !! name = Some detail
                        ∧ jd_enable detail = Some true
                        ∧ jd_topic detail = Some topic)
  ∧ NoDup (List.filter is_recreate acts)
  ∧ (∀ topic,
       QLogNotRecreated topic ∈ acts
       ↔ QRecreate (pulse_username self) (pulse_password self) topic ∈ acts
         ∧ re_create (pulse_username self) (pulse_password self) topic = false)
  ∧ head acts = Some QLogCleaning
  ∧ last acts = Some QLogDone.
Proof.
  intros acts. subst acts. unfold clean_pulse_queues.
  set (queues_set := foldl add_enabled_topic ∅ (map_to_list (jobs_config self))).
  assert (∀ topic, topic ∈ elements queues_set
                   ↔ topic ≠ EmptyString
                     ∧ ∃ name detail, jobs_config self !! name = Some detail
                                      ∧ jd_enable detail = Some true
                                      ∧ jd_topic detail = Some topic) as Htopics.
  { intros topic. rewrite elem_of_elements. unfold queues_set.
    rewrite fold_enabled_topics. split.
    - intros [H|(Hne & n & d & Hin & He & Ht)]; [by apply elem_of_empty in H|].
      split; [done|]. exists n, d. split; [by apply elem_of_map_to_list|done].
    - intros (Hne & n & d & Hin & He & Ht). right. split; [done|].
      exists n, d. split; [by apply elem_of_map_to_list|done]. }
  assert (∀ ev, ev ∈ ([QLogCleaning; QLogEnabledQueues queues_set]
                        ++ flat_map (recreate_queue re_create (pulse_username self)
                                       (pulse_password self)) (elements queues_set)
                        ++ [QLogDone])%list
                ↔ ev = QLogCleaning ∨ ev = QLogEnabledQueues queues_set ∨ ev = QLogDone
                  ∨ ∃ topic, topic ∈ elements queues_set
                      ∧ (ev = QRecreate (pulse_username self) (pulse_password self) topic
                         ∨ (ev = QLogNotRecreated topic
                            ∧ re_create (pulse_username self) (pulse_password self)
                                topic = false))) as Hacts.
  { intros ev. rewrite !elem_of_app, recreate_queues_elem, !elem_of_cons.
    rewrite !elem_of_nil. tauto. }
  split; [|split; [|split; [|split]]].
  - intros username password topic. rewrite Hacts, <- Htopics. split.
    + intros [H|[H|[H|(t & Hin & [[= -> -> ->]|[H _]])]]]; done.
    + intros (-> & -> & Hin). right. right. right. exists topic. split; [done|by left].
  - rewrite !List.filter_app, recreate_queues_filter. simpl. rewrite app_nil_r.
    apply NoDup_fmap_2; [|apply NoDup_elements]. by intros ?? [=].
  - intros topic. rewrite !Hacts. split.
    + intros [H|[H|[H|(t & Hin & [H|[[= ->] Hfail]])]]]; try done.
      split; [|done]. right. right. right. exists t. split; [done|by left].
    + intros [[H|[H|[H|(t & Hin & [[= ->]|[H _]])]]] Hfail]; try done.
      right. right. right. exists t. split; [done|by right].
  - done.
  - rewrite app_assoc. apply last_snoc.
Qed.

Lemma clean_pulse_queues_run_example :
  clean_pulse_queues Cases.re_create Cases.trigger
  = [QLogCleaning; QLogEnabledQueues {[ "win7" ]};
     QRecreate "user" "secret" "win7"; QLogNotRecreated "win7"; QLogDone].
Proof. vm_compute. reflexivity. Qed.
